(** * Easymart catalogue search: lexical index, hybrid ranking, result filters

    A shallow embedding of the Python search core
    ([catalog_index/indexing/bm25_index.py], [hybrid_search.py],
    [catalog_index/catalog.py], [retrieval/product_search.py]) together with
    the properties its specification states about it.

    Conventions of the embedding:
    - Python [str] is [string]; text is taken to be ASCII, so [str.lower]
      touches [A-Z] only and the regex class [\w] is [[A-Za-z0-9_]];
    - Python [float] scores are exact rationals ([Q]); every comparison the
      code performs is on these rationals;
    - a [dict] whose iteration order matters is an association list in
      insertion order; the document store (a keyed SQL table written with
      [session.merge]) is a [gmap];
    - the term-weighting scorer of [rank_bm25], [pickle], the embedding model
      with its nearest-neighbour store, and [json] are external libraries:
      each is a type class whose methods the components call;
    - a call that may raise returns a [Py.result]; failures of the database
      session, of the file system calls and of the embedding model are not
      modelled;
    - the memo table of [_expand_query] and the result cache of the product
      searcher only replay earlier answers; the components are modelled
      without them first, and modules [Expansion] and [ProductSearch] add
      them. *)

From Stdlib Require Import List Bool Arith Lia ZArith QArith Qminmax Qpower Lqa.
From Stdlib Require Import Ascii String Permutation Sorted.
From Stdlib Require DecimalString DecimalNat DecimalFacts.
From stdpp Require Import base option gmap strings.
Import ListNotations.

Open Scope string_scope.
Open Scope list_scope.

(** ** Python string primitives *)

Module PyStr.

Definition in_range (lo hi : nat) (a : ascii) : bool :=
  let n := nat_of_ascii a in (lo <=? n)%nat && (n <=? hi)%nat.

(** [\w] on ASCII text. *)
Definition is_word_char (a : ascii) : bool :=
  in_range 97 122 a || in_range 65 90 a || in_range 48 57 a
  || Ascii.eqb a "_"%char.

(** [str.isspace] on ASCII text: TAB..CR, FS..US and the blank. *)
Definition is_space (a : ascii) : bool :=
  in_range 9 13 a || in_range 28 32 a.

Definition lower_char (a : ascii) : ascii :=
  if in_range 65 90 a then ascii_of_nat (nat_of_ascii a + 32) else a.

Fixpoint lower (s : string) : string :=
  match s with
  | EmptyString => EmptyString
  | String a r => String (lower_char a) (lower r)
  end.

(** [needle in hay] *)
Fixpoint contains (needle hay : string) : bool :=
  String.prefix needle hay ||
  match hay with
  | EmptyString => false
  | String _ r => contains needle r
  end.

Definition flush (cur : string) : list string :=
  match cur with EmptyString => [] | _ => [cur] end.

(** Maximal runs of characters satisfying [p], left to right. *)
Fixpoint runs (p : ascii -> bool) (cur s : string) : list string :=
  match s with
  | EmptyString => flush cur
  | String a r =>
      if p a then runs p (cur ++ String a EmptyString) r
      else flush cur ++ runs p EmptyString r
  end.

(** [re.findall(r'\b\w+\b', s)] *)
Definition findall_words (s : string) : list string :=
  runs is_word_char EmptyString s.

(** [s.split()] *)
Definition split (s : string) : list string :=
  runs (fun a => negb (is_space a)) EmptyString s.

Fixpoint lstrip (s : string) : string :=
  match s with
  | String a r => if is_space a then lstrip r else s
  | EmptyString => EmptyString
  end.

Fixpoint rstrip (s : string) : string :=
  match s with
  | EmptyString => EmptyString
  | String a r =>
      match rstrip r with
      | EmptyString => if is_space a then EmptyString else String a EmptyString
      | r' => String a r'
      end
  end.

(** [s.strip()] *)
Definition strip (s : string) : string := rstrip (lstrip s).

(** [sep.join(l)] *)
Fixpoint join (sep : string) (l : list string) : string :=
  match l with
  | [] => EmptyString
  | [x] => x
  | x :: r => x ++ sep ++ join sep r
  end.

Fixpoint replace_char (a b : ascii) (s : string) : string :=
  match s with
  | EmptyString => EmptyString
  | String c r => String (if Ascii.eqb c a then b else c) (replace_char a b r)
  end.

Definition mem (x : string) (l : list string) : bool :=
  existsb (String.eqb x) l.

(** [set(l)] as a duplicate-free list (first occurrences, in order). *)
Fixpoint dedup (l : list string) : list string :=
  match l with
  | [] => []
  | x :: r => x :: List.filter (fun y => negb (String.eqb x y)) (dedup r)
  end.

Definition word_char_opt (o : option ascii) : bool :=
  match o with Some a => is_word_char a | None => false end.

Definition head_char (s : string) : option ascii :=
  match s with String a _ => Some a | EmptyString => None end.

Fixpoint last_char (d : option ascii) (s : string) : option ascii :=
  match s with
  | EmptyString => d
  | String a r => last_char (Some a) r
  end.

Fixpoint drop (n : nat) (s : string) : string :=
  match n, s with
  | O, _ => s
  | S k, String _ r => drop k r
  | S _, EmptyString => EmptyString
  end.

(** [\b] between the characters [l] and [r] ([None] is an end of the text). *)
Definition boundary (l r : option ascii) : bool :=
  xorb (word_char_opt l) (word_char_opt r).

Definition word_match_here (kw : string) (prev : option ascii) (s : string) : bool :=
  String.prefix kw s
  && boundary prev (head_char s)
  && boundary (last_char prev kw) (head_char (drop (String.length kw) s)).

Fixpoint word_search_from (kw : string) (prev : option ascii) (s : string) : bool :=
  word_match_here kw prev s ||
  match s with
  | EmptyString => false
  | String a r => word_search_from kw (Some a) r
  end.

(** [re.search(rf'\b{re.escape(kw)}\b', s)] as a truth value. *)
Definition word_search (kw s : string) : bool := word_search_from kw None s.

(** [s.endswith('s')] and [s[:-1]] *)
Definition ends_with_s (s : string) : bool :=
  match last_char None s with
  | Some a => Ascii.eqb a "s"%char
  | None => false
  end.

Fixpoint drop_last (s : string) : string :=
  match s with
  | EmptyString => EmptyString
  | String a EmptyString => EmptyString
  | String a r => String a (drop_last r)
  end.

(** A character [str.lower] leaves as it is. *)
Definition is_lower_char (a : ascii) : bool := Ascii.eqb (lower_char a) a.

Fixpoint all_chars (p : ascii -> bool) (s : string) : bool :=
  match s with
  | EmptyString => true
  | String a r => p a && all_chars p r
  end.

End PyStr.

(** ** Lexical index: tokenizer ([bm25_index.py]) *)

Module BM25.

Definition STOP_WORDS : list string :=
  ["a"; "an"; "and"; "are"; "as"; "at"; "be"; "by"; "for"; "from"; "has"; "he";
   "in"; "is"; "it"; "its"; "of"; "on"; "that"; "the"; "to"; "was"; "will"; "with";
   "too"; "also"; "just"; "very"; "me"; "show"; "find"; "get"; "give"; "want";
   "need"; "looking"; "search"; "please"; "can"; "you"; "i"; "we"; "they"; "this";
   "any"; "some"; "have"; "what"; "which"; "where"; "when"; "how"; "would"; "could"].

Definition PRODUCT_KEYWORDS : list string :=
  ["chair"; "chairs"; "table"; "tables"; "desk"; "desks"; "sofa"; "sofas"; "bed"; "beds";
   "locker"; "lockers"; "cabinet"; "cabinets"; "shelf"; "shelves"; "storage";
   "stool"; "stools"; "bench"; "benches"; "wardrobe"; "wardrobes"; "drawer"; "drawers";
   "ottoman"; "ottomans"; "rack"; "racks"; "stand"; "stands"; "couch"; "recliner";
   "lamp"; "lamps"; "rug"; "rugs"; "mirror"; "mirrors"; "bookcase"; "bookshelf";
   "office"; "gaming"; "computer"; "dining"; "bedroom"; "living"; "outdoor"; "patio";
   "kitchen"; "bathroom"; "kids"; "children"; "guest";
   "ergonomic"; "executive"; "mesh"; "leather"; "fabric"; "wood"; "metal"; "glass";
   "plastic"; "velvet"; "modern"; "rustic"; "contemporary"; "vintage";
   "black"; "white"; "brown"; "grey"; "gray"; "blue"; "red"; "green"; "beige";
   "premium"; "luxury"; "budget"; "affordable"; "cheap"].

Definition is_stop (t : string) : bool := PyStr.mem t STOP_WORDS.
Definition is_keyword (t : string) : bool := PyStr.mem t PRODUCT_KEYWORDS.

(** The comprehension guard of [_tokenize]:
    [(len(t) > 2 and t not in STOP_WORDS) or t in PRODUCT_KEYWORDS]. *)
Definition keep_token (t : string) : bool :=
  ((2 <? String.length t)%nat && negb (is_stop t)) || is_keyword t.

(** The loop [for i in range(len(words) - 1)] of [_tokenize]; [len(words) - 1]
    is negative on an empty list and the range is then empty. *)
Definition bigrams_of (words : list string) : list string :=
  flat_map
    (fun i =>
       let wi := nth i words EmptyString in
       let wj := nth (i + 1) words EmptyString in
       if is_keyword wi || is_keyword wj then [(wi ++ "_" ++ wj)%string] else [])
    (seq 0 (List.length words - 1)).

Definition _tokenize (text : string) : list string :=
  let text := PyStr.lower text in
  let bigrams := bigrams_of (PyStr.findall_words text) in
  let tokens := PyStr.findall_words text in
  let filtered_tokens := List.filter keep_token tokens in
  filtered_tokens ++ bigrams.

(** *** The tokenizer as the specification words it *)

(** "drop a token only when its length is <= 2 and it is in the stop-word
    list, except that a domain keyword is always retained". *)
Definition keep_token_as_worded (t : string) : bool :=
  negb ((String.length t <=? 2)%nat && is_stop t) || is_keyword t.

(** The same rule with the two drop conditions joined by "or". *)
Definition keep_token_either (t : string) : bool :=
  negb ((String.length t <=? 2)%nat || is_stop t) || is_keyword t.

(** "a bigram wordA_wordB for every adjacent word pair in which at least one
    word is a domain keyword". *)
Fixpoint adjacent_bigrams (words : list string) : list string :=
  match words with
  | a :: ((b :: _) as rest) =>
      (if is_keyword a || is_keyword b then [(a ++ "_" ++ b)%string] else [])
      ++ adjacent_bigrams rest
  | _ => []
  end.

Definition tokenize_reference (keep : string -> bool) (text : string) : list string :=
  let words := PyStr.findall_words (PyStr.lower text) in
  List.filter keep words ++ adjacent_bigrams words.

End BM25.

(** ** Python runtime pieces shared by the components *)

Module Py.

Inductive exn := IndexError | KeyError | TypeError | UnpicklingError.

(** The outcome of a call that may raise. *)
Inductive result (A : Type) : Type :=
| Ok (a : A)
| Raise (e : exn).
Arguments Ok {A} a.
Arguments Raise {A} e.

Definition bind {A B} (r : result A) (k : A -> result B) : result B :=
  match r with Ok a => k a | Raise e => Raise e end.

Definition Qlt_bool (x y : Q) : bool := negb (Qle_bool y x).

(** [max(a, b)] and [min(a, b)] on floats: the first argument wins a tie. *)
Definition qmax (a b : Q) : Q := if Qlt_bool a b then b else a.
Definition qmin (a b : Q) : Q := if Qlt_bool b a then b else a.

(** [sorted(l, key=key, reverse=True)]: descending by key and stable, that
    is, elements with equal keys keep their relative order. *)
Fixpoint insert_desc {A} (key : A -> Q) (x : A) (l : list A) : list A :=
  match l with
  | [] => [x]
  | y :: r => if Qle_bool (key y) (key x) then x :: y :: r
              else y :: insert_desc key x r
  end.

Definition sorted_desc {A} (key : A -> Q) (l : list A) : list A :=
  fold_right (insert_desc key) [] l.

(** Non-increasing keys along a list. *)
Definition descending {A} (key : A -> Q) (l : list A) : Prop :=
  StronglySorted (fun a b => (key b <= key a)%Q) l.

(** [d.get(k, default)] on an optional key. *)
Definition get {A} (o : option A) (d : A) : A :=
  match o with Some a => a | None => d end.

(** The value of a [tags] entry: a list, or the JSON text of one. *)
Inductive tags_value :=
| TagList (l : list string)
| TagText (s : string).

(** Library functions used on tag values: [json.dumps], [json.loads]
    (absent result: the call raises or the text is not a list of strings)
    and [str] of a list. *)
Class Runtime := {
  json_dumps : list string -> string;
  json_loads : string -> option (list string);
  str_of_list : list string -> string
}.

End Py.

(** ** Records of the store and documents *)

Module Model.

(** A product dictionary as handed to ingestion, and the metadata of an
    index document; [None] is an absent key. *)
Record Metadata := {
  m_sku : option string;
  m_handle : option string;
  m_title : option string;
  m_price : option Q;
  m_currency : option string;
  m_image_url : option string;
  m_product_url : option string;
  m_vendor : option string;
  m_tags : option (list string);
  m_description : option string;
  m_inventory_quantity : option Z;
  m_section : option string;
  m_attributes : option string;
  m_type : option string
}.

Record IndexDocument := {
  id : string;
  content : string;
  metadata : Metadata
}.

(** Row of table [products]. *)
Record ProductDB := {
  sku : string;
  handle : string;
  title : string;
  price : Q;
  currency : string;
  image_url : string;
  product_url : string;
  vendor : string;
  tags : list string;
  description : string;
  search_content : string;
  inventory_quantity : Z
}.

(** Row of table [product_specs]. *)
Record ProductSpecDB := {
  spec_id : string;
  spec_sku : string;
  section : string;
  spec_text : string;
  attributes_json : string
}.

(** The [content] dictionary of a search result; [None] is an absent key. *)
Record Content := {
  c_id : option string;
  c_sku : option string;
  c_handle : option string;
  c_title : option string;
  c_price : option Q;
  c_currency : option string;
  c_image_url : option string;
  c_product_url : option string;
  c_vendor : option string;
  c_tags : option Py.tags_value;
  c_description : option string;
  c_inventory_quantity : option Z;
  c_type : option string;
  c_section : option string;
  c_spec_text : option string;
  c_attributes : option string
}.

Definition empty_content : Content :=
  {| c_id := None; c_sku := None; c_handle := None; c_title := None;
     c_price := None; c_currency := None; c_image_url := None;
     c_product_url := None; c_vendor := None; c_tags := None;
     c_description := None; c_inventory_quantity := None; c_type := None;
     c_section := None; c_spec_text := None; c_attributes := None |}.

(** [ProductDB.to_dict] *)
Definition product_to_dict (p : ProductDB) : Content :=
  {| c_id := None; c_sku := Some (sku p); c_handle := Some (handle p);
     c_title := Some (title p); c_price := Some (price p);
     c_currency := Some (currency p); c_image_url := Some (image_url p);
     c_product_url := Some (product_url p); c_vendor := Some (vendor p);
     c_tags := Some (Py.TagList (tags p));
     c_description := Some (description p);
     c_inventory_quantity := Some (inventory_quantity p);
     c_type := None; c_section := None; c_spec_text := None;
     c_attributes := None |}.

(** [ProductSpecDB.to_dict] *)
Definition spec_to_dict (s : ProductSpecDB) : Content :=
  {| c_id := Some (spec_id s); c_sku := Some (spec_sku s); c_handle := None;
     c_title := None; c_price := None; c_currency := None;
     c_image_url := None; c_product_url := None; c_vendor := None;
     c_tags := None; c_description := None; c_inventory_quantity := None;
     c_type := None; c_section := Some (section s);
     c_spec_text := Some (spec_text s);
     c_attributes := Some (attributes_json s) |}.

(** One entry of a branch result list. For the lexical branch [r_score] is
    the term-weighting score, for the semantic branch the cosine distance. *)
Record Result := {
  r_id : string;
  r_score : Q;
  r_content : Content
}.

End Model.

(** ** Lexical index: the [BM25Index] object ([bm25_index.py]) *)

Module Index.
Import Model.

(** A fitted [BM25Okapi] scorer; it is determined by the token corpus it was
    built from. *)
Record BM25Okapi := { fitted_corpus : list (list string) }.

(** [BM25Okapi.get_scores]: one score per document of the fitted corpus. *)
Class Scorer := { get_scores : BM25Okapi -> list string -> list Q }.

(** The pickled dictionary; [None] is an absent key. *)
Record index_data := {
  d_bm25 : option BM25Okapi;
  d_doc_ids : option (list string);
  d_corpus : option (list (list string))
}.

Inductive unpickled :=
| PDict (d : index_data)
| POther.

(** [pickle.dump] / [pickle.load] on file contents of type [blob];
    [pickle_load] answers [None] when it raises. *)
Class Pickle := {
  blob : Type;
  pickle_dump : index_data -> blob;
  pickle_load : blob -> option unpickled
}.

(** The attributes of a [BM25Index]. [corpus = None] is the state in which
    the attribute has not been set ([hasattr(self, 'corpus')] is false). *)
Record BM25Index := {
  index_name : string;
  bm25 : option BM25Okapi;
  doc_ids : list string;
  corpus : option (list (list string))
}.

Section WithLibraries.
Context `{Scorer} `{Pickle}.

(** What the index shares with the rest of the process: the two tables of
    the document store and the directory of index artifacts. *)
Record Env := {
  products : gmap string ProductDB;
  specs : gmap string ProductSpecDB;
  disk : gmap string blob
}.

Definition init (name : string) : BM25Index :=
  {| index_name := name; bm25 := None; doc_ids := []; corpus := None |}.

Definition index_path (idx : BM25Index) : string :=
  (index_name idx ++ ".pkl")%string.

Definition product_row (doc : IndexDocument) : ProductDB :=
  let md := metadata doc in
  {| sku := id doc;
     handle := Py.get (m_handle md) "";
     title := Py.get (m_title md) "";
     price := Py.get (m_price md) 0%Q;
     currency := Py.get (m_currency md) "USD";
     image_url := Py.get (m_image_url md) "";
     product_url := Py.get (m_product_url md) "";
     vendor := Py.get (m_vendor md) "";
     tags := Py.get (m_tags md) [];
     description := Py.get (m_description md) "";
     search_content := content doc;
     inventory_quantity := Py.get (m_inventory_quantity md) 0%Z |}.

Definition spec_row (doc : IndexDocument) : ProductSpecDB :=
  let md := metadata doc in
  {| spec_id := id doc;
     spec_sku := Py.get (m_sku md) "";
     section := Py.get (m_section md) "";
     spec_text := content doc;
     attributes_json := Py.get (m_attributes md) "{}" |}.

(** [session.merge(row)] for the table that belongs to the index. *)
Definition merge_doc (name : string) (env : Env) (doc : IndexDocument) : Env :=
  if String.eqb name "products_index" then
    {| products := <[id doc := product_row doc]> (products env);
       specs := specs env; disk := disk env |}
  else if String.eqb name "product_specs_index" then
    {| products := products env;
       specs := <[id doc := spec_row doc]> (specs env); disk := disk env |}
  else env.

Definition add_documents (idx : BM25Index) (env : Env)
    (documents : list IndexDocument) : BM25Index * Env :=
  match documents with
  | [] => (idx, env)
  | _ =>
    let new_corpus := map (fun doc => BM25._tokenize (content doc)) documents in
    let new_ids := map id documents in
    let env' := fold_left (merge_doc (index_name idx)) documents env in
    let idx1 :=
      match bm25 idx with
      | None =>
          {| index_name := index_name idx;
             bm25 := Some {| fitted_corpus := new_corpus |};
             doc_ids := new_ids;
             corpus := corpus idx |}
      | Some _ =>
          let full :=
            match corpus idx with
            | None => new_corpus
            | Some old => old ++ new_corpus
            end in
          {| index_name := index_name idx;
             bm25 := Some {| fitted_corpus := full |};
             doc_ids := doc_ids idx ++ new_ids;
             corpus := Some full |}
      end in
    let idx2 :=
      match corpus idx1 with
      | None =>
          {| index_name := index_name idx1; bm25 := bm25 idx1;
             doc_ids := doc_ids idx1; corpus := Some new_corpus |}
      | Some _ => idx1
      end in
    (idx2, env')
  end.

Definition save (idx : BM25Index) (env : Env) : Env :=
  match bm25 idx with
  | None => env
  | Some scorer =>
      let data := {| d_bm25 := Some scorer;
                     d_doc_ids := Some (doc_ids idx);
                     d_corpus := Some (Py.get (corpus idx) []) |} in
      {| products := products env; specs := specs env;
         disk := <[index_path idx := pickle_dump data]> (disk env) |}
  end.

(** The body of the [try] in [load]: the three assignments happen in order
    and the first failing step raises. *)
Definition load_try (idx : BM25Index) (b : blob) : Py.result BM25Index :=
  match pickle_load b with
  | None => Py.Raise Py.UnpicklingError
  | Some POther => Py.Raise Py.TypeError
  | Some (PDict d) =>
      match d_bm25 d, d_doc_ids d with
      | Some scorer, Some ids =>
          Py.Ok {| index_name := index_name idx; bm25 := Some scorer;
                   doc_ids := ids; corpus := Some (Py.get (d_corpus d) []) |}
      | _, _ => Py.Raise Py.KeyError
      end
  end.

(** The state the [except] branch of [load] leaves. *)
Definition reset (idx : BM25Index) : BM25Index :=
  {| index_name := index_name idx; bm25 := None; doc_ids := []; corpus := Some [] |}.

Definition unlink (path : string) (env : Env) : Env :=
  {| products := products env; specs := specs env; disk := delete path (disk env) |}.

Definition load (idx : BM25Index) (env : Env) : Py.result (BM25Index * Env) :=
  match disk env !! index_path idx with
  | None => Py.Ok (idx, env)
  | Some b =>
      match load_try idx b with
      | Py.Ok idx' => Py.Ok (idx', env)
      | Py.Raise _ => Py.Ok (reset idx, unlink (index_path idx) env)
      end
  end.

Definition clear (idx : BM25Index) (env : Env) : BM25Index * Env :=
  ({| index_name := index_name idx; bm25 := None; doc_ids := [];
      corpus := corpus idx |},
   unlink (index_path idx) env).

Definition MIN_SCORE : Q := 1 # 100.

Definition top_indices (scores : list Q) (limit : nat) : list nat :=
  firstn limit
    (Py.sorted_desc (fun i => nth i scores 0%Q)
       (List.filter (fun i => Py.Qlt_bool MIN_SCORE (nth i scores 0%Q))
          (seq 0 (List.length scores)))).

(** [results_map]: the rows of the index's table whose key is requested. *)
Definition results_map (name : string) (env : Env) (key : string) : option Content :=
  if String.eqb name "products_index" then product_to_dict <$> (products env !! key)
  else if String.eqb name "product_specs_index" then spec_to_dict <$> (specs env !! key)
  else None.

(** [[self.doc_ids[idx] for idx in top_indices]] *)
Fixpoint ids_at (ids : list string) (indices : list nat) : Py.result (list string) :=
  match indices with
  | [] => Py.Ok []
  | i :: r =>
      match nth_error ids i with
      | None => Py.Raise Py.IndexError
      | Some d => Py.bind (ids_at ids r) (fun ds => Py.Ok (d :: ds))
      end
  end.

Definition assemble (name : string) (env : Env) (ids : list string)
    (scores : list Q) (indices : list nat) : list Result :=
  flat_map
    (fun i =>
       let doc_id := nth i ids EmptyString in
       match results_map name env doc_id with
       | Some c => [{| r_id := doc_id; r_score := nth i scores 0%Q; r_content := c |}]
       | None => []
       end)
    indices.

(** The part of [search] that follows the lazy load. *)
Definition search_loaded (idx : BM25Index) (env : Env) (scorer : BM25Okapi)
    (query : string) (limit : nat) : Py.result (list Result) :=
  let query_tokens := BM25._tokenize query in
  match query_tokens with
  | [] => Py.Ok []
  | _ =>
      let scores := get_scores scorer query_tokens in
      let top := top_indices scores limit in
      match top with
      | [] => Py.Ok []
      | _ =>
          Py.bind (ids_at (doc_ids idx) top)
            (fun _ => Py.Ok (assemble (index_name idx) env (doc_ids idx) scores top))
      end
  end.

Definition search (idx : BM25Index) (env : Env) (query : string) (limit : nat)
  : Py.result (BM25Index * Env * list Result) :=
  match bm25 idx with
  | Some scorer =>
      Py.bind (search_loaded idx env scorer query limit)
        (fun rs => Py.Ok (idx, env, rs))
  | None =>
      Py.bind (load idx env)
        (fun st =>
           let '(idx', env') := st in
           match bm25 idx' with
           | None => Py.Ok (idx', env', [])
           | Some scorer =>
               Py.bind (search_loaded idx' env' scorer query limit)
                 (fun rs => Py.Ok (idx', env', rs))
           end)
  end.

(** The result list of a [search] outcome, without the state. *)
Definition answer (r : Py.result (BM25Index * Env * list Result))
  : Py.result (list Result) :=
  Py.bind r (fun st => Py.Ok (snd st)).

End WithLibraries.
End Index.

(** ** Semantic index ([vector_index.py]) *)

Module Vector.
Import Model.

(** What the collection keeps for one id. *)
Record Entry := { e_text : string; e_meta : Content }.

(** The embedding model together with the nearest-neighbour query of the
    store: ids, cosine distances and stored metadata, nearest first. *)
Class Backend := {
  collection_query : gmap string Entry -> string -> nat -> list (string * Q * Content)
}.

Record VectorIndex := { collection : gmap string Entry }.

Section WithLibraries.
Context `{Py.Runtime} `{Backend}.

Definition _sanitize_metadata (md : Metadata) : Content :=
  {| c_id := None; c_sku := m_sku md; c_handle := m_handle md;
     c_title := m_title md; c_price := m_price md;
     c_currency := m_currency md; c_image_url := m_image_url md;
     c_product_url := m_product_url md; c_vendor := m_vendor md;
     c_tags := (fun l => Py.TagText (Py.json_dumps l)) <$> m_tags md;
     c_description := m_description md;
     c_inventory_quantity := m_inventory_quantity md;
     c_type := m_type md; c_section := m_section md; c_spec_text := None;
     c_attributes := m_attributes md |}.

(** [collection.upsert] of one document. *)
Definition upsert (v : VectorIndex) (doc : IndexDocument) : VectorIndex :=
  {| collection :=
       <[id doc := {| e_text := content doc;
                      e_meta := _sanitize_metadata (metadata doc) |}]>
         (collection v) |}.

Definition add_documents (v : VectorIndex) (documents : list IndexDocument) : VectorIndex :=
  fold_left upsert documents v.

Definition search (v : VectorIndex) (query : string) (limit : nat) : list Result :=
  map (fun hit => let '(i, d, c) := hit in
                  {| r_id := i; r_score := d; r_content := c |})
      (collection_query (collection v) query limit).

Definition clear (v : VectorIndex) : VectorIndex := {| collection := ∅ |}.

End WithLibraries.
End Vector.

(** ** Hybrid search ([hybrid_search.py]) *)

Module Hybrid.
Import Model.

Definition IMPORTANT_NOUNS : list string :=
  ["chair"; "chairs"; "table"; "tables"; "desk"; "desks"; "sofa"; "sofas";
   "bed"; "beds"; "locker"; "lockers"; "cabinet"; "cabinets"; "shelf"; "shelves";
   "storage"; "stool"; "stools"; "bench"; "benches"; "wardrobe"; "wardrobes";
   "drawer"; "drawers"; "ottoman"; "ottomans"; "rack"; "racks"; "stand"; "stands";
   "recliner"; "recliners"; "armchair"; "armchairs"; "lounge"; "lounges"].

Definition CATEGORY_KEYWORDS : list (string * list string) :=
  [("chair", ["chair"; "chairs"; "seating"; "seat"; "gaming chair"; "office chair"; "desk chair"]);
   ("table", ["table"; "tables"; "console table"; "coffee table"; "dining table"; "side table"]);
   ("desk", ["desk"; "desks"; "workstation"; "work station"; "computer desk"; "office desk"; "writing desk"]);
   ("sofa", ["sofa"; "sofas"; "couch"; "couches"; "settee"; "loveseat"; "lounge"; "lounger";
             "sectional"; "chaise"; "reception sofa"; "seater sofa"; "2 seater"; "3 seater"; "triple sofa"]);
   ("bed", ["bed"; "beds"; "mattress"; "mattresses"; "bedframe"; "bed frame"; "headboard"; "bunk"]);
   ("shelf", ["shelf"; "shelves"; "bookcase"; "bookcases"; "shelving"; "bookshelf"; "display unit"]);
   ("storage", ["storage"; "locker"; "lockers"; "cabinet"; "cabinets"; "wardrobe"; "wardrobes"; "drawer"; "chest"; "organizer"]);
   ("stool", ["stool"; "stools"; "ottoman"; "ottomans"; "bar stool"; "footstool"; "counter stool"]);
   ("recliner", ["recliner"; "recliners"; "reclining"; "lounge chair"; "lounger"; "massage chair"]);
   ("armchair", ["armchair"; "armchairs"; "arm chair"]);
   ("lighting", ["lamp"; "lamps"; "light"; "lights"; "lighting"; "chandelier"; "pendant"; "sconce"]);
   ("outdoor", ["outdoor"; "patio"; "garden"; "deck"; "balcony"; "exterior"]);
   ("rug", ["rug"; "rugs"; "carpet"; "carpets"; "mat"; "mats"; "runner"]);
   ("mirror", ["mirror"; "mirrors"; "vanity"]);
   ("decor", ["decor"; "decoration"; "decorative"; "art"; "vase"; "ornament"; "wall art"])].

Definition CATEGORY_ALIASES : list (string * list string) :=
  [("sofa", ["lounge"; "settee"]);
   ("chair", ["stool"; "seating"]);
   ("recliner", ["lounge chair"; "lounger"]);
   ("table", ["desk"]);
   ("desk", ["table"]);
   ("storage", ["shelf"; "cabinet"]);
   ("bed", ["mattress"])].

Definition NEGATIVE_KEYWORDS : list (string * list string) :=
  [("gaming", ["kids"; "kid"; "children"; "child"; "baby"; "toddler"; "toy"; "playground"; "plastic"]);
   ("office", ["kids"; "kid"; "children"; "child"; "baby"; "toddler"; "toy"; "playground"]);
   ("professional", ["kids"; "kid"; "children"; "child"; "baby"; "toy"; "plastic"]);
   ("executive", ["kids"; "kid"; "children"; "child"; "baby"; "toy"; "plastic"]);
   ("ergonomic", ["kids"; "kid"; "children"; "toy"; "plastic"]);
   ("adult", ["kids"; "kid"; "children"; "child"; "baby"; "toddler"; "toy"]);
   ("premium", ["cheap"; "budget"; "plastic"; "toy"]);
   ("luxury", ["cheap"; "budget"; "plastic"; "toy"]);
   ("leather", ["plastic"; "pvc"]);
   ("metal", ["plastic"; "cardboard"]);
   ("wood", ["plastic"; "cardboard"]);
   ("kids", ["office"; "executive"; "professional"; "gaming"; "adult"]);
   ("children", ["office"; "executive"; "professional"; "gaming"; "adult"])].

Definition INTENT_KEYWORDS : list (string * list string) :=
  [("gaming", ["rgb"; "racing"; "ergonomic"; "reclining"; "adjustable"; "swivel"; "lumbar"]);
   ("office", ["ergonomic"; "executive"; "professional"; "swivel"; "adjustable"; "mesh"; "lumbar"]);
   ("kids", ["child"; "children"; "youth"; "junior"; "study"; "colorful"; "small"]);
   ("outdoor", ["weather"; "waterproof"; "patio"; "garden"; "resistant"]);
   ("bedroom", ["bed"; "nightstand"; "dresser"; "wardrobe"; "sleeping"]);
   ("living", ["sofa"; "couch"; "coffee"; "entertainment"; "lounge"; "recliner"; "armchair"]);
   ("living room", ["sofa"; "couch"; "lounge"; "recliner"; "armchair"; "ottoman"; "coffee table"])].

Definition QUERY_SYNONYMS : list (string * list string) :=
  [("cheap", ["budget"; "affordable"; "value"; "low price"]);
   ("expensive", ["premium"; "luxury"; "high-end"; "designer"]);
   ("couch", ["sofa"; "settee"; "lounge"]);
   ("cupboard", ["cabinet"; "storage"; "wardrobe"]);
   ("wardrobe", ["closet"; "armoire"; "clothes storage"]);
   ("nightstand", ["bedside table"; "night table"; "end table"]);
   ("dresser", ["chest of drawers"; "bureau"; "drawers"]);
   ("bookshelf", ["bookcase"; "shelving"; "book storage"]);
   ("lamp", ["light"; "lighting"; "table lamp"]);
   ("rug", ["carpet"; "floor mat"; "area rug"]);
   ("small", ["compact"; "mini"; "little"]);
   ("big", ["large"; "oversized"; "spacious"]);
   ("modern", ["contemporary"; "minimalist"; "sleek"]);
   ("rustic", ["farmhouse"; "country"; "vintage"]);
   ("comfy", ["comfortable"; "cozy"; "plush"])].

(** [table[key]] / [key in table] on a class-level dictionary. *)
Fixpoint table_get (key : string) (table : list (string * list string))
  : option (list string) :=
  match table with
  | [] => None
  | (k, v) :: r => if String.eqb key k then Some v else table_get key r
  end.

(** [_expand_query]; the memo table in front of it only avoids recomputing
    this function of the query and is left out. *)
Definition _expand_query (query : string) : string :=
  let query_lower := PyStr.lower query in
  let expanded_terms :=
    query_lower ::
    flat_map (fun ws => let '(word, synonyms) := ws in
                        if PyStr.contains word query_lower
                        then firstn 2 synonyms else [])
             QUERY_SYNONYMS in
  PyStr.join " " expanded_terms.

Definition priority_order : list string :=
  ["lighting"; "rug"; "mirror"; "decor"; "sofa"; "recliner"; "chair"; "bed";
   "desk"; "table"; "shelf"; "stool"; "storage"; "outdoor"].

Definition alias_keywords (category : string) : list string :=
  match table_get category CATEGORY_ALIASES with
  | None => []
  | Some aliases =>
      flat_map (fun alias => Py.get (table_get alias CATEGORY_KEYWORDS) []) aliases
  end.

Fixpoint extract_from (query_lower : string) (order : list string)
  : option string * list string :=
  match order with
  | [] => (None, [])
  | category :: rest =>
      match table_get category CATEGORY_KEYWORDS with
      | None => extract_from query_lower rest
      | Some keywords =>
          if existsb (fun keyword => PyStr.contains keyword query_lower) keywords
          then (Some category, PyStr.dedup (keywords ++ alias_keywords category))
          else extract_from query_lower rest
      end
  end.

(** [_extract_primary_category]; the keyword set comes back as a list
    without duplicates (its order plays no part afterwards). *)
Definition _extract_primary_category (query : string) : option string * list string :=
  extract_from (PyStr.lower query) priority_order.

Definition nat_Q (n : nat) : Q := inject_Z (Z.of_nat n).

Definition truthy (o : option string) : bool :=
  match o with Some s => negb (String.eqb s "") | None => false end.

(** One round of the keyword loop of [_check_category_match]. *)
Definition category_step (text_lower : string) (primary_category : option string)
    (acc : nat * bool) (keyword : string) : nat * bool :=
  let '(matches, primary_match) := acc in
  if PyStr.contains keyword text_lower then
    if PyStr.word_search keyword text_lower then
      if truthy primary_category
         && String.eqb keyword (Py.get primary_category "")
      then (matches + 1 + 1 + 3, true)
      else (matches + 1 + 1, primary_match)
    else (matches + 1, primary_match)
  else acc.

Definition _check_category_match (text : string) (category_keywords : list string)
    (primary_category : option string) : bool * Q :=
  let text_lower := PyStr.lower text in
  let '(matches, primary_match) :=
    fold_left (category_step text_lower primary_category) category_keywords (0, false) in
  if (0 <? matches)%nat then
    let base_score := Py.qmin (nat_Q matches / 4) 1 in
    let base_score := if primary_match then Py.qmin (base_score * (3 # 2)) 1 else base_score in
    (true, base_score)
  else (false, 0%Q).

Definition _extract_intent_keywords (query : string) : list string :=
  let query_lower := PyStr.lower query in
  List.filter (fun intent => PyStr.contains intent query_lower) (map fst INTENT_KEYWORDS).

Definition _calculate_negative_keyword_penalty (query title description : string) : Q :=
  let query_lower := PyStr.lower query in
  let text_lower := PyStr.lower (title ++ " " ++ description) in
  fold_left
    (fun penalty kv =>
       let '(query_keyword, negative_keywords) := kv in
       if PyStr.contains query_keyword query_lower
          && existsb (fun nk => PyStr.contains nk text_lower) negative_keywords
       then (penalty * (1 # 10))%Q else penalty)
    NEGATIVE_KEYWORDS 1%Q.

Definition _calculate_intent_boost (query title description : string) : Q :=
  let intent_keywords := _extract_intent_keywords query in
  match intent_keywords with
  | [] => 1%Q
  | _ =>
      let text_lower := PyStr.lower (title ++ " " ++ description) in
      let boost :=
        fold_left
          (fun boost intent =>
             let related_keywords := Py.get (table_get intent INTENT_KEYWORDS) [] in
             let matched_count :=
               List.length (List.filter (fun kw => PyStr.contains kw text_lower)
                                        related_keywords) in
             if (0 <? matched_count)%nat
             then (boost + (3 # 10) * nat_Q (Nat.min matched_count 3))%Q
             else boost)
          intent_keywords 1%Q in
      Py.qmin boost 2
  end.

Definition issubset (a b : list string) : bool :=
  forallb (fun w => PyStr.mem w b) a.

(** [len(a & b)] for two sets given as duplicate-free lists. *)
Definition inter_size (a b : list string) : nat :=
  List.length (List.filter (fun w => PyStr.mem w b) a).

Definition _calculate_phrase_score (query title description : string) : Q :=
  let query_lower := PyStr.strip (PyStr.lower query) in
  let title_lower := PyStr.lower title in
  let desc_lower := PyStr.lower description in
  if PyStr.contains query_lower title_lower then 10%Q
  else
    let query_words := PyStr.dedup (PyStr.findall_words query_lower) in
    let title_words := PyStr.dedup (PyStr.findall_words title_lower) in
    if issubset query_words title_words then 5%Q
    else if PyStr.contains query_lower desc_lower then 3%Q
    else
      let desc_words := PyStr.dedup (PyStr.findall_words desc_lower) in
      if issubset query_words desc_words then 2%Q
      else
        let title_match_count := inter_size query_words title_words in
        let match_ratio := (nat_Q title_match_count / nat_Q (List.length query_words))%Q in
        if (0 <? title_match_count)%nat && Qle_bool (1 # 2) match_ratio
        then (1 + match_ratio * (1 # 2))%Q
        else 1%Q.

(** *** [HybridSearch.search] *)

(** A value of the [combined_scores] dictionary; [None] in the last three
    fields is a key that has not been written. *)
Record Entry := {
  score : Q;
  result : Result;
  bm25_rank : option nat;
  vector_rank : option nat;
  semantic_distance : option Q;
  phrase_boost : Q;
  title_boost : Q;
  negative_penalty : Q;
  intent_boost : Q;
  category_match : option bool;
  primary_title_match : option bool;
  is_fallback : option bool
}.

(** One element of the returned list. *)
Record Final := {
  f_id : string;
  f_score : Q;
  f_content : Content;
  f_bm25_rank : option nat;
  f_vector_rank : option nat;
  f_semantic_distance : option Q;
  f_phrase_boost : Q;
  f_negative_penalty : Q;
  f_intent_boost : Q;
  f_category_match : bool;
  f_is_fallback : bool
}.

Definition set_score (e : Entry) (v : Q) : Entry :=
  {| score := v; result := result e; bm25_rank := bm25_rank e;
     vector_rank := vector_rank e; semantic_distance := semantic_distance e;
     phrase_boost := phrase_boost e; title_boost := title_boost e;
     negative_penalty := negative_penalty e; intent_boost := intent_boost e;
     category_match := category_match e;
     primary_title_match := primary_title_match e;
     is_fallback := is_fallback e |}.

Definition set_category (e : Entry) (v : Q) (cm : bool) (ptm : option bool) : Entry :=
  {| score := v; result := result e; bm25_rank := bm25_rank e;
     vector_rank := vector_rank e; semantic_distance := semantic_distance e;
     phrase_boost := phrase_boost e; title_boost := title_boost e;
     negative_penalty := negative_penalty e; intent_boost := intent_boost e;
     category_match := Some cm;
     primary_title_match := ptm;
     is_fallback := is_fallback e |}.

Definition set_fallback (e : Entry) (v : Q) : Entry :=
  {| score := v; result := result e; bm25_rank := bm25_rank e;
     vector_rank := vector_rank e; semantic_distance := semantic_distance e;
     phrase_boost := phrase_boost e; title_boost := title_boost e;
     negative_penalty := negative_penalty e; intent_boost := intent_boost e;
     category_match := category_match e;
     primary_title_match := primary_title_match e;
     is_fallback := Some true |}.

(** The dictionary [combined_scores], in insertion order. *)
Definition dict := list (string * Entry).

Fixpoint dict_get (d : dict) (k : string) : option Entry :=
  match d with
  | [] => None
  | (k', e) :: r => if String.eqb k k' then Some e else dict_get r k
  end.

(** [d[k] = e]: an existing key keeps its place, a new key goes last. *)
Fixpoint dict_set (d : dict) (k : string) (e : Entry) : dict :=
  match d with
  | [] => [(k, e)]
  | (k', e') :: r =>
      if String.eqb k k' then (k', e) :: r else (k', e') :: dict_set r k e
  end.

Definition SEMANTIC_THRESHOLD : Q := 85 # 100.
Definition MIN_RESULTS : nat := 3.

Definition rrf_score (rank : nat) : Q := 1 / nat_Q (60 + rank).

Definition title_of (c : Content) : string := PyStr.lower (Py.get (c_title c) "").
Definition description_of (c : Content) : string :=
  PyStr.lower (Py.get (c_description c) "").

(** [set(query_lower.split())] *)
Definition query_terms_of (query_lower : string) : list string :=
  PyStr.dedup (PyStr.split query_lower).

Definition legacy_title_boost (query_terms : list string) (title : string) : Q :=
  let title_words := PyStr.dedup (PyStr.split title) in
  (1 + nat_Q (inter_size query_terms title_words) * (1 # 2))%Q.

(** The multiplier both branch loops compute for a result:
    [max(phrase_boost, legacy_title_boost) * intent_boost * negative_penalty]. *)
Definition final_boost (query : string) (query_terms : list string) (c : Content) : Q :=
  let title := title_of c in
  let description := description_of c in
  (Py.qmax (_calculate_phrase_score query title description)
           (legacy_title_boost query_terms title)
   * _calculate_intent_boost query title description
   * _calculate_negative_keyword_penalty query title description)%Q.

Definition bm25_step (alpha : Q) (query : string) (query_terms : list string)
    (combined_scores : dict) (item : nat * Result) : dict :=
  let '(rank, res) := item in
  let c := r_content res in
  let title := title_of c in
  let description := description_of c in
  let fb := final_boost query query_terms c in
  dict_set combined_scores (r_id res)
    {| score := alpha * rrf_score rank * fb;
       result := res;
       bm25_rank := Some rank;
       vector_rank := None;
       semantic_distance := None;
       phrase_boost := _calculate_phrase_score query title description;
       title_boost := fb;
       negative_penalty := _calculate_negative_keyword_penalty query title description;
       intent_boost := _calculate_intent_boost query title description;
       category_match := None; primary_title_match := None; is_fallback := None |}.

Definition vector_step (alpha : Q) (query : string) (query_terms : list string)
    (combined_scores : dict) (item : nat * Result) : dict :=
  let '(rank, res) := item in
  let dist := r_score res in
  if Py.Qlt_bool SEMANTIC_THRESHOLD dist then combined_scores
  else
    let c := r_content res in
    let title := title_of c in
    let description := description_of c in
    let pb := _calculate_phrase_score query title description in
    let np := _calculate_negative_keyword_penalty query title description in
    let ib := _calculate_intent_boost query title description in
    let fb := final_boost query query_terms c in
    match dict_get combined_scores (r_id res) with
    | Some e =>
        dict_set combined_scores (r_id res)
          {| score := score e + (1 - alpha) * rrf_score rank * fb;
             result := result e;
             bm25_rank := bm25_rank e;
             vector_rank := Some rank;
             semantic_distance := Some dist;
             phrase_boost := Py.qmax (phrase_boost e) pb;
             title_boost := Py.qmax (title_boost e) fb;
             negative_penalty := Py.qmin (negative_penalty e) np;
             intent_boost := Py.qmax (intent_boost e) ib;
             category_match := category_match e;
             primary_title_match := primary_title_match e;
             is_fallback := is_fallback e |}
    | None =>
        dict_set combined_scores (r_id res)
          {| score := (1 - alpha) * rrf_score rank * fb;
             result := res;
             bm25_rank := None;
             vector_rank := Some rank;
             semantic_distance := Some dist;
             phrase_boost := pb;
             title_boost := fb;
             negative_penalty := np;
             intent_boost := ib;
             category_match := None; primary_title_match := None;
             is_fallback := None |}
    end.

(** [enumerate(l, start=1)] *)
Definition enumerate1 {A} (l : list A) : list (nat * A) :=
  combine (seq 1 (List.length l)) l.

(** The dictionary after both branch loops. *)
Definition combine_scores (alpha : Q) (query : string)
    (bm25_results vector_results : list Result) : dict :=
  let query_terms := query_terms_of (PyStr.lower query) in
  let after_bm25 :=
    fold_left (bm25_step alpha query query_terms) (enumerate1 bm25_results) [] in
  fold_left (vector_step alpha query query_terms) (enumerate1 vector_results) after_bm25.

(** *** The fused score as the specification words it *)

(** What one appearance at [rank] in a branch of weight [weight]
    contributes: the weight times [1/(60+rank)] times
    max(phrase boost, title-overlap boost) x intent boost x penalty. *)
Definition appearance (weight : Q) (query : string) (rank : nat) (res : Result) : Q :=
  let title := title_of (r_content res) in
  let description := description_of (r_content res) in
  (weight * (1 / nat_Q (60 + rank))
   * (Py.qmax (_calculate_phrase_score query title description)
              (legacy_title_boost (query_terms_of (PyStr.lower query)) title)
      * _calculate_intent_boost query title description
      * _calculate_negative_keyword_penalty query title description))%Q.

(** A semantic candidate stays when its distance is not above 0.85. *)
Definition within_threshold (res : Result) : bool :=
  Qle_bool (r_score res) SEMANTIC_THRESHOLD.

Definition appears (keep : Result -> bool) (d : string) (item : nat * Result) : bool :=
  String.eqb (r_id (snd item)) d && keep (snd item).

(** The sum of the contributions of the kept appearances of [d] among
    ranked items. *)
Definition terms (weight : Q) (query : string) (keep : Result -> bool)
    (d : string) (items : list (nat * Result)) : Q :=
  fold_right Qplus 0%Q
    (map (fun item => appearance weight query (fst item) (snd item))
         (List.filter (appears keep d) items)).


(** The score under a key, 0 when the key is absent; whether it is present. *)
Definition oscore (o : option Entry) : Q :=
  match o with Some e => score e | None => 0%Q end.

Definition present (o : option Entry) : bool :=
  match o with Some _ => true | None => false end.


(** [d] survives retrieval: it is in the lexical answer, or in the semantic
    answer within the threshold. *)
Definition retrieved (bm25_results vector_results : list Result) (d : string) : bool :=
  existsb (appears (fun _ => true) d) (enumerate1 bm25_results)
  || existsb (appears within_threshold d) (enumerate1 vector_results).

(** [unique_base_nouns] *)
Definition unique_base_nouns_of (query_lower : string) : list string :=
  let important_query_terms :=
    List.filter (fun t => PyStr.mem t IMPORTANT_NOUNS) (query_terms_of query_lower) in
  PyStr.dedup
    (map (fun noun =>
            if PyStr.ends_with_s noun && PyStr.mem (PyStr.drop_last noun) IMPORTANT_NOUNS
            then PyStr.drop_last noun else noun)
         important_query_terms).

Definition entry_score (item : string * Entry) : Q := score (snd item).

(** Every value of the dictionary has a positive score. *)
Definition positive_entries (d : dict) : Prop :=
  forall item, List.In item d -> (0 < entry_score item)%Q.

Definition is_nil {A} (l : list A) : bool :=
  match l with [] => true | _ => false end.

(** [noun matching]: the value [data['score']] has after the noun block. *)
Definition noun_hits (nouns : list string) (title : string) : nat :=
  List.length
    (List.filter (fun base => PyStr.contains base title
                              || PyStr.contains (base ++ "s") title) nouns).

Definition noun_adjust (nouns : list string) (title : string) (s : Q) : Q :=
  match nouns with
  | [] => s
  | _ =>
      let match_ratio := (nat_Q (noun_hits nouns title) / nat_Q (List.length nouns))%Q in
      if Qle_bool 1 match_ratio then (s * 2)%Q
      else if Qle_bool (1 # 2) match_ratio then (s * (3 # 2))%Q
      else if Py.Qlt_bool 0 match_ratio then (s * (6 # 5))%Q
      else s
  end.

(** The noun-match multiplier as the specification tabulates it, from the
    number of query nouns found in the title and the number of query nouns. *)
Definition noun_multiplier (hits total : nat) : Q :=
  if (total =? 0)%nat then 1
  else if (hits =? total)%nat then 2
  else if (total <=? 2 * hits)%nat then 3 # 2
  else if (0 <? hits)%nat then 6 # 5
  else 1.

Definition to_final (nouns : list string) (item : string * Entry) : Final :=
  let '(doc_id, data) := item in
  let c := r_content (result data) in
  {| f_id := doc_id;
     f_score := noun_adjust nouns (title_of c) (score data);
     f_content := c;
     f_bm25_rank := bm25_rank data;
     f_vector_rank := vector_rank data;
     f_semantic_distance := semantic_distance data;
     f_phrase_boost := phrase_boost data;
     f_negative_penalty := negative_penalty data;
     f_intent_boost := intent_boost data;
     f_category_match := Py.get (category_match data) false;
     f_is_fallback := Py.get (is_fallback data) false |}.

(** The assembly loop; it stops once [limit + 5] results are collected. *)
Fixpoint final_loop (nouns : list string) (limit : nat) (pool : dict)
    (final_results : list Final) : list Final :=
  match pool with
  | [] => final_results
  | item :: rest =>
      let final_results := final_results ++ [to_final nouns item] in
      if (limit + 5 <=? List.length final_results)%nat then final_results
      else final_loop nouns limit rest final_results
  end.

(** The fallback block: [category_matched] after the backfill. *)
Definition with_fallback (category_matched category_unmatched : dict) : dict :=
  let category_matched := Py.sorted_desc entry_score category_matched in
  if (List.length category_matched <? MIN_RESULTS)%nat && negb (is_nil category_unmatched)
  then
    category_matched ++
    map (fun item => (fst item, set_fallback (snd item) (score (snd item) * (3 # 10))))
        (firstn (MIN_RESULTS - List.length category_matched)
                (Py.sorted_desc entry_score category_unmatched))
  else category_matched.

(** No value of the dictionary carries the [is_fallback] key. *)
Definition unflagged (d : dict) : Prop :=
  forall item, List.In item d -> is_fallback (snd item) = None.

(** What the fallback block does to a backfilled candidate. *)
Definition penalise (item : string * Entry) : string * Entry :=
  (fst item, set_fallback (snd item) (score (snd item) * (3 # 10))).

Section WithRuntime.
Context `{Py.Runtime}.

Definition tags_text (c : Content) : string :=
  PyStr.lower
    match c_tags c with
    | None => ""
    | Some (Py.TagList l) => Py.str_of_list l
    | Some (Py.TagText t) => t
    end.

Definition category_text (c : Content) : string :=
  (title_of c ++ " " ++ description_of c ++ " " ++ tags_text c ++ " "
   ++ PyStr.lower (Py.get (c_type c) ""))%string.

(** One round of the first-pass loop over [sorted_candidates]. *)
Definition partition_step (primary_category : option string)
    (category_keywords : list string) (acc : dict * dict) (item : string * Entry)
  : dict * dict :=
  let '(category_matched, category_unmatched) := acc in
  let '(doc_id, data) := item in
  let c := r_content (result data) in
  if truthy primary_category && negb (is_nil category_keywords) then
    let '(has_match, match_score) :=
      _check_category_match (category_text c) category_keywords primary_category in
    let title_has_primary := PyStr.contains (Py.get primary_category "") (title_of c) in
    if has_match then
      if title_has_primary then
        (category_matched ++
           [(doc_id, set_category data (score data * ((3 # 2) + match_score)) true (Some true))],
         category_unmatched)
      else
        (category_matched ++
           [(doc_id, set_category data (score data * (1 + match_score * (1 # 2))) true (Some false))],
         category_unmatched)
    else
      (category_matched,
       category_unmatched ++
         [(doc_id, set_category data (score data) false (primary_title_match data))])
  else
    (category_matched ++
       [(doc_id, set_category data (score data) true (primary_title_match data))],
     category_unmatched).

Definition partition_candidates (query_lower : string) (sorted_candidates : dict)
  : dict * dict :=
  let '(primary_category, category_keywords) := _extract_primary_category query_lower in
  fold_left (partition_step primary_category category_keywords) sorted_candidates ([], []).

(** The candidate pool handed to the assembly loop. *)
Definition result_pool (alpha : Q) (query : string)
    (bm25_results vector_results : list Result) : dict :=
  let query_lower := PyStr.lower query in
  let combined_scores := combine_scores alpha query bm25_results vector_results in
  let sorted_candidates := Py.sorted_desc entry_score combined_scores in
  let '(category_matched, category_unmatched) :=
    partition_candidates query_lower sorted_candidates in
  with_fallback category_matched category_unmatched.

(** Everything [search] does once both branches have answered. *)
Definition rank (alpha : Q) (query : string) (limit : nat)
    (bm25_results vector_results : list Result) : list Final :=
  let query_lower := PyStr.lower query in
  let pool := result_pool alpha query bm25_results vector_results in
  let final_results := final_loop (unique_base_nouns_of query_lower) limit pool [] in
  firstn limit (Py.sorted_desc f_score final_results).

Context `{Index.Scorer} `{Index.Pickle} `{Vector.Backend}.

Record HybridSearch := {
  bm25_index : Index.BM25Index;
  vector_index : Vector.VectorIndex;
  alpha : Q
}.

Definition search (h : HybridSearch) (env : Index.Env) (query : string) (limit : nat)
  : Py.result (HybridSearch * Index.Env * list Final) :=
  let query_lower := PyStr.lower query in
  let expanded_query := _expand_query query_lower in
  let candidate_limit := Nat.min (limit * 10) 100 in
  Py.bind (Index.search (bm25_index h) env expanded_query candidate_limit)
    (fun st =>
       let '(idx, env', bm25_results) := st in
       let vector_results := Vector.search (vector_index h) query_lower candidate_limit in
       Py.Ok ({| bm25_index := idx; vector_index := vector_index h; alpha := alpha h |},
              env',
              rank (alpha h) query limit bm25_results vector_results)).

End WithRuntime.

End Hybrid.

(** ** Catalogue facade ([catalog.py]) *)

Module Catalog.
Import Model.


Section WithLibraries.
Context `{Py.Runtime} `{Index.Scorer} `{Index.Pickle} `{Vector.Backend}.

Record CatalogIndexer := {
  products_bm25 : Index.BM25Index;
  specs_bm25 : Index.BM25Index;
  products_vector : Vector.VectorIndex;
  specs_vector : Vector.VectorIndex;
  env : Index.Env
}.

(** [index_config.hybrid_alpha] *)
Definition hybrid_alpha : Q := 6 # 10.

(** The objects a new [CatalogIndexer] holds before it loads the artifacts. *)
Definition fresh (e : Index.Env) (pv sv : Vector.VectorIndex) : CatalogIndexer :=
  {| products_bm25 := Index.init "products_index";
     specs_bm25 := Index.init "product_specs_index";
     products_vector := pv; specs_vector := sv; env := e |}.

(** [CatalogIndexer.__init__]: both lexical indexes are loaded from disk. *)
Definition init (e : Index.Env) (pv sv : Vector.VectorIndex) : Py.result CatalogIndexer :=
  Py.bind (Index.load (Index.init "products_index") e)
    (fun st1 =>
       Py.bind (Index.load (Index.init "product_specs_index") (snd st1))
         (fun st2 =>
            Py.Ok {| products_bm25 := fst st1; specs_bm25 := fst st2;
                     products_vector := pv; specs_vector := sv;
                     env := snd st2 |})).

Definition product_content (product : Metadata) : string :=
  (Py.get (m_title product) "" ++ " "
   ++ PyStr.join " " (Py.get (m_tags product) []) ++ " "
   ++ Py.get (m_description product) "")%string.

(** One round of the de-duplication loop of [addProducts]. *)
Definition dedup_step (acc : gset string * list IndexDocument) (product : Metadata)
  : gset string * list IndexDocument :=
  let '(seen_skus, documents) := acc in
  match m_sku product with
  | None => acc
  | Some sku =>
      if String.eqb sku "" || bool_decide (sku ∈ seen_skus) then acc
      else ({[sku]} ∪ seen_skus,
            documents ++ [{| id := sku; content := product_content product;
                             metadata := product |}])
  end.

(** The [documents] list [addProducts] builds; its length is the count the
    two log lines report. *)
Definition unique_documents (products : list Metadata) : list IndexDocument :=
  snd (fold_left dedup_step products (∅, [])).

Definition addProducts (c : CatalogIndexer) (products : list Metadata) : CatalogIndexer :=
  let documents := unique_documents products in
  let '(idx, env1) := Index.add_documents (products_bm25 c) (env c) documents in
  let env2 := Index.save idx env1 in
  {| products_bm25 := idx; specs_bm25 := specs_bm25 c;
     products_vector := Vector.add_documents (products_vector c) documents;
     specs_vector := specs_vector c; env := env2 |}.

Definition searchProducts (c : CatalogIndexer) (query : string) (limit : nat)
  : Py.result (CatalogIndexer * list Hybrid.Final) :=
  Py.bind
    (Hybrid.search {| Hybrid.bm25_index := products_bm25 c;
                      Hybrid.vector_index := products_vector c;
                      Hybrid.alpha := hybrid_alpha |} (env c) query limit)
    (fun st =>
       let '(h, e, rs) := st in
       Py.Ok ({| products_bm25 := Hybrid.bm25_index h; specs_bm25 := specs_bm25 c;
                 products_vector := products_vector c;
                 specs_vector := specs_vector c; env := e |}, rs)).

End WithLibraries.
End Catalog.

(** ** Result filters ([product_search.py]) *)

Module Searcher.

(** A formatted product as [_apply_filters] reads it; [None] is an absent
    key (or a [None] value where the code writes [get(k) or ""]). *)
Record Product := {
  p_id : string;
  p_name : option string;
  p_price : option Q;
  p_description : option string;
  p_vendor : option string;
  p_tags : option Py.tags_value;
  p_category : option string;
  p_type : option string;
  p_in_stock : option bool
}.

(** The filter map; [None] is an absent key. *)
Record Filters := {
  price_min : option Q;
  price_max : option Q;
  vendor : option string;
  category : option string;
  color : option string;
  material : option string;
  style : option string;
  room_type : option string;
  tags : option (list string);
  in_stock : option bool
}.

Section WithRuntime.
Context `{Py.Runtime}.

Definition _parse_tags (tags : option Py.tags_value) : list string :=
  match tags with
  | Some (Py.TagList l) => l
  | Some (Py.TagText t) => Py.get (Py.json_loads t) []
  | None => []
  end.

(** [product.get("price", 0) < filters["price_min"]] *)
Definition below_min (product : Product) (lo : Q) : bool :=
  Py.Qlt_bool (Py.get (p_price product) 0%Q) lo.

(** [product.get("price", float('inf')) > filters["price_max"]] *)
Definition above_max (product : Product) (hi : Q) : bool :=
  match p_price product with
  | Some v => Py.Qlt_bool hi v
  | None => true
  end.

(** A filter that is absent lets the product through. *)
Definition check {A} (f : option A) (test : A -> bool) : bool :=
  match f with Some v => test v | None => true end.

Definition tagged (label : string) (target : string) (prod_tags_lower : list string)
    (prod_desc : string) : bool :=
  PyStr.mem target prod_tags_lower
  || PyStr.mem (label ++ target) prod_tags_lower
  || PyStr.contains target prod_desc.

(** The body of the loop of [_apply_filters]: [true] when no [continue] is
    taken, the tests in the order of the source. *)
Definition passes (filters : Filters) (product : Product) : bool :=
  let prod_tags_lower := map PyStr.lower (_parse_tags (p_tags product)) in
  let prod_desc := PyStr.lower (Py.get (p_description product) "") in
  check (price_min filters) (fun lo => negb (below_min product lo))
  && check (price_max filters) (fun hi => negb (above_max product hi))
  && check (vendor filters)
       (fun v => String.eqb (PyStr.lower (Py.get (p_vendor product) "")) (PyStr.lower v))
  && check (category filters)
       (fun cat =>
          let target_cat := PyStr.lower cat in
          PyStr.contains target_cat (PyStr.lower (Py.get (p_category product) ""))
          || PyStr.contains target_cat (PyStr.lower (Py.get (p_type product) ""))
          || existsb (PyStr.contains target_cat) prod_tags_lower
          || PyStr.mem ("category_" ++ target_cat) prod_tags_lower)
  && check (color filters)
       (fun col =>
          let target_color := PyStr.lower col in
          PyStr.mem target_color prod_tags_lower
          || PyStr.mem ("color_" ++ target_color) prod_tags_lower
          || PyStr.mem ("colour_" ++ target_color) prod_tags_lower
          || PyStr.contains target_color (PyStr.lower (Py.get (p_name product) ""))
          || PyStr.contains target_color prod_desc)
  && check (material filters)
       (fun m => tagged "material_" (PyStr.lower m) prod_tags_lower prod_desc)
  && check (style filters)
       (fun st => tagged "style_" (PyStr.lower st) prod_tags_lower prod_desc)
  && check (room_type filters)
       (fun room =>
          let target_room := PyStr.replace_char "_" " " (PyStr.lower room) in
          PyStr.mem target_room prod_tags_lower
          || PyStr.mem (PyStr.replace_char " " "_" target_room) prod_tags_lower
          || PyStr.contains target_room prod_desc)
  && check (tags filters)
       (fun ts => existsb (fun t => PyStr.mem (PyStr.lower t) prod_tags_lower) ts)
  && check (in_stock filters)
       (fun want => Bool.eqb (Py.get (p_in_stock product) true) want).

Definition _apply_filters (results : list Product) (filters : Filters) : list Product :=
  fold_left
    (fun filtered result =>
       if passes filters result then filtered ++ [result] else filtered)
    results [].

End WithRuntime.

(** The price a product is compared with is within the bounds present in the
    filter map; a product without a price counts as 0 against [price_min]
    and as unbounded against [price_max]. *)
Definition price_within (lo hi : option Q) (product : Product) : Prop :=
  (forall l, lo = Some l -> (l <= Py.get (p_price product) 0)%Q)
  /\ (forall h, hi = Some h ->
                exists v, p_price product = Some v /\ (v <= h)%Q).

(** A filter map that carries price bounds only. *)
Definition price_only (lo hi : option Q) : Filters :=
  {| price_min := lo; price_max := hi;
     vendor := None; category := None; color := None;
     material := None; style := None;
     room_type := None; tags := None;
     in_stock := None |}.

End Searcher.

(** ** Stand-ins for the external libraries, used in worked examples *)

Module Sample.
Import Model.

Definition quote_char : string := String (ascii_of_nat 34) EmptyString.

(** Every second piece of a text cut at the double quotes. *)
Fixpoint odd_pieces (l : list string) : list string :=
  match l with
  | _ :: x :: r => x :: odd_pieces r
  | _ => []
  end.

(** JSON and [str] of tag lists whose tags need no escaping. *)
#[export] Instance runtime : Py.Runtime := {|
  Py.json_dumps l :=
    ("[" ++ PyStr.join ", " (map (fun t => quote_char ++ t ++ quote_char) l) ++ "]")%string;
  Py.json_loads t :=
    if String.prefix "[" t
    then Some (odd_pieces
                 (PyStr.runs (fun a => negb (Ascii.eqb a (ascii_of_nat 34))) EmptyString t))
    else None;
  Py.str_of_list l :=
    ("[" ++ PyStr.join ", " (map (fun t => "'" ++ t ++ "'") l) ++ "]")%string
|}.

(** A scorer that counts, per document, the occurrences of query tokens. *)
#[export] Instance scorer : Index.Scorer := {|
  Index.get_scores fitted query_tokens :=
    map (fun doc =>
           Hybrid.nat_Q
             (List.length (List.filter (fun t => PyStr.mem t query_tokens) doc)))
        (Index.fitted_corpus fitted)
|}.

(** File contents are either a pickled dictionary or unreadable bytes. *)
#[export] Instance pickle : Index.Pickle := {|
  Index.blob := option Index.index_data;
  Index.pickle_dump d := Some d;
  Index.pickle_load b := Index.PDict <$> b
|}.

(** A store that answers every query with its entries in key order, all at
    cosine distance 1/2. *)
#[export] Instance backend : Vector.Backend := {|
  Vector.collection_query coll query limit :=
    firstn limit
      (map (fun kv => (fst kv, 1 # 2, Vector.e_meta (snd kv))) (map_to_list coll))
|}.

Definition product (sku : string) (title : string) (cost : Q) (description : string)
  : Metadata :=
  {| m_sku := Some sku; m_handle := Some sku; m_title := Some title;
     m_price := Some cost; m_currency := None; m_image_url := None;
     m_product_url := None; m_vendor := None; m_tags := Some [];
     m_description := Some description; m_inventory_quantity := None;
     m_section := None; m_attributes := None; m_type := None |}.

Definition hit (sku : string) (distance : Q) (title : string) : Result :=
  {| r_id := sku; r_score := distance;
     r_content :=
       {| c_id := None; c_sku := Some sku; c_handle := None; c_title := Some title;
          c_price := None; c_currency := None; c_image_url := None;
          c_product_url := None; c_vendor := None; c_tags := None;
          c_description := Some ""; c_inventory_quantity := None; c_type := None;
          c_section := None; c_spec_text := None; c_attributes := None |} |}.

Definition empty_env : Index.Env :=
  {| Index.products := ∅; Index.specs := ∅; Index.disk := ∅ |}.

Definition empty_vector : Vector.VectorIndex := {| Vector.collection := ∅ |}.

(** A catalogue holding one product. *)
Definition one_chair : Catalog.CatalogIndexer :=
  Catalog.addProducts (Catalog.fresh empty_env empty_vector empty_vector)
    [product "C1" "Club Chair" 120 "leather armchair"].

End Sample.

(** ** Further operations of the catalogue facade and of query expansion *)

Module Facade.
Import Model.

Section WithLibraries.
Context `{Py.Runtime} `{Index.Scorer} `{Index.Pickle} `{Vector.Backend}.

(** [CatalogIndexer.getProductById]: the row as a dictionary, [None] on a
    miss. *)
Definition getProductById (c : Catalog.CatalogIndexer) (sku : string) : option Content :=
  product_to_dict <$> (Index.products (Catalog.env c) !! sku).

(** [DatabaseManager.clear_all] on the two tables of the model. *)
Definition clear_all (e : Index.Env) : Index.Env :=
  {| Index.products := ∅; Index.specs := ∅; Index.disk := Index.disk e |}.

(** [CatalogIndexer.clearAll] *)
Definition clearAll (c : Catalog.CatalogIndexer) : Catalog.CatalogIndexer :=
  let e0 := clear_all (Catalog.env c) in
  let '(pb, e1) := Index.clear (Catalog.products_bm25 c) e0 in
  let pv := Vector.clear (Catalog.products_vector c) in
  let '(sb, e2) := Index.clear (Catalog.specs_bm25 c) e1 in
  let sv := Vector.clear (Catalog.specs_vector c) in
  {| Catalog.products_bm25 := pb; Catalog.specs_bm25 := sb;
     Catalog.products_vector := pv; Catalog.specs_vector := sv;
     Catalog.env := e2 |}.

End WithLibraries.
End Facade.

Module Expansion.

(** The memo table [_query_cache] of a [HybridSearch], in insertion order. *)
Definition cache := list (string * string).

Definition _cache_max_size : nat := 200.

Fixpoint cache_get (c : cache) (k : string) : option string :=
  match c with
  | [] => None
  | (k', v) :: r => if String.eqb k k' then Some v else cache_get r k
  end.

(** [c[k] = v] *)
Fixpoint cache_set (c : cache) (k v : string) : cache :=
  match c with
  | [] => [(k, v)]
  | (k', v') :: r =>
      if String.eqb k k' then (k', v) :: r else (k', v') :: cache_set r k v
  end.

(** [_expand_query] with its memo table: a hit answers from the table; a
    miss computes the expansion, drops the oldest entry when the table is
    full, and stores the new one. *)
Definition _expand_query (c : cache) (query : string) : string * cache :=
  match cache_get c query with
  | Some expanded => (expanded, c)
  | None =>
      let expanded := Hybrid._expand_query query in
      let c1 := if (_cache_max_size <=? List.length c)%nat then tl c else c in
      (expanded, cache_set c1 query expanded)
  end.

(** Every entry of the table holds the expansion of its key. *)
Definition coherent (c : cache) : Prop :=
  forall k v, List.In (k, v) c -> v = Hybrid._expand_query k.

End Expansion.

(** ** Sequences of operations used in the statements below *)

Module Scenario.
Import Model.

Section WithLibraries.
Context `{Index.Scorer} `{Index.Pickle}.

(** [add_documents] called once per batch on a new index. *)
Definition ingest_all (name : string) (env : Index.Env)
    (batches : list (list IndexDocument)) : Index.BM25Index * Index.Env :=
  fold_left (fun st batch => Index.add_documents (fst st) (snd st) batch)
            batches (Index.init name, env).

(** The token lists [add_documents] computes for a batch. *)
Definition tokens_of (batch : list IndexDocument) : list (list string) :=
  map (fun doc => BM25._tokenize (content doc)) batch.

(** The index holds exactly the ids [ids] and the token lists [toks]:
    either nothing has been ingested, or the scorer is fitted on [toks] and
    the stored corpus is [toks]. *)
Definition tracks (idx : Index.BM25Index) (ids : list string)
    (toks : list (list string)) : Prop :=
  Index.doc_ids idx = ids
  /\ (Index.bm25 idx = None /\ Index.corpus idx = None /\ ids = [] /\ toks = []
      \/ Index.bm25 idx = Some {| Index.fitted_corpus := toks |}
         /\ Index.corpus idx = Some toks /\ ids <> []).

End WithLibraries.

(** The query keywords of the incompatibility table that a candidate
    triggers: the key occurs in the query and one of its paired terms occurs
    in the candidate's title or description. *)
Definition triggered (query title description : string) : list string :=
  map fst
    (List.filter
       (fun kv =>
          PyStr.contains (fst kv) (PyStr.lower query)
          && existsb (fun nk => PyStr.contains nk
                                  (PyStr.lower (title ++ " " ++ description)))
                     (snd kv))
       Hybrid.NEGATIVE_KEYWORDS).

(** Some keyword of the list occurs in the text. *)
Definition mentions (keywords : list string) (text_lower : string) : bool :=
  existsb (fun kw => PyStr.contains kw text_lower) keywords.

(** The keys of a dictionary, in insertion order. *)
Definition keys (d : Hybrid.dict) : list string := map fst d.



(** A filter map with every text value lower-cased. *)
Definition lower_filters (f : Searcher.Filters) : Searcher.Filters :=
  {| Searcher.price_min := Searcher.price_min f;
     Searcher.price_max := Searcher.price_max f;
     Searcher.vendor := PyStr.lower <$> Searcher.vendor f;
     Searcher.category := PyStr.lower <$> Searcher.category f;
     Searcher.color := PyStr.lower <$> Searcher.color f;
     Searcher.material := PyStr.lower <$> Searcher.material f;
     Searcher.style := PyStr.lower <$> Searcher.style f;
     Searcher.room_type := PyStr.lower <$> Searcher.room_type f;
     Searcher.tags := map PyStr.lower <$> Searcher.tags f;
     Searcher.in_stock := Searcher.in_stock f |}.

(** The filter map without any key. *)
Definition no_filters : Searcher.Filters :=
  {| Searcher.price_min := None; Searcher.price_max := None;
     Searcher.vendor := None; Searcher.category := None; Searcher.color := None;
     Searcher.material := None; Searcher.style := None;
     Searcher.room_type := None; Searcher.tags := None;
     Searcher.in_stock := None |}.

(** The same product with another value under ["tags"]. *)
Definition with_tags (product : Searcher.Product) (t : option Py.tags_value)
  : Searcher.Product :=
  {| Searcher.p_id := Searcher.p_id product;
     Searcher.p_name := Searcher.p_name product;
     Searcher.p_price := Searcher.p_price product;
     Searcher.p_description := Searcher.p_description product;
     Searcher.p_vendor := Searcher.p_vendor product;
     Searcher.p_tags := t;
     Searcher.p_category := Searcher.p_category product;
     Searcher.p_type := Searcher.p_type product;
     Searcher.p_in_stock := Searcher.p_in_stock product |}.

End Scenario.

(** ** The product searcher ([product_search.py]) *)

(** Further string primitives. *)
Module PyText.

Definition is_digit (a : ascii) : bool := PyStr.in_range 48 57 a.

Definition is_upper (a : ascii) : bool := PyStr.in_range 65 90 a.

Definition is_lower (a : ascii) : bool := PyStr.in_range 97 122 a.

Definition upper_char (a : ascii) : ascii :=
  if is_lower a then ascii_of_nat (nat_of_ascii a - 32) else a.

(** [s.title()] on ASCII text: a letter that follows a letter is
    lower-cased, any other letter is upper-cased. *)
Fixpoint title_from (previous_is_cased : bool) (s : string) : string :=
  match s with
  | EmptyString => EmptyString
  | String a r =>
      if is_lower a || is_upper a then
        String (if previous_is_cased then PyStr.lower_char a else upper_char a)
               (title_from true r)
      else String a (title_from false r)
  end.

Definition title (s : string) : string := title_from false s.

(** [s.replace(old, new)] for a non-empty [old]: the occurrences are
    replaced from left to right, without overlap; [skip] counts the
    characters of an occurrence still to pass over. *)
Fixpoint replace_from (old new : string) (skip : nat) (s : string) : string :=
  match s with
  | EmptyString => EmptyString
  | String a r =>
      match skip with
      | S k => replace_from old new k r
      | O =>
          if String.prefix old s
          then (new ++ replace_from old new (String.length old - 1) r)%string
          else String a (replace_from old new 0 r)
      end
  end.

Definition replace (old new s : string) : string := replace_from old new 0 s.

Definition not_underscore (a : ascii) : bool := negb (Ascii.eqb a "_"%char).

(** The longest prefix of characters satisfying [p]. *)
Fixpoint take_while (p : ascii -> bool) (s : string) : string :=
  match s with
  | String a r => if p a then String a (take_while p r) else EmptyString
  | EmptyString => EmptyString
  end.

(** [int] of a text of decimal digits. *)
Definition digit_value (a : ascii) : Z := Z.of_nat (nat_of_ascii a - 48).

Fixpoint number_from (acc : Z) (digits : string) : Z :=
  match digits with
  | EmptyString => acc
  | String a r => number_from (10 * acc + digit_value a) r
  end.

(** [float(digits)] *)
Definition float_of_digits (digits : string) : Q := inject_Z (number_from 0 digits).

(** [str(n)] of a natural number. *)
Definition str_of_nat (n : nat) : string :=
  DecimalString.NilZero.string_of_uint (Nat.to_uint n).

(** [sorted(l)] on texts: ascending by character codes. *)
Fixpoint insert_asc (x : string) (l : list string) : list string :=
  match l with
  | [] => [x]
  | y :: r => if String.ltb x y then x :: y :: r else y :: insert_asc x r
  end.

Definition sorted (l : list string) : list string := fold_right insert_asc [] l.

(** [\s+] at the start of [s]: what follows the white space, when there is
    some. *)
Definition spaces1 (s : string) : option string :=
  match s with
  | String a r => if PyStr.is_space a then Some (PyStr.lstrip r) else None
  | EmptyString => None
  end.

(** The words of a pattern, each followed by [\s+], matched at the start of
    [s]: what follows them. *)
Fixpoint after_words (words : list string) (s : string) : option string :=
  match words with
  | [] => Some s
  | w :: rest =>
      if String.prefix w s then
        match spaces1 (PyStr.drop (String.length w) s) with
        | Some s' => after_words rest s'
        | None => None
        end
      else None
  end.

(** [\$?(\d+)] at the start of [s]: the digits of the group. *)
Definition amount_here (s : string) : option string :=
  let s1 := match s with
            | String a r => if Ascii.eqb a "$"%char then r else s
            | EmptyString => s
            end in
  match take_while is_digit s1 with
  | EmptyString => None
  | digits => Some digits
  end.

Definition match_here (words : list string) (s : string) : option string :=
  match after_words words s with
  | Some s' => amount_here s'
  | None => None
  end.

(** [pattern.search(s)] for the pattern [w1\s+...wn\s+\$?(\d+)]: group 1 of
    the leftmost match. None of the pieces can match in two ways (white
    space, the dollar sign, digits and the first letter of a word exclude
    each other), so the greedy reading is the only one. *)
Fixpoint price_search (words : list string) (s : string) : option string :=
  match match_here words s with
  | Some digits => Some digits
  | None =>
      match s with
      | String _ r => price_search words r
      | EmptyString => None
      end
  end.

End PyText.

Module ProductSearch.
Import Model.

(** [PRICE_PATTERNS]: each pattern by its words; the pattern is the words
    separated by [\s+] and followed by [\s+\$?(\d+)]. *)
Definition PRICE_PATTERNS : list (list string) :=
  [["under"]; ["less"; "than"]; ["below"]; ["cheaper"; "than"]; ["max"]; ["maximum"]].

Definition SUBJECTIVE_PRICE_MAP : list (string * Q) :=
  [("cheap", 200%Q); ("affordable", 300%Q); ("budget", 250%Q);
   ("inexpensive", 250%Q); ("expensive", 500%Q); ("premium", 800%Q);
   ("luxury", 1000%Q); ("high-end", 1000%Q); ("designer", 1200%Q)].

Definition COLOR_KEYWORDS : list string :=
  ["black"; "white"; "red"; "green"; "blue"; "brown"; "grey"; "gray"; "yellow";
   "orange"; "pink"; "purple"; "beige"].

Definition MATERIAL_KEYWORDS : list string :=
  ["wood"; "metal"; "leather"; "fabric"; "glass"; "plastic"; "steel"].

Definition ROOM_KEYWORDS : list string :=
  ["office"; "bedroom"; "living room"; "dining room"].

Definition _cache_max_size : nat := 500.

(** The first element of [l] on which [f] answers. *)
Fixpoint first_some {A B} (f : A -> option B) (l : list A) : option B :=
  match l with
  | [] => None
  | x :: r => match f x with Some b => Some b | None => first_some f r end
  end.

(** The loops that detect filters in the query. *)
Definition detect_color (query_lower : string) : option string :=
  find (fun color => PyStr.contains color query_lower) COLOR_KEYWORDS.

Definition detect_material (query_lower : string) : option string :=
  find (fun mat => PyStr.contains (" " ++ mat ++ " ") (" " ++ query_lower ++ " "))
       MATERIAL_KEYWORDS.

Definition detect_room (query_lower : string) : option string :=
  find (fun room => PyStr.contains room query_lower) ROOM_KEYWORDS.

Definition detect_price (query_lower : string) : option Q :=
  match first_some (fun pattern => PyText.price_search pattern query_lower)
                   PRICE_PATTERNS with
  | Some digits => Some (PyText.float_of_digits digits)
  | None =>
      snd <$> find (fun item => PyStr.word_search (fst item) query_lower)
                   SUBJECTIVE_PRICE_MAP
  end.

(** A key that is absent is filled by [detect]. *)
Definition fill {A} (given detected : option A) : option A :=
  match given with Some v => Some v | None => detected end.

(** The filter map after the detection block of [search]. *)
Definition auto_detect (query : string) (filters : Searcher.Filters) : Searcher.Filters :=
  let query_lower := PyStr.lower query in
  {| Searcher.price_min := Searcher.price_min filters;
     Searcher.price_max := fill (Searcher.price_max filters) (detect_price query_lower);
     Searcher.vendor := Searcher.vendor filters;
     Searcher.category := Searcher.category filters;
     Searcher.color := fill (Searcher.color filters) (detect_color query_lower);
     Searcher.material := fill (Searcher.material filters) (detect_material query_lower);
     Searcher.style := Searcher.style filters;
     Searcher.room_type := fill (Searcher.room_type filters) (detect_room query_lower);
     Searcher.tags := Searcher.tags filters;
     Searcher.in_stock := Searcher.in_stock filters |}.

Definition present {A} (o : option A) : bool :=
  match o with Some _ => true | None => false end.

(** [not filters]: the map has no key. *)
Definition is_empty (f : Searcher.Filters) : bool :=
  negb (present (Searcher.price_min f) || present (Searcher.price_max f)
        || present (Searcher.vendor f) || present (Searcher.category f)
        || present (Searcher.color f) || present (Searcher.material f)
        || present (Searcher.style f) || present (Searcher.room_type f)
        || present (Searcher.tags f) || present (Searcher.in_stock f)).

(** The value of an optional text when it is truthy. *)
Definition truthy_text (o : option string) : option string :=
  match o with
  | Some EmptyString => None
  | other => other
  end.

(** The dictionary [search] builds from one hybrid result, with the keys
    [_apply_filters] reads. [Model.Content] carries no key ["category"], so
    the default of [product_data.get("category", "")] applies, and the
    dictionary gets neither ["type"] nor ["in_stock"]. *)
Definition format_result (result : Hybrid.Final) : Searcher.Product :=
  let product_data := Hybrid.f_content result in
  {| Searcher.p_id := Py.get (c_sku product_data) (Hybrid.f_id result);
     Searcher.p_name := Some (Py.get (c_title product_data) "Unknown Product");
     Searcher.p_price := Some (Py.get (c_price product_data) 0%Q);
     Searcher.p_description := Some (Py.get (c_description product_data) "");
     Searcher.p_vendor := Some (Py.get (c_vendor product_data) "");
     Searcher.p_tags := Some (Py.get (c_tags product_data) (Py.TagList []));
     Searcher.p_category := Some "";
     Searcher.p_type := None;
     Searcher.p_in_stock := None |}.

(** What [search] returns: a list of products, or the notice that no
    product has the requested colour. *)
Inductive Response :=
| Products (l : list Searcher.Product)
| NoColorMatch (requested_color : string) (available_colors : list string).

Definition products_of (r : Response) : list Searcher.Product :=
  match r with Products l => l | NoColorMatch _ _ => [] end.

(** The class attribute [_cache], in insertion order. *)
Definition cache := list (string * list Searcher.Product).

Fixpoint cache_get (c : cache) (k : string) : option (list Searcher.Product) :=
  match c with
  | [] => None
  | (k', v) :: r => if String.eqb k k' then Some v else cache_get r k
  end.

Fixpoint cache_set (c : cache) (k : string) (v : list Searcher.Product) : cache :=
  match c with
  | [] => [(k, v)]
  | (k', v') :: r =>
      if String.eqb k k' then (k', v) :: r else (k', v') :: cache_set r k v
  end.

(** The filter map [{"tags": [category]}]. *)
Definition category_filters (category : string) : Searcher.Filters :=
  {| Searcher.price_min := None; Searcher.price_max := None;
     Searcher.vendor := None; Searcher.category := None;
     Searcher.color := None; Searcher.material := None;
     Searcher.style := None; Searcher.room_type := None;
     Searcher.tags := Some [category]; Searcher.in_stock := None |}.

(** [str] of the [filters] argument ([None] or a dictionary). *)
Class Repr := { str_of_filters : option Searcher.Filters -> string }.

Section WithLibraries.
Context `{Py.Runtime} `{Index.Scorer} `{Index.Pickle} `{Vector.Backend} `{Repr}.

Record ProductSearcher := {
  catalog : Catalog.CatalogIndexer;
  _cache : cache
}.

Definition cache_key (query : string) (limit : nat) (filters : option Searcher.Filters)
  : string :=
  (query ++ ":" ++ PyText.str_of_nat limit ++ ":" ++ str_of_filters filters)%string.

(** The colours the tags of one product name. *)
Definition colors_of (product : Searcher.Product) : list string :=
  let tags :=
    match Py.get (Searcher.p_tags product) (Py.TagList []) with
    | Py.TagList l => l
    | Py.TagText t => Py.get (Py.json_loads t) []
    end in
  flat_map
    (fun tag =>
       let tag_lower := PyStr.lower tag in
       if String.prefix "color_" tag_lower
       then [PyText.title (PyText.replace "color_" "" tag_lower)]
       else if PyStr.mem tag_lower COLOR_KEYWORDS then [PyText.title tag_lower]
       else [])
    tags.

(** The set [available_colors], as the list of its elements in the order
    they are added. *)
Definition available_colors_of (formatted_results : list Searcher.Product) : list string :=
  PyStr.dedup (flat_map colors_of formatted_results).

Definition search (s : ProductSearcher) (query : string) (limit : nat)
    (filters : option Searcher.Filters) : Py.result (ProductSearcher * Response) :=
  let key := cache_key query limit filters in
  match cache_get (_cache s) key with
  | Some cached => Py.Ok (s, Products cached)
  | None =>
      let search_limit := Nat.min (limit * 8) 100 in
      Py.bind (Catalog.searchProducts (catalog s) query search_limit)
        (fun st =>
           let '(catalog', results) := st in
           let formatted_results := map format_result results in
           let filters1 := auto_detect query (Py.get filters Scenario.no_filters) in
           let requested_color :=
             truthy_text (if is_empty filters1 then None else Searcher.color filters1) in
           let available_colors :=
             if present requested_color then available_colors_of formatted_results
             else [] in
           let formatted_results1 :=
             if is_empty filters1 then formatted_results
             else Searcher._apply_filters formatted_results filters1 in
           let final_results := firstn limit formatted_results1 in
           let cache1 :=
             if (_cache_max_size <=? List.length (_cache s))%nat then tl (_cache s)
             else _cache s in
           let s' := {| catalog := catalog';
                        _cache := cache_set cache1 key final_results |} in
           match requested_color, final_results, available_colors with
           | Some color, [], _ :: _ =>
               Py.Ok (s', NoColorMatch color (PyText.sorted available_colors))
           | _, _, _ => Py.Ok (s', Products final_results)
           end)
  end.

(** [search_by_category] *)
Definition search_by_category (s : ProductSearcher) (category : string) (limit : nat)
  : Py.result (ProductSearcher * Response) :=
  search s category limit (Some (category_filters category)).

End WithLibraries.
End ProductSearch.

(** ** Ingestion of specifications ([catalog.py]) *)

Module Specs.
Import Model.

(** A specification dictionary as handed to [addSpecs]; [None] is an absent
    key. *)
Record Spec := {
  s_sku : option string;
  s_section : option string;
  s_spec_text : option string;
  s_attributes : option string
}.

(** The document [addSpecs] builds from the entry at position [idx];
    [spec['sku']], [spec['section']] and [spec['spec_text']] raise on an
    absent key. *)
Definition spec_document (idx : nat) (spec : Spec) : Py.result IndexDocument :=
  match s_sku spec, s_section spec, s_spec_text spec with
  | Some sku, Some section, Some spec_text =>
      Py.Ok {| id := (sku ++ "_" ++ section ++ "_" ++ PyText.str_of_nat idx)%string;
               content := spec_text;
               metadata :=
                 {| m_sku := Some sku; m_handle := None; m_title := None;
                    m_price := None; m_currency := None; m_image_url := None;
                    m_product_url := None; m_vendor := None; m_tags := None;
                    m_description := None; m_inventory_quantity := None;
                    m_section := Some section;
                    m_attributes := Some (Py.get (s_attributes spec) "{}");
                    m_type := None |} |}
  | _, _, _ => Py.Raise Py.KeyError
  end.

(** The loop over [enumerate(specs)], counting from [idx]. *)
Fixpoint documents_from (idx : nat) (specs : list Spec) : Py.result (list IndexDocument) :=
  match specs with
  | [] => Py.Ok []
  | spec :: rest =>
      Py.bind (spec_document idx spec)
        (fun doc =>
           Py.bind (documents_from (S idx) rest) (fun docs => Py.Ok (doc :: docs)))
  end.

Section WithLibraries.
Context `{Py.Runtime} `{Index.Scorer} `{Index.Pickle} `{Vector.Backend}.

(** [CatalogIndexer.addSpecs] *)
Definition addSpecs (c : Catalog.CatalogIndexer) (specs : list Spec)
  : Py.result Catalog.CatalogIndexer :=
  Py.bind (documents_from 0 specs)
    (fun documents =>
       let '(idx, env1) :=
         Index.add_documents (Catalog.specs_bm25 c) (Catalog.env c) documents in
       let env2 := Index.save idx env1 in
       Py.Ok {| Catalog.products_bm25 := Catalog.products_bm25 c;
                Catalog.specs_bm25 := idx;
                Catalog.products_vector := Catalog.products_vector c;
                Catalog.specs_vector :=
                  Vector.add_documents (Catalog.specs_vector c) documents;
                Catalog.env := env2 |}).

End WithLibraries.
End Specs.

(** ** Preparation of products before ingestion ([load_catalog.py]) *)

Module Loader.

(** The value under a key of a fetched product: the key is absent, holds
    [None], or holds a text. *)
Inductive value :=
| Absent
| NoneValue
| Text (s : string).

(** The value under ["specs"]: absent, a text, a dictionary (of which the
    entry ["inventory_quantity"] is read), or anything else. *)
Inductive specs_value :=
| SpecsAbsent
| SpecsText (s : string)
| SpecsDict (inventory_quantity : option Z)
| SpecsOther.

(** [json.loads] on the text under ["specs"]; [None] when it raises. *)
Class SpecsJson := { loads_specs : string -> option specs_value }.

(** The keys of a product that [process_products] reads or writes. *)
Record Product := {
  sku : value;
  handle : value;
  title : value;
  product_url : value;
  specs : specs_value;
  inventory_quantity : option Z
}.

(** The truth value of [p.get(key)]. *)
Definition truthy (v : value) : bool :=
  match v with
  | Text s => negb (String.eqb s "")
  | _ => false
  end.

(** [p[key]] inside an f-string, for a key that holds a text. *)
Definition text_of (v : value) : string :=
  match v with Text s => s | _ => EmptyString end.

(** [p.get('sku', 'unknown')] inside an f-string. *)
Definition sku_text (v : value) : string :=
  match v with
  | Absent => "unknown"
  | NoneValue => "None"
  | Text s => s
  end.

Section WithLibraries.
Context `{SpecsJson}.

Definition base_url (shopify_domain : string) : string :=
  ("https://" ++ shopify_domain ++ "/products/")%string.

(** One round of the loop of [process_products]. *)
Definition process_product (shopify_domain : string) (p : Product) : Product :=
  let specs1 :=
    match specs p with
    | SpecsText t => Py.get (loads_specs t) (SpecsDict None)
    | other => other
    end in
  let inventory :=
    match specs1 with
    | SpecsDict quantity => Py.get quantity 0%Z
    | _ => 0%Z
    end in
  let url :=
    if truthy (product_url p) then product_url p
    else if truthy (handle p)
         then Text (base_url shopify_domain ++ text_of (handle p))
    else if truthy (title p)
         then Text (base_url shopify_domain
                    ++ PyStr.replace_char " " "-" (PyStr.lower (text_of (title p))))
    else Text (base_url shopify_domain ++ sku_text (sku p)) in
  {| sku := sku p; handle := handle p; title := title p;
     product_url := url; specs := specs1;
     inventory_quantity := Some inventory |}.

Definition process_products (shopify_domain : string) (products : list Product)
  : list Product :=
  fold_left (fun processed p => processed ++ [process_product shopify_domain p])
            products [].

End WithLibraries.
End Loader.

(** Stand-ins used in worked examples of the product searcher. *)
Module SearcherSample.
Import Model.
Import Sample.

Definition text_entry (key value : string) : string :=
  ("'" ++ key ++ "': '" ++ value ++ "'")%string.

Definition number_entry (key : string) (value : Q) : string :=
  ("'" ++ key ++ "': "
   ++ DecimalString.NilZero.string_of_int (Z.to_int (Qnum value)) ++ "/"
   ++ DecimalString.NilZero.string_of_uint (Pos.to_uint (Qden value)))%string.

Definition entry {A} (o : option A) (show : A -> string) : list string :=
  match o with Some v => [show v] | None => [] end.

(** A printing of the [filters] argument, keys in a fixed order. *)
#[export] Instance repr : ProductSearch.Repr := {|
  ProductSearch.str_of_filters filters :=
    match filters with
    | None => "None"
    | Some f =>
        ("{" ++ PyStr.join ", "
                  (entry (Searcher.price_min f) (number_entry "price_min")
                   ++ entry (Searcher.price_max f) (number_entry "price_max")
                   ++ entry (Searcher.vendor f) (text_entry "vendor")
                   ++ entry (Searcher.category f) (text_entry "category")
                   ++ entry (Searcher.color f) (text_entry "color")
                   ++ entry (Searcher.material f) (text_entry "material")
                   ++ entry (Searcher.style f) (text_entry "style")
                   ++ entry (Searcher.room_type f) (text_entry "room_type")
                   ++ entry (Searcher.tags f)
                        (fun l => ("'tags': [" ++ PyStr.join ", " l ++ "]")%string)
                   ++ entry (Searcher.in_stock f)
                        (fun b => if b then "'in_stock': True" else "'in_stock': False"))
         ++ "}")%string
    end
|}.

(** A catalogue holding one black chair. *)
Definition black_chair : Catalog.CatalogIndexer :=
  Catalog.addProducts
    (Catalog.fresh Sample.empty_env Sample.empty_vector Sample.empty_vector)
    [{| m_sku := Some "C1"; m_handle := Some "club-chair"; m_title := Some "Club Chair";
        m_price := Some 120%Q; m_currency := None; m_image_url := None;
        m_product_url := None; m_vendor := None;
        m_tags := Some ["Color_Black"; "lounge"];
        m_description := Some "leather armchair"; m_inventory_quantity := None;
        m_section := None; m_attributes := None; m_type := None |}].

Definition searcher : ProductSearch.ProductSearcher :=
  {| ProductSearch.catalog := black_chair; ProductSearch._cache := [] |}.

End SearcherSample.

(* ===================================================================== *)
(** * Properties *)
(* ===================================================================== *)

Example lower_ex : PyStr.lower "Blue Office-Chair 2X" = "blue office-chair 2x".
Proof. reflexivity. Qed.

Example findall_words_ex :
  PyStr.findall_words "l-shaped desk, 2_seater!" = ["l"; "shaped"; "desk"; "2_seater"].
Proof. reflexivity. Qed.

Example split_ex : PyStr.split "  gaming   chair, red " = ["gaming"; "chair,"; "red"].
Proof. reflexivity. Qed.

Example strip_ex : PyStr.strip "  a b  " = "a b".
Proof. reflexivity. Qed.

Example contains_ex :
  PyStr.contains "sofa" "reception sofa bed" = true /\ PyStr.contains "sofas" "sofa" = false.
Proof. split; reflexivity. Qed.

Example word_search_ex :
  PyStr.word_search "bed" "sofa bed" = true /\ PyStr.word_search "bed" "bedroom set" = false.
Proof. split; reflexivity. Qed.

(** ** Tokenizer *)

Example tokenize_gaming_chair :
  BM25._tokenize "Show me a Gaming chair" = ["gaming"; "chair"; "a_gaming"; "gaming_chair"].
Proof. reflexivity. Qed.

Lemma bigrams_of_cons (a b : string) (rest : list string) :
  BM25.bigrams_of (a :: b :: rest) =
  (if BM25.is_keyword a || BM25.is_keyword b then [(a ++ "_" ++ b)%string] else [])
  ++ BM25.bigrams_of (b :: rest).
Proof.
  unfold BM25.bigrams_of. cbn [List.length Nat.sub].
  rewrite Nat.sub_0_r. cbn [seq flat_map nth Nat.add]. f_equal.
  rewrite <- seq_shift, flat_map_concat_map, map_map, <- flat_map_concat_map.
  apply flat_map_ext. intros i. reflexivity.
Qed.

Lemma bigrams_of_adjacent (words : list string) :
  BM25.bigrams_of words = BM25.adjacent_bigrams words.
Proof.
  induction words as [|a [|b rest] IH]; try reflexivity.
  rewrite bigrams_of_cons, IH. reflexivity.
Qed.

Lemma keep_token_either_eq (t : string) :
  BM25.keep_token t = BM25.keep_token_either t.
Proof.
  unfold BM25.keep_token, BM25.keep_token_either.
  rewrite negb_orb, Nat.leb_antisym, negb_involutive. reflexivity.
Qed.

(** C4 (as worded): the source tokenizer is not the reference with the
    "length <= 2 and stop word" drop rule: on the text "the" the source
    returns no token, the worded reference returns the token "the". *)
Lemma tokenize_not_as_worded :
  BM25._tokenize "the" = [] /\
  BM25.tokenize_reference BM25.keep_token_as_worded "the" = ["the"] /\
  ~ (forall text, BM25._tokenize text =
                  BM25.tokenize_reference BM25.keep_token_as_worded text).
Proof.
  split; [reflexivity|]. split; [reflexivity|].
  intros H. specialize (H "the"). discriminate H.
Qed.

(** C4 (amended): for every text the source tokenizer equals the reference
    that lower-cases, extracts the [\w+] runs, drops a token when its length
    is <= 2 or it is a stop word unless it is a domain keyword, and appends
    the bigram of every adjacent pair with at least one domain keyword. *)
Theorem tokenize_reference_either (text : string) :
  BM25._tokenize text = BM25.tokenize_reference BM25.keep_token_either text.
Proof.
  unfold BM25._tokenize, BM25.tokenize_reference.
  rewrite bigrams_of_adjacent. f_equal.
  apply filter_ext. intros t. apply keep_token_either_eq.
Qed.

(** ** Ingestion: de-duplication by sku *)

Section Dedup.
Context `{Py.Runtime} `{Index.Scorer} `{Index.Pickle} `{Vector.Backend}.



End Dedup.

(** ** Result filters *)

Section Filters.
Context `{Py.Runtime}.

Lemma apply_filters_loop (filters : Searcher.Filters) (results : list Searcher.Product) :
  forall acc,
    fold_left
      (fun filtered result =>
         if Searcher.passes filters result then filtered ++ [result] else filtered)
      results acc
    = acc ++ List.filter (Searcher.passes filters) results.
Proof.
  induction results as [|r rs IH]; intros acc; cbn [fold_left List.filter].
  - now rewrite app_nil_r.
  - rewrite IH. destruct (Searcher.passes filters r); [|reflexivity].
    now rewrite <- app_assoc.
Qed.

Lemma apply_filters_filter (filters : Searcher.Filters) (results : list Searcher.Product) :
  Searcher._apply_filters results filters
  = List.filter (Searcher.passes filters) results.
Proof. unfold Searcher._apply_filters. now rewrite apply_filters_loop. Qed.

Lemma Qlt_bool_true (x y : Q) : Py.Qlt_bool x y = true <-> (x < y)%Q.
Proof.
  unfold Py.Qlt_bool. rewrite negb_true_iff. split.
  - intros Hb. apply Qnot_le_lt. intros Hle. apply Qle_bool_iff in Hle. congruence.
  - intros Hlt. destruct (Qle_bool y x) eqn:Hb; [|reflexivity].
    apply Qle_bool_iff in Hb. exfalso. exact (Qlt_not_le _ _ Hlt Hb).
Qed.

Lemma Qlt_bool_false (x y : Q) : Py.Qlt_bool x y = false <-> (y <= x)%Q.
Proof.
  unfold Py.Qlt_bool. rewrite negb_false_iff. apply Qle_bool_iff.
Qed.

Lemma price_checks_within (filters : Searcher.Filters) (product : Searcher.Product) :
  Searcher.check (Searcher.price_min filters)
    (fun lo => negb (Searcher.below_min product lo))
  && Searcher.check (Searcher.price_max filters)
       (fun hi => negb (Searcher.above_max product hi)) = true
  <-> Searcher.price_within (Searcher.price_min filters) (Searcher.price_max filters) product.
Proof.
  unfold Searcher.price_within, Searcher.check, Searcher.below_min, Searcher.above_max.
  rewrite andb_true_iff. split.
  - intros [Hlo Hhi]. split.
    + intros l El. rewrite El in Hlo. apply negb_true_iff, Qlt_bool_false in Hlo. exact Hlo.
    + intros h Eh. rewrite Eh in Hhi.
      destruct (Searcher.p_price product) as [v|]; [|discriminate].
      apply negb_true_iff, Qlt_bool_false in Hhi. eauto.
  - intros [Hlo Hhi]. split.
    + destruct (Searcher.price_min filters) as [l|]; [|reflexivity].
      apply negb_true_iff, Qlt_bool_false. now apply Hlo.
    + destruct (Searcher.price_max filters) as [h|]; [|reflexivity].
      destruct (Hhi h eq_refl) as (v & -> & Hv).
      apply negb_true_iff, Qlt_bool_false. exact Hv.
Qed.

(** C9: whatever else the filter map holds, every product that
    [_apply_filters] lets through comes from the input and has
    price <= price_max and price >= price_min for the bounds present; and
    when the map holds price bounds only, the products kept are exactly the
    input products within the bounds, so exactly the products above
    price_max or below price_min are excluded. *)
Theorem apply_filters_price_bounds
    (results : list Searcher.Product) (filters : Searcher.Filters) :
  (forall p, List.In p (Searcher._apply_filters results filters) ->
             List.In p results
             /\ Searcher.price_within (Searcher.price_min filters)
                                      (Searcher.price_max filters) p)
  /\ (forall lo hi p,
        List.In p (Searcher._apply_filters results (Searcher.price_only lo hi))
        <-> List.In p results /\ Searcher.price_within lo hi p).
Proof.
  split.
  - intros p. rewrite apply_filters_filter, filter_In. intros [Hin Hp].
    split; [exact Hin|]. apply price_checks_within.
    unfold Searcher.passes in Hp. do 8 (apply andb_true_iff in Hp; destruct Hp as [Hp _]).
    exact Hp.
  - intros lo hi p. rewrite apply_filters_filter, filter_In.
    rewrite <- (price_checks_within (Searcher.price_only lo hi) p).
    unfold Searcher.passes. cbn [Searcher.price_only Searcher.price_min Searcher.price_max
      Searcher.vendor Searcher.category Searcher.color Searcher.material Searcher.style
      Searcher.room_type Searcher.tags Searcher.in_stock Searcher.check].
    rewrite !andb_true_r. reflexivity.
Qed.

End Filters.

(** ** Sorting and the assembly loop *)

Section Sorting.
Context {A : Type} (key : A -> Q).

Lemma insert_desc_perm (x : A) (l : list A) :
  Permutation (Py.insert_desc key x l) (x :: l).
Proof.
  induction l as [|y r IH]; cbn; [reflexivity|].
  destruct (Qle_bool (key y) (key x)); [reflexivity|].
  rewrite IH. apply perm_swap.
Qed.

Lemma sorted_desc_perm (l : list A) : Permutation (Py.sorted_desc key l) l.
Proof.
  induction l as [|x r IH]; cbn; [reflexivity|].
  rewrite insert_desc_perm. now constructor.
Qed.

Lemma sorted_desc_length (l : list A) :
  List.length (Py.sorted_desc key l) = List.length l.
Proof. apply Permutation_length, sorted_desc_perm. Qed.

Lemma sorted_desc_In (x : A) (l : list A) :
  List.In x (Py.sorted_desc key l) <-> List.In x l.
Proof.
  split; apply Permutation_in; [|symmetry]; apply sorted_desc_perm.
Qed.

Lemma insert_desc_descending (x : A) (l : list A) :
  Py.descending key l -> Py.descending key (Py.insert_desc key x l).
Proof.
  unfold Py.descending. induction 1 as [|y r Hr IH Hy]; cbn.
  - repeat constructor.
  - destruct (Qle_bool (key y) (key x)) eqn:Hle.
    + apply Qle_bool_iff in Hle. constructor; [now constructor|].
      constructor; [exact Hle|].
      eapply List.Forall_impl; [|exact Hy]. intros z Hz. cbn in Hz.
      now apply Qle_trans with (key y).
    + constructor; [exact IH|].
      assert (Hlt : (key x < key y)%Q).
      { apply Qnot_le_lt. intros Hc. apply Qle_bool_iff in Hc. congruence. }
      apply List.Forall_forall. intros z Hz.
      apply (Permutation_in _ (insert_desc_perm x r)) in Hz.
      destruct Hz as [<-|Hz]; [now apply Qlt_le_weak|].
      exact (proj1 (List.Forall_forall _ _) Hy z Hz).
Qed.

Lemma sorted_desc_descending (l : list A) : Py.descending key (Py.sorted_desc key l).
Proof.
  induction l as [|x r IH]; cbn; [constructor|].
  now apply insert_desc_descending.
Qed.

Lemma In_firstn (n : nat) (x : A) (l : list A) :
  List.In x (firstn n l) -> List.In x l.
Proof.
  intros Hx. rewrite <- (firstn_skipn n l). apply in_or_app. now left.
Qed.

Lemma descending_firstn (n : nat) (l : list A) :
  Py.descending key l -> Py.descending key (firstn n l).
Proof.
  unfold Py.descending. intros Hl. revert n.
  induction Hl as [|x r Hr IH Hx]; intros [|n]; cbn; try constructor.
  - apply IH.
  - apply List.Forall_forall. intros y Hy.
    apply (proj1 (List.Forall_forall _ _) Hx). eapply In_firstn; eauto.
Qed.

End Sorting.

(** ** Noun-match adjustment *)

Lemma nat_Q_pos (n : nat) : (0 < n)%nat -> (0 < Hybrid.nat_Q n)%Q.
Proof.
  intros Hn. unfold Hybrid.nat_Q. change 0%Q with (inject_Z 0).
  rewrite <- Zlt_Qlt. lia.
Qed.

Lemma nat_Q_nonneg (n : nat) : (0 <= Hybrid.nat_Q n)%Q.
Proof.
  unfold Hybrid.nat_Q. change 0%Q with (inject_Z 0). rewrite <- Zle_Qle. lia.
Qed.

Lemma ratio_ge (a : Q) (m n : nat) :
  (0 < n)%nat ->
  (a <= Hybrid.nat_Q m / Hybrid.nat_Q n)%Q <-> (a * Hybrid.nat_Q n <= Hybrid.nat_Q m)%Q.
Proof.
  intros Hn. pose proof (nat_Q_pos n Hn) as Hpos. split.
  - intros Hle. apply (Qmult_le_compat_r _ _ (Hybrid.nat_Q n)) in Hle.
    + rewrite Qmult_comm with (x := (Hybrid.nat_Q m / Hybrid.nat_Q n)%Q) in Hle.
      rewrite Qmult_div_r in Hle; [exact Hle|].
      intros Hz. rewrite Hz in Hpos. exact (Qlt_irrefl _ Hpos).
    + now apply Qlt_le_weak.
  - intros Hle. now apply Qle_shift_div_l.
Qed.

Lemma ratio_ge_one (m n : nat) :
  (0 < n)%nat -> Qle_bool 1 (Hybrid.nat_Q m / Hybrid.nat_Q n) = (n <=? m)%nat.
Proof.
  intros Hn. apply eq_true_iff_eq. rewrite Qle_bool_iff, ratio_ge, Nat.leb_le by exact Hn.
  rewrite Qmult_1_l. unfold Hybrid.nat_Q. rewrite <- Zle_Qle. lia.
Qed.

Lemma ratio_ge_half (m n : nat) :
  (0 < n)%nat -> Qle_bool (1 # 2) (Hybrid.nat_Q m / Hybrid.nat_Q n) = (n <=? 2 * m)%nat.
Proof.
  intros Hn. apply eq_true_iff_eq. rewrite Qle_bool_iff, ratio_ge, Nat.leb_le by exact Hn.
  unfold Hybrid.nat_Q, Qle, Qmult, inject_Z. cbn [Qnum Qden]. lia.
Qed.

Lemma ratio_pos (m n : nat) :
  (0 < n)%nat -> Py.Qlt_bool 0 (Hybrid.nat_Q m / Hybrid.nat_Q n) = (0 <? m)%nat.
Proof.
  intros Hn. pose proof (nat_Q_pos n Hn) as Hpos.
  apply eq_true_iff_eq. rewrite Qlt_bool_true, Nat.ltb_lt. split.
  - intros Hlt. destruct m as [|m]; [|lia]. exfalso.
    unfold Qdiv in Hlt. change (Hybrid.nat_Q 0) with 0%Q in Hlt.
    rewrite Qmult_0_l in Hlt. exact (Qlt_irrefl _ Hlt).
  - intros Hm. apply Qlt_shift_div_l; [exact Hpos|].
    rewrite Qmult_0_l. now apply nat_Q_pos.
Qed.

Lemma noun_hits_le (nouns : list string) (title : string) :
  (Hybrid.noun_hits nouns title <= List.length nouns)%nat.
Proof. apply filter_length_le. Qed.

Lemma noun_adjust_multiplier (nouns : list string) (title : string) (s : Q) :
  (Hybrid.noun_adjust nouns title s
   == s * Hybrid.noun_multiplier (Hybrid.noun_hits nouns title) (List.length nouns))%Q.
Proof.
  pose proof (noun_hits_le nouns title) as Hle.
  unfold Hybrid.noun_adjust, Hybrid.noun_multiplier.
  destruct nouns as [|n0 rest] eqn:En.
  - cbn. now rewrite Qmult_1_r.
  - rewrite <- En in *. assert (Hn : (0 < List.length nouns)%nat) by (subst; cbn; lia).
    rewrite ratio_ge_one, ratio_ge_half, ratio_pos by exact Hn.
    destruct (Nat.eqb_spec (List.length nouns) 0); [lia|].
    destruct (Nat.leb_spec (List.length nouns) (Hybrid.noun_hits nouns title)).
    + replace (Hybrid.noun_hits nouns title =? List.length nouns)%nat with true
        by (symmetry; apply Nat.eqb_eq; lia). reflexivity.
    + replace (Hybrid.noun_hits nouns title =? List.length nouns)%nat with false
        by (symmetry; apply Nat.eqb_neq; lia).
      destruct (List.length nouns <=? 2 * Hybrid.noun_hits nouns title)%nat; [reflexivity|].
      destruct (0 <? Hybrid.noun_hits nouns title)%nat; [reflexivity|].
      now rewrite Qmult_1_r.
Qed.

Lemma noun_multiplier_ge_one (hits total : nat) :
  (1 <= Hybrid.noun_multiplier hits total)%Q.
Proof.
  unfold Hybrid.noun_multiplier.
  destruct (total =? 0)%nat; [apply Qle_refl|].
  destruct (hits =? total)%nat; [discriminate|].
  destruct (total <=? 2 * hits)%nat; [discriminate|].
  destruct (0 <? hits)%nat; [discriminate|apply Qle_refl].
Qed.

Lemma final_loop_firstn (nouns : list string) (limit : nat) (pool : Hybrid.dict) :
  forall acc,
    (List.length acc < limit + 5)%nat ->
    Hybrid.final_loop nouns limit pool acc
    = acc ++ map (Hybrid.to_final nouns) (firstn (limit + 5 - List.length acc) pool).
Proof.
  induction pool as [|item rest IH]; intros acc Hacc; cbn [Hybrid.final_loop].
  - rewrite firstn_nil. cbn. now rewrite app_nil_r.
  - rewrite length_app. cbn [List.length].
    destruct (Nat.leb_spec (limit + 5) (List.length acc + 1)) as [Hfull|Hmore].
    + replace (limit + 5 - List.length acc)%nat with 1%nat by lia. reflexivity.
    + rewrite IH by (rewrite length_app; cbn; lia).
      rewrite length_app. cbn [List.length].
      replace (limit + 5 - List.length acc)%nat
        with (S (limit + 5 - (List.length acc + 1))) by lia.
      cbn [firstn map]. now rewrite <- app_assoc.
Qed.

Lemma final_loop_map (nouns : list string) (limit : nat) (pool : Hybrid.dict) :
  Hybrid.final_loop nouns limit pool []
  = map (Hybrid.to_final nouns) (firstn (limit + 5) pool).
Proof.
  rewrite final_loop_firstn by (cbn; lia). cbn. now rewrite Nat.sub_0_r.
Qed.


Section NounMatch.
Context `{Py.Runtime}.

Lemma rank_from_pool (alpha : Q) (query : string) (limit : nat)
    (bm25_results vector_results : list Model.Result) (f : Hybrid.Final) :
  List.In f (Hybrid.rank alpha query limit bm25_results vector_results) ->
  exists item,
    List.In item (Hybrid.result_pool alpha query bm25_results vector_results)
    /\ f = Hybrid.to_final (Hybrid.unique_base_nouns_of (PyStr.lower query)) item.
Proof.
  unfold Hybrid.rank. intros Hf. apply In_firstn, sorted_desc_In in Hf.
  rewrite final_loop_map in Hf. apply in_map_iff in Hf.
  destruct Hf as (item & <- & Hitem). exists item. split; [|reflexivity].
  eapply In_firstn; eauto.
Qed.


End NounMatch.

Example unique_base_nouns_ex :
  Hybrid.unique_base_nouns_of "office chairs and a desk chair" = ["chair"; "desk"]
  /\ Hybrid.unique_base_nouns_of "benches, shelves" = ["shelves"].
Proof. split; reflexivity. Qed.

(** ** Scores stay positive *)

Lemma fold_left_inv {A B : Type} (P : A -> Prop) (f : A -> B -> A) (l : list B) :
  forall a, P a -> (forall a b, P a -> P (f a b)) -> P (fold_left f l a).
Proof.
  induction l as [|b r IH]; intros a Ha Hf; cbn; [exact Ha|].
  apply IH; auto.
Qed.

Lemma qmax_cases (a b : Q) : Py.qmax a b = a \/ Py.qmax a b = b.
Proof. unfold Py.qmax. destruct (Py.Qlt_bool a b); auto. Qed.

Lemma qmin_cases (a b : Q) : Py.qmin a b = a \/ Py.qmin a b = b.
Proof. unfold Py.qmin. destruct (Py.Qlt_bool b a); auto. Qed.

Lemma qmax_ge_l (a b : Q) : (a <= Py.qmax a b)%Q.
Proof.
  unfold Py.qmax. destruct (Py.Qlt_bool a b) eqn:Hb; [|apply Qle_refl].
  apply Qlt_bool_true in Hb. now apply Qlt_le_weak.
Qed.

Lemma phrase_score_ge_one (query title description : string) :
  (1 <= Hybrid._calculate_phrase_score query title description)%Q.
Proof.
  unfold Hybrid._calculate_phrase_score.
  repeat match goal with
         | |- context [if ?c then _ else _] => destruct c eqn:?
         end; try discriminate; try apply Qle_refl.
  match goal with
  | Hc : (_ && Qle_bool _ ?r)%bool = true |- _ =>
      apply andb_true_iff in Hc; destruct Hc as [_ Hc];
      apply Qle_bool_iff in Hc; lra
  end.
Qed.

Lemma legacy_title_boost_ge_one (query_terms : list string) (title : string) :
  (1 <= Hybrid.legacy_title_boost query_terms title)%Q.
Proof.
  unfold Hybrid.legacy_title_boost.
  pose proof (nat_Q_nonneg
                (Hybrid.inter_size query_terms (PyStr.dedup (PyStr.split title)))).
  nra.
Qed.

Lemma intent_boost_ge_one (query title description : string) :
  (1 <= Hybrid._calculate_intent_boost query title description)%Q.
Proof.
  unfold Hybrid._calculate_intent_boost.
  destruct (Hybrid._extract_intent_keywords query) as [|i0 rest]; [apply Qle_refl|].
  match goal with |- (1 <= Py.qmin ?b 2)%Q => assert (Hb : (1 <= b)%Q) end.
  { apply (fold_left_inv (fun b => (1 <= b)%Q)); [apply Qle_refl|].
    intros b intent Hb.
    destruct (0 <? _)%nat; [|exact Hb].
    match goal with |- (1 <= b + _ * Hybrid.nat_Q ?n)%Q =>
      pose proof (nat_Q_nonneg n) end. nra. }
  match goal with |- (1 <= Py.qmin ?b 2)%Q =>
    destruct (qmin_cases b 2) as [E|E]; rewrite E end; [exact Hb|lra].
Qed.

Lemma negative_penalty_pos (query title description : string) :
  (0 < Hybrid._calculate_negative_keyword_penalty query title description)%Q.
Proof.
  unfold Hybrid._calculate_negative_keyword_penalty.
  apply (fold_left_inv (fun p => (0 < p)%Q)); [lra|].
  intros p [k negs] Hp. destruct (_ && _)%bool; [lra|exact Hp].
Qed.

Lemma final_boost_pos (query : string) (query_terms : list string) (c : Model.Content) :
  (0 < Hybrid.final_boost query query_terms c)%Q.
Proof.
  unfold Hybrid.final_boost.
  pose proof (phrase_score_ge_one query (Hybrid.title_of c) (Hybrid.description_of c)) as Hp.
  pose proof (qmax_ge_l
                (Hybrid._calculate_phrase_score query (Hybrid.title_of c)
                   (Hybrid.description_of c))
                (Hybrid.legacy_title_boost query_terms (Hybrid.title_of c))) as Hm.
  pose proof (intent_boost_ge_one query (Hybrid.title_of c) (Hybrid.description_of c)) as Hi.
  pose proof (negative_penalty_pos query (Hybrid.title_of c) (Hybrid.description_of c)) as Hn.
  apply Qmult_lt_0_compat; [|exact Hn].
  apply Qmult_lt_0_compat; lra.
Qed.

Lemma rrf_score_pos (rank : nat) : (0 < Hybrid.rrf_score rank)%Q.
Proof.
  unfold Hybrid.rrf_score. apply Qlt_shift_div_l.
  - apply nat_Q_pos. lia.
  - lra.
Qed.

Lemma dict_set_In (d : Hybrid.dict) (k : string) (e : Hybrid.Entry) (item : string * Hybrid.Entry) :
  List.In item (Hybrid.dict_set d k e) -> List.In item d \/ item = (k, e).
Proof.
  induction d as [|[k' e'] r IH]; cbn.
  - intros [<-|[]]. now right.
  - destruct (String.eqb_spec k k') as [->|Hne]; cbn.
    + intros [<-|Hr]; auto.
    + intros [<-|Hr]; auto. destruct (IH Hr); auto.
Qed.

Lemma dict_get_In (d : Hybrid.dict) (k : string) (e : Hybrid.Entry) :
  Hybrid.dict_get d k = Some e -> List.In (k, e) d.
Proof.
  induction d as [|[k' e'] r IH]; cbn; [discriminate|].
  destruct (String.eqb_spec k k') as [->|Hne].
  - intros [= ->]. now left.
  - intros Hr. right. now apply IH.
Qed.

Section Positive.
Variable alpha : Q.
Hypothesis alpha_pos : (0 < alpha)%Q.
Hypothesis alpha_lt_1 : (alpha < 1)%Q.

Lemma bm25_step_positive (query : string) (qt : list string) (d : Hybrid.dict)
    (item : nat * Model.Result) :
  Hybrid.positive_entries d ->
  Hybrid.positive_entries (Hybrid.bm25_step alpha query qt d item).
Proof using alpha_pos.
  intros Hd. destruct item as [rank res]. unfold Hybrid.bm25_step.
  intros it Hit. apply dict_set_In in Hit. destruct Hit as [Hit| ->]; [now apply Hd|].
  unfold Hybrid.entry_score. cbn. pose proof (rrf_score_pos rank).
  pose proof (final_boost_pos query qt (Model.r_content res)).
  apply Qmult_lt_0_compat; [|assumption]. now apply Qmult_lt_0_compat.
Qed.

Lemma vector_step_positive (query : string) (qt : list string) (d : Hybrid.dict)
    (item : nat * Model.Result) :
  Hybrid.positive_entries d ->
  Hybrid.positive_entries (Hybrid.vector_step alpha query qt d item).
Proof using alpha_lt_1.
  intros Hd. destruct item as [rank res]. unfold Hybrid.vector_step.
  destruct (Py.Qlt_bool Hybrid.SEMANTIC_THRESHOLD (Model.r_score res)); [exact Hd|].
  assert (Hterm : (0 < (1 - alpha) * Hybrid.rrf_score rank
                       * Hybrid.final_boost query qt (Model.r_content res))%Q).
  { pose proof (rrf_score_pos rank).
    pose proof (final_boost_pos query qt (Model.r_content res)).
    apply Qmult_lt_0_compat; [|assumption]. apply Qmult_lt_0_compat; [lra|assumption]. }
  destruct (Hybrid.dict_get d (Model.r_id res)) as [e|] eqn:Hget;
    intros it Hit; apply dict_set_In in Hit; destruct Hit as [Hit| ->];
    try (now apply Hd); unfold Hybrid.entry_score; cbn.
  - apply dict_get_In in Hget. apply Hd in Hget.
    unfold Hybrid.entry_score in Hget. cbn in Hget. lra.
  - exact Hterm.
Qed.

Lemma combine_scores_positive (query : string)
    (bm25_results vector_results : list Model.Result) :
  Hybrid.positive_entries
    (Hybrid.combine_scores alpha query bm25_results vector_results).
Proof using alpha_pos alpha_lt_1.
  unfold Hybrid.combine_scores.
  apply (fold_left_inv Hybrid.positive_entries).
  - apply (fold_left_inv Hybrid.positive_entries).
    + intros it [].
    + intros d item. apply bm25_step_positive.
  - intros d item. apply vector_step_positive.
Qed.

End Positive.

Lemma fold_left_inv_In {A B : Type} (P : A -> Prop) (f : A -> B -> A) (l : list B) :
  forall a, P a -> (forall a b, List.In b l -> P a -> P (f a b)) -> P (fold_left f l a).
Proof.
  induction l as [|b r IH]; intros a Ha Hf; cbn; [exact Ha|].
  apply IH; [apply Hf; cbn; auto|]. intros a' b' Hb'. apply Hf. cbn. auto.
Qed.

Lemma check_category_match_nonneg (text : string) (kws : list string)
    (primary : option string) :
  (0 <= snd (Hybrid._check_category_match text kws primary))%Q.
Proof.
  unfold Hybrid._check_category_match.
  destruct (fold_left _ kws (0%nat, false)) as [matches primary_match].
  destruct (0 <? matches)%nat; cbn [snd]; [|lra].
  assert (Hbase : (0 <= Py.qmin (Hybrid.nat_Q matches / 4) 1)%Q).
  { destruct (qmin_cases (Hybrid.nat_Q matches / 4) 1) as [E|E]; rewrite E; [|lra].
    apply Qle_shift_div_l; [lra|]. pose proof (nat_Q_nonneg matches). lra. }
  destruct primary_match; [|exact Hbase].
  match goal with |- (0 <= Py.qmin ?a 1)%Q =>
    destruct (qmin_cases a 1) as [E|E]; rewrite E end; lra.
Qed.

Lemma positive_entries_app (a b : Hybrid.dict) :
  Hybrid.positive_entries (a ++ b)
  <-> Hybrid.positive_entries a /\ Hybrid.positive_entries b.
Proof.
  unfold Hybrid.positive_entries. split.
  - intros Hab. split; intros it Hit; apply Hab, in_or_app; auto.
  - intros [Ha Hb] it Hit. apply in_app_or in Hit. destruct Hit; auto.
Qed.

Lemma positive_entries_one (k : string) (e : Hybrid.Entry) :
  (0 < Hybrid.score e)%Q -> Hybrid.positive_entries [(k, e)].
Proof. intros He it [<-|[]]. exact He. Qed.

Lemma positive_entries_sorted (d : Hybrid.dict) :
  Hybrid.positive_entries d ->
  Hybrid.positive_entries (Py.sorted_desc Hybrid.entry_score d).
Proof. intros Hd it Hit. apply Hd. now apply sorted_desc_In in Hit. Qed.

Section Pool.
Context `{Py.Runtime}.

Lemma partition_step_positive (primary : option string) (kws : list string)
    (acc : Hybrid.dict * Hybrid.dict) (item : string * Hybrid.Entry) :
  (0 < Hybrid.entry_score item)%Q ->
  Hybrid.positive_entries (fst acc) /\ Hybrid.positive_entries (snd acc) ->
  Hybrid.positive_entries (fst (Hybrid.partition_step primary kws acc item))
  /\ Hybrid.positive_entries (snd (Hybrid.partition_step primary kws acc item)).
Proof.
  destruct acc as [m u], item as [doc_id data]. unfold Hybrid.entry_score. cbn [fst snd].
  intros Hpos [Hm Hu]. unfold Hybrid.partition_step.
  pose proof (check_category_match_nonneg
                (Hybrid.category_text (Model.r_content (Hybrid.result data))) kws primary) as Hms.
  destruct (Hybrid.truthy primary && negb (Hybrid.is_nil kws))%bool.
  - destruct (Hybrid._check_category_match _ kws primary) as [has_match match_score].
    cbn [snd] in Hms.
    destruct has_match; [destruct (PyStr.contains _ _)|]; cbn [fst snd];
      rewrite ?positive_entries_app; repeat split; auto;
      apply positive_entries_one; cbn; try exact Hpos;
      apply Qmult_lt_0_compat; auto; lra.
  - cbn [fst snd]. rewrite positive_entries_app. repeat split; auto.
    apply positive_entries_one. exact Hpos.
Qed.

Lemma partition_candidates_positive (query_lower : string) (d : Hybrid.dict) :
  Hybrid.positive_entries d ->
  Hybrid.positive_entries (fst (Hybrid.partition_candidates query_lower d))
  /\ Hybrid.positive_entries (snd (Hybrid.partition_candidates query_lower d)).
Proof.
  intros Hd. unfold Hybrid.partition_candidates.
  destruct (Hybrid._extract_primary_category query_lower) as [primary kws].
  apply (fold_left_inv_In
           (fun acc => Hybrid.positive_entries (fst acc)
                       /\ Hybrid.positive_entries (snd acc))).
  - split; intros it [].
  - intros acc item Hin Hacc. apply partition_step_positive; auto.
Qed.

Lemma with_fallback_positive (m u : Hybrid.dict) :
  Hybrid.positive_entries m -> Hybrid.positive_entries u ->
  Hybrid.positive_entries (Hybrid.with_fallback m u).
Proof.
  intros Hm Hu. unfold Hybrid.with_fallback.
  destruct (_ && _)%bool; [|now apply positive_entries_sorted].
  apply positive_entries_app. split; [now apply positive_entries_sorted|].
  intros it Hit. apply in_map_iff in Hit. destruct Hit as (src & <- & Hsrc).
  apply In_firstn, sorted_desc_In, Hu in Hsrc.
  unfold Hybrid.entry_score in *. cbn. lra.
Qed.

Lemma result_pool_positive (alpha : Q) (query : string)
    (bm25_results vector_results : list Model.Result) :
  (0 < alpha)%Q -> (alpha < 1)%Q ->
  Hybrid.positive_entries (Hybrid.result_pool alpha query bm25_results vector_results).
Proof.
  intros Ha0 Ha1. unfold Hybrid.result_pool.
  pose proof (partition_candidates_positive (PyStr.lower query)
                (Py.sorted_desc Hybrid.entry_score
                   (Hybrid.combine_scores alpha query bm25_results vector_results))) as Hp.
  destruct (Hybrid.partition_candidates _ _) as [m u]. cbn [fst snd] in Hp.
  destruct Hp as [Hm Hu].
  { apply positive_entries_sorted. now apply combine_scores_positive. }
  now apply with_fallback_positive.
Qed.

Lemma to_final_positive (nouns : list string) (item : string * Hybrid.Entry) :
  (0 < Hybrid.entry_score item)%Q -> (0 < Hybrid.f_score (Hybrid.to_final nouns item))%Q.
Proof.
  destruct item as [doc_id data]. unfold Hybrid.entry_score. cbn.
  intros Hpos. rewrite noun_adjust_multiplier.
  match goal with |- (0 < _ * Hybrid.noun_multiplier ?h ?t)%Q =>
    pose proof (noun_multiplier_ge_one h t) end.
  apply Qmult_lt_0_compat; lra.
Qed.

Lemma rank_properties (alpha : Q) (query : string) (limit : nat)
    (bm25_results vector_results : list Model.Result) :
  (0 < alpha)%Q -> (alpha < 1)%Q ->
  let results := Hybrid.rank alpha query limit bm25_results vector_results in
  (List.length results <= limit)%nat
  /\ (forall f, List.In f results -> (0 < Hybrid.f_score f)%Q)
  /\ Py.descending Hybrid.f_score results.
Proof.
  intros Ha0 Ha1 results. split; [apply firstn_le_length|]. split.
  - intros f Hf. apply rank_from_pool in Hf. destruct Hf as (item & Hitem & ->).
    apply to_final_positive.
    exact (result_pool_positive alpha query bm25_results vector_results Ha0 Ha1 item Hitem).
  - apply descending_firstn, sorted_desc_descending.
Qed.

End Pool.

(** ** Hybrid search: size, sign and order of the result *)

Section SearchResult.
Context `{Py.Runtime} `{Index.Scorer} `{Index.Pickle} `{Vector.Backend}.

Lemma search_returns_rank (h h' : Hybrid.HybridSearch) (env env' : Index.Env)
    (query : string) (limit : nat) (rs : list Hybrid.Final) :
  Hybrid.search h env query limit = Py.Ok (h', env', rs) ->
  exists bm25_results,
    rs = Hybrid.rank (Hybrid.alpha h) query limit bm25_results
           (Vector.search (Hybrid.vector_index h) (PyStr.lower query)
              (Nat.min (limit * 10) 100)).
Proof.
  unfold Hybrid.search.
  destruct (Index.search _ env _ _) as [[[idx e] bm25_results]|err]; cbn; [|discriminate].
  intros [= <- <- <-]. now exists bm25_results.
Qed.

Lemma ids_at_ok (ids : list string) (indices : list nat) :
  (forall i, List.In i indices -> (i < List.length ids)%nat) ->
  exists ds, Index.ids_at ids indices = Py.Ok ds.
Proof.
  induction indices as [|i r IH]; intros Hin; cbn [Index.ids_at]; [eauto|].
  destruct (nth_error ids i) as [d|] eqn:Hd.
  - destruct IH as (ds & ->); [intros j Hj; apply Hin; now right|]. cbn. eauto.
  - apply nth_error_None in Hd. specialize (Hin i (or_introl eq_refl)). lia.
Qed.

Lemma top_indices_in_range (scores : list Q) (limit i : nat) :
  List.In i (Index.top_indices scores limit) -> (i < List.length scores)%nat.
Proof.
  unfold Index.top_indices. intros Hi.
  apply In_firstn, sorted_desc_In, filter_In in Hi. destruct Hi as [Hi _].
  apply in_seq in Hi. lia.
Qed.

Lemma index_search_returns (idx : Index.BM25Index) (env : Index.Env)
    (scorer : Index.BM25Okapi) (query : string) (limit : nat) :
  Index.bm25 idx = Some scorer ->
  (forall tokens,
     (List.length (Index.get_scores scorer tokens) <= List.length (Index.doc_ids idx))%nat) ->
  exists results, Index.search idx env query limit = Py.Ok (idx, env, results).
Proof.
  intros Hb Hlen. unfold Index.search. rewrite Hb. unfold Index.search_loaded.
  destruct (BM25._tokenize query) as [|t ts]; [cbn; eauto|].
  destruct (Index.top_indices _ limit) as [|i r] eqn:Htop; [cbn; eauto|].
  destruct (ids_at_ok (Index.doc_ids idx) (i :: r)) as (ds & ->); [|cbn; eauto].
  intros j Hj. rewrite <- Htop in Hj. apply top_indices_in_range in Hj.
  specialize (Hlen (t :: ts)). lia.
Qed.

(** C5: with a fusion weight strictly between 0 and 1 (the configured one
    is 0.6), whatever the two branches answer, the list hybrid search builds
    has at most [limit] elements, every score in it is strictly positive and
    the scores are in non-increasing order; so has every list [search]
    returns; and [search] does return when the loaded scorer gives no more
    scores than the index has document ids. *)
Theorem search_at_most_limit_positive_sorted
    (h : Hybrid.HybridSearch) (env : Index.Env) (query : string) (limit : nat) :
  (0 < Hybrid.alpha h)%Q -> (Hybrid.alpha h < 1)%Q ->
  (forall bm25_results vector_results,
     let results := Hybrid.rank (Hybrid.alpha h) query limit bm25_results vector_results in
     (List.length results <= limit)%nat
     /\ (forall f, List.In f results -> (0 < Hybrid.f_score f)%Q)
     /\ Py.descending Hybrid.f_score results)
  /\ (forall h' env' results,
        Hybrid.search h env query limit = Py.Ok (h', env', results) ->
        (List.length results <= limit)%nat
        /\ (forall f, List.In f results -> (0 < Hybrid.f_score f)%Q)
        /\ Py.descending Hybrid.f_score results)
  /\ (forall scorer,
        Index.bm25 (Hybrid.bm25_index h) = Some scorer ->
        (forall tokens,
           (List.length (Index.get_scores scorer tokens)
            <= List.length (Index.doc_ids (Hybrid.bm25_index h)))%nat) ->
        exists results, Hybrid.search h env query limit = Py.Ok (h, env, results)).
Proof.
  intros Ha0 Ha1. split; [|split].
  - intros bm25_results vector_results. now apply rank_properties.
  - intros h' env' results Hs. apply search_returns_rank in Hs.
    destruct Hs as (bm25_results & ->). now apply rank_properties.
  - intros scorer Hb Hlen. unfold Hybrid.search.
    destruct (index_search_returns (Hybrid.bm25_index h) env scorer
                (Hybrid._expand_query (PyStr.lower query))
                (Nat.min (limit * 10) 100) Hb Hlen) as (rs & ->).
    cbn. destruct h. cbn. eauto.
Qed.

(** The catalogue facade searches with the configured weight 0.6. *)
Corollary searchProducts_results (c c' : Catalog.CatalogIndexer) (query : string)
    (limit : nat) (results : list Hybrid.Final) :
  Catalog.searchProducts c query limit = Py.Ok (c', results) ->
  (List.length results <= limit)%nat
  /\ (forall f, List.In f results -> (0 < Hybrid.f_score f)%Q)
  /\ Py.descending Hybrid.f_score results.
Proof.
  unfold Catalog.searchProducts.
  destruct (Hybrid.search _ (Catalog.env c) query limit) as [[[h e] rs]|err] eqn:Hs;
    cbn; [|discriminate].
  intros [= _ <-]. apply search_returns_rank in Hs. destruct Hs as (bm25_results & ->).
  apply rank_properties; reflexivity.
Qed.

End SearchResult.

(** ** Category fallback *)

Lemma unflagged_app (a b : Hybrid.dict) :
  Hybrid.unflagged (a ++ b) <-> Hybrid.unflagged a /\ Hybrid.unflagged b.
Proof.
  unfold Hybrid.unflagged. split.
  - intros Hab. split; intros it Hit; apply Hab, in_or_app; auto.
  - intros [Ha Hb] it Hit. apply in_app_or in Hit. destruct Hit; auto.
Qed.

Lemma combine_scores_unflagged (alpha : Q) (query : string)
    (bm25_results vector_results : list Model.Result) :
  Hybrid.unflagged (Hybrid.combine_scores alpha query bm25_results vector_results).
Proof.
  unfold Hybrid.combine_scores.
  apply (fold_left_inv Hybrid.unflagged).
  - apply (fold_left_inv Hybrid.unflagged); [intros it []|].
    intros d [rank res] Hd it Hit. unfold Hybrid.bm25_step in Hit.
    apply dict_set_In in Hit. destruct Hit as [Hit| ->]; [now apply Hd|reflexivity].
  - intros d [rank res] Hd. unfold Hybrid.vector_step.
    destruct (Py.Qlt_bool _ _); [exact Hd|].
    destruct (Hybrid.dict_get d (Model.r_id res)) as [e|] eqn:Hget;
      intros it Hit; apply dict_set_In in Hit; destruct Hit as [Hit| ->];
      try (now apply Hd); cbn; [|reflexivity].
    apply dict_get_In in Hget. exact (Hd _ Hget).
Qed.

Section Fallback.
Context `{Py.Runtime}.

Lemma partition_step_shape (primary : option string) (kws : list string)
    (acc : Hybrid.dict * Hybrid.dict) (item : string * Hybrid.Entry) :
  exists e,
    Hybrid.is_fallback e = Hybrid.is_fallback (snd item)
    /\ ((Hybrid.partition_step primary kws acc item
         = (fst acc ++ [(fst item, e)], snd acc)
         /\ Hybrid.category_match e = Some true)
        \/ (Hybrid.partition_step primary kws acc item
            = (fst acc, snd acc ++ [(fst item, e)])
            /\ Hybrid.category_match e = Some false
            /\ Hybrid.score e = Hybrid.score (snd item))).
Proof.
  destruct acc as [m u], item as [doc_id data]. unfold Hybrid.partition_step. cbn [fst snd].
  destruct (Hybrid.truthy primary && negb (Hybrid.is_nil kws))%bool.
  - destruct (Hybrid._check_category_match _ kws primary) as [has_match match_score].
    destruct has_match; [destruct (PyStr.contains _ _)|];
      eexists; (split; [|first [left; split; reflexivity
                               |right; split; [reflexivity|split; reflexivity]]]);
      reflexivity.
  - eexists. split; [|left; split; reflexivity]. reflexivity.
Qed.

Lemma partition_fold_shape (primary : option string) (kws : list string)
    (d : Hybrid.dict) :
  forall acc,
    let r := fold_left (Hybrid.partition_step primary kws) d acc in
    (List.length (fst r) + List.length (snd r)
     = List.length (fst acc) + List.length (snd acc) + List.length d)%nat
    /\ (Hybrid.unflagged d -> Hybrid.unflagged (fst acc) -> Hybrid.unflagged (snd acc) ->
        Hybrid.unflagged (fst r) /\ Hybrid.unflagged (snd r)).
Proof.
  induction d as [|item rest IH]; intros acc; cbn [fold_left List.length].
  - cbn. split; [lia|auto].
  - destruct (partition_step_shape primary kws acc item)
      as (e & Hflag & [[-> Hcm] | (-> & Hcm & Hsc)]);
      destruct (IH (fst acc ++ [(fst item, e)], snd acc)) as [L1 F1];
      destruct (IH (fst acc, snd acc ++ [(fst item, e)])) as [L2 F2];
      cbn [fst snd] in *; rewrite ?length_app in *; cbn [List.length] in *.
    + split; [lia|]. intros Hd Ha Hb. apply F1; auto.
      * intros it Hit. apply Hd. now right.
      * apply unflagged_app. split; [exact Ha|].
        intros it [<-|[]]. cbn. rewrite Hflag. apply Hd. now left.
    + split; [lia|]. intros Hd Ha Hb. apply F2; auto.
      * intros it Hit. apply Hd. now right.
      * apply unflagged_app. split; [exact Hb|].
        intros it [<-|[]]. cbn. rewrite Hflag. apply Hd. now left.
Qed.

Lemma partition_candidates_shape (query_lower : string) (d : Hybrid.dict) :
  let parts := Hybrid.partition_candidates query_lower d in
  (List.length (fst parts) + List.length (snd parts) = List.length d)%nat
  /\ (Hybrid.unflagged d -> Hybrid.unflagged (fst parts) /\ Hybrid.unflagged (snd parts)).
Proof.
  unfold Hybrid.partition_candidates.
  destruct (Hybrid._extract_primary_category query_lower) as [primary kws].
  destruct (partition_fold_shape primary kws d ([], [])) as [L F]. cbn [fst snd] in *.
  split; [cbn in L; lia|]. intros Hd. apply F; auto; intros it [].
Qed.

Lemma with_fallback_eq (m u : Hybrid.dict) :
  let matched := Py.sorted_desc Hybrid.entry_score m in
  Hybrid.with_fallback m u
  = if (List.length matched <? 3)%nat
    then matched ++ map Hybrid.penalise
                      (firstn (3 - List.length matched)
                              (Py.sorted_desc Hybrid.entry_score u))
    else matched.
Proof.
  unfold Hybrid.with_fallback, Hybrid.MIN_RESULTS. cbn zeta.
  destruct (List.length (Py.sorted_desc Hybrid.entry_score m) <? 3)%nat; [|reflexivity].
  destruct u as [|x r]; cbn [Hybrid.is_nil negb andb]; [|reflexivity].
  cbn. rewrite firstn_nil. cbn. now rewrite app_nil_r.
Qed.

Lemma rank_length (alpha : Q) (query : string) (limit : nat)
    (bm25_results vector_results : list Model.Result) :
  List.length (Hybrid.rank alpha query limit bm25_results vector_results)
  = Nat.min limit
      (List.length (Hybrid.result_pool alpha query bm25_results vector_results)).
Proof.
  unfold Hybrid.rank. rewrite length_firstn, sorted_desc_length, final_loop_map.
  rewrite length_map, length_firstn. lia.
Qed.

(** C6 (amended): the candidates split into category-matched and unmatched
    ones; with three or more matched the pool is the matched candidates;
    with fewer, the pool is the matched candidates followed by the
    highest-scoring unmatched ones, as many as are needed to reach three or
    as there are, each at 0.3 times its score and flagged [is_fallback],
    while no matched candidate is flagged; the pool has at least
    min(3, number of candidates) entries and the returned list has
    min(limit, pool size) entries, hence at least
    min(limit, 3, number of candidates). *)
Theorem fallback_backfills_to_three (alpha : Q) (query : string) (limit : nat)
    (bm25_results vector_results : list Model.Result) :
  let combined := Hybrid.combine_scores alpha query bm25_results vector_results in
  let parts :=
    Hybrid.partition_candidates (PyStr.lower query)
      (Py.sorted_desc Hybrid.entry_score combined) in
  let matched := Py.sorted_desc Hybrid.entry_score (fst parts) in
  let unmatched := Py.sorted_desc Hybrid.entry_score (snd parts) in
  let backfill := firstn (3 - List.length matched) unmatched in
  let pool := Hybrid.result_pool alpha query bm25_results vector_results in
  let results := Hybrid.rank alpha query limit bm25_results vector_results in
  (List.length matched + List.length unmatched = List.length combined)%nat
  /\ Permutation unmatched (snd parts)
  /\ Py.descending Hybrid.entry_score unmatched
  /\ ((3 <= List.length matched)%nat -> pool = matched)
  /\ ((List.length matched < 3)%nat ->
      pool = matched ++ map Hybrid.penalise backfill
      /\ List.length backfill = Nat.min (3 - List.length matched) (List.length unmatched)
      /\ List.length pool = Nat.min 3 (List.length combined))
  /\ (forall item, List.In item backfill ->
        Hybrid.is_fallback (snd (Hybrid.penalise item)) = Some true
        /\ (Hybrid.score (snd (Hybrid.penalise item))
            == Hybrid.score (snd item) * (3 # 10))%Q
        /\ Hybrid.f_is_fallback
             (Hybrid.to_final (Hybrid.unique_base_nouns_of (PyStr.lower query))
                (Hybrid.penalise item)) = true)
  /\ (forall item, List.In item matched ->
        Hybrid.f_is_fallback
          (Hybrid.to_final (Hybrid.unique_base_nouns_of (PyStr.lower query)) item)
        = false)
  /\ (Nat.min 3 (List.length combined) <= List.length pool)%nat
  /\ List.length results = Nat.min limit (List.length pool)
  /\ (Nat.min limit (Nat.min 3 (List.length combined)) <= List.length results)%nat.
Proof.
  intros combined parts matched unmatched backfill pool results.
  destruct (partition_candidates_shape (PyStr.lower query)
              (Py.sorted_desc Hybrid.entry_score combined)) as [Hlen Hflags].
  fold parts in Hlen, Hflags.
  assert (Hpool : pool = if (List.length matched <? 3)%nat
                         then matched ++ map Hybrid.penalise backfill else matched).
  { unfold pool, Hybrid.result_pool. fold combined. fold parts.
    destruct parts as [m u]. apply with_fallback_eq. }
  assert (Hm : List.length matched = List.length (fst parts))
    by apply sorted_desc_length.
  assert (Hu : List.length unmatched = List.length (snd parts))
    by apply sorted_desc_length.
  assert (Hc : List.length (Py.sorted_desc Hybrid.entry_score combined)
               = List.length combined) by apply sorted_desc_length.
  assert (Hb : List.length backfill
               = Nat.min (3 - List.length matched) (List.length unmatched))
    by apply length_firstn.
  assert (Hpl : (Nat.min 3 (List.length combined) <= List.length pool)%nat).
  { rewrite Hpool. destruct (Nat.ltb_spec (List.length matched) 3).
    - rewrite length_app, length_map. lia.
    - lia. }
  assert (Hres : List.length results = Nat.min limit (List.length pool))
    by apply rank_length.
  split; [lia|]. split; [apply sorted_desc_perm|].
  split; [apply sorted_desc_descending|]. split.
  { intros Hge. rewrite Hpool.
    destruct (Nat.ltb_spec (List.length matched) 3); [lia|reflexivity]. }
  split.
  { intros Hlt. rewrite Hpool.
    destruct (Nat.ltb_spec (List.length matched) 3); [|lia].
    split; [reflexivity|]. split; [exact Hb|].
    rewrite length_app, length_map. lia. }
  split.
  { intros [k e] Hin. cbn. split; [reflexivity|]. split; reflexivity. }
  split.
  { intros [k e] Hin. cbn. apply sorted_desc_In in Hin.
    destruct Hflags as [Hf _].
    - intros it Hit. apply sorted_desc_In in Hit.
      exact (combine_scores_unflagged alpha query bm25_results vector_results it Hit).
    - pose proof (Hf _ Hin) as Hn. cbn in Hn. rewrite Hn. reflexivity. }
  split; [exact Hpl|]. split; [exact Hres|]. lia.
Qed.

End Fallback.

(** *** Worked runs with the stand-in libraries *)

Section FallbackRuns.
Import Sample.

(** C6 (as worded): for the query "sofa" (primary category sofa), three
    candidates none of which matches the category, and limit 1, the pool is
    backfilled to three entries but the returned list has one element, fewer
    than min(3, number of candidates) = 3. *)
Lemma fallback_result_below_three_at_limit_one :
  let vector_results :=
    [Sample.hit "D1" (1 # 2) "Oak Desk"; Sample.hit "L1" (6 # 10) "Floor Lamp";
     Sample.hit "R1" (7 # 10) "Wool Rug"] in
  let combined := Hybrid.combine_scores (6 # 10) "sofa" [] vector_results in
  let results := Hybrid.rank (6 # 10) "sofa" 1 [] vector_results in
  fst (Hybrid._extract_primary_category "sofa") = Some "sofa"
  /\ List.length combined = 3%nat
  /\ List.length (fst (Hybrid.partition_candidates "sofa"
                         (Py.sorted_desc Hybrid.entry_score combined))) = 0%nat
  /\ List.length (Hybrid.result_pool (6 # 10) "sofa" [] vector_results) = 3%nat
  /\ map Hybrid.f_id results = ["D1"]
  /\ ~ (Nat.min 3 (List.length combined) <= List.length results)%nat.
Proof.
  vm_compute. repeat split; try reflexivity. intros Hle.
  apply Nat.leb_le in Hle. discriminate Hle.
Qed.

End FallbackRuns.

(** ** Rank fusion *)

Lemma dict_get_set (d : Hybrid.dict) (k q : string) (e : Hybrid.Entry) :
  Hybrid.dict_get (Hybrid.dict_set d k e) q
  = if String.eqb q k then Some e else Hybrid.dict_get d q.
Proof.
  induction d as [|[k' e'] r IH]; cbn.
  - reflexivity.
  - destruct (String.eqb_spec k k') as [->|Hne]; cbn.
    + destruct (String.eqb q k'); reflexivity.
    + rewrite IH. destruct (String.eqb_spec q k') as [->|Hq]; [|reflexivity].
      destruct (String.eqb_spec k' k) as [->|_]; [contradiction|reflexivity].
Qed.

Lemma appears_always (d : string) (item : nat * Model.Result) :
  Hybrid.appears (fun _ => true) d item = String.eqb (Model.r_id (snd item)) d.
Proof. unfold Hybrid.appears. apply andb_true_r. Qed.

Lemma terms_cons (weight : Q) (query : string) (keep : Model.Result -> bool)
    (d : string) (item : nat * Model.Result) (rest : list (nat * Model.Result)) :
  Hybrid.terms weight query keep d (item :: rest)
  = if Hybrid.appears keep d item
    then (Hybrid.appearance weight query (fst item) (snd item)
          + Hybrid.terms weight query keep d rest)%Q
    else Hybrid.terms weight query keep d rest.
Proof.
  unfold Hybrid.terms. cbn [List.filter]. destruct (Hybrid.appears keep d item); reflexivity.
Qed.


Section Fusion.
Variables (alpha : Q) (query : string).

Let qt := Hybrid.query_terms_of (PyStr.lower query).



Lemma vector_fold_score (items : list (nat * Model.Result)) (d : string) :
  forall acc,
    Hybrid.present (Hybrid.dict_get (fold_left (Hybrid.vector_step alpha query qt) items acc) d)
    = Hybrid.present (Hybrid.dict_get acc d)
      || existsb (Hybrid.appears Hybrid.within_threshold d) items
    /\ (Hybrid.oscore (Hybrid.dict_get
                  (fold_left (Hybrid.vector_step alpha query qt) items acc) d)
        == Hybrid.oscore (Hybrid.dict_get acc d)
           + Hybrid.terms (1 - alpha) query Hybrid.within_threshold d items)%Q.
Proof.
  induction items as [|[rank res] rest IH]; intros acc; cbn [fold_left].
  - unfold Hybrid.terms. cbn. rewrite orb_false_r, Qplus_0_r. split; reflexivity.
  - destruct (IH (Hybrid.vector_step alpha query qt acc (rank, res))) as [Hp Hs].
    rewrite Hp, Hs. clear Hp Hs IH.
    rewrite terms_cons. cbn [existsb]. unfold Hybrid.appears. cbn [snd fst].
    unfold Hybrid.vector_step, Hybrid.within_threshold.
    unfold Py.Qlt_bool. rewrite negb_if.
    destruct (Qle_bool (Model.r_score res) Hybrid.SEMANTIC_THRESHOLD);
      [|rewrite andb_false_r; split; reflexivity].
    rewrite andb_true_r.
    destruct (String.eqb_spec (Model.r_id res) d) as [Heq|Hne].
    + subst d. destruct (Hybrid.dict_get acc (Model.r_id res)) as [e|] eqn:Hget;
        rewrite dict_get_set, String.eqb_refl; cbn [Hybrid.present Hybrid.oscore Hybrid.score orb].
      * split; [reflexivity|]. unfold Hybrid.appearance, Hybrid.rrf_score,
          Hybrid.final_boost. fold qt. ring.
      * split; [reflexivity|]. unfold Hybrid.appearance, Hybrid.rrf_score,
          Hybrid.final_boost. fold qt. ring.
    + assert (Hsame : forall e,
                Hybrid.dict_get (Hybrid.dict_set acc (Model.r_id res) e) d
                = Hybrid.dict_get acc d).
      { intros e. rewrite dict_get_set.
        destruct (String.eqb_spec d (Model.r_id res)); [congruence|reflexivity]. }
      destruct (Hybrid.dict_get acc (Model.r_id res)); rewrite Hsame;
        split; reflexivity.
Qed.

End Fusion.



Section FusionRuns.
Import Sample.


(** The candidate of both branches gets both contributions; the semantic
    candidate at distance 0.9 is not scored. *)
Example fused_score_run :
  let bm25_results := [hit "A" 3 "Blue Office Chair"; hit "B" 2 "Office Desk"] in
  let vector_results := [hit "B" (1 # 2) "Office Desk"; hit "C" (9 # 10) "Garden Bench"] in
  let combined := Hybrid.combine_scores (6 # 10) "office desk" bm25_results vector_results in
  map fst combined = ["A"; "B"]
  /\ (Hybrid.oscore (Hybrid.dict_get combined "B")
      == (6 # 10) * (1 # 62) * 10 + (4 # 10) * (1 # 61) * 10)%Q
  /\ (Hybrid.oscore (Hybrid.dict_get combined "A") == (6 # 10) * (1 # 61) * (3 # 2))%Q.
Proof. vm_compute. repeat split; reflexivity. Qed.

End FusionRuns.

(** ** Hybrid search: worked witness *)

Section SearchRuns.
Import Sample.

Lemma search_at_most_limit_positive_sorted_witness :
  let h := {| Hybrid.bm25_index := Index.init "products_index";
              Hybrid.vector_index := empty_vector;
              Hybrid.alpha := 6 # 10 |} in
  let bm25_results := [hit "A" 3 "Blue Office Chair"; hit "B" 2 "Office Desk"] in
  let vector_results := [hit "B" (1 # 2) "Office Desk"; hit "C" (9 # 10) "Garden Bench"] in
  let results := Hybrid.rank (Hybrid.alpha h) "office desk" 5 bm25_results vector_results in
  (0 < Hybrid.alpha h)%Q /\ (Hybrid.alpha h < 1)%Q
  /\ (List.length results <= 5)%nat
  /\ (forall f, List.In f results -> (0 < Hybrid.f_score f)%Q)
  /\ Py.descending Hybrid.f_score results.
Proof.
  intros h bm25_results vector_results results.
  split; [reflexivity|]. split; [reflexivity|].
  exact (proj1 (search_at_most_limit_positive_sorted h empty_env "office desk" 5
                  eq_refl eq_refl) bm25_results vector_results).
Defined.

End SearchRuns.

(** ** Persistence of the lexical index *)

Section Persistence.
Context `{Index.Scorer} `{Index.Pickle}.

Lemma load_total (idx : Index.BM25Index) (env : Index.Env) :
  exists idx' env', Index.load idx env = Py.Ok (idx', env').
Proof.
  unfold Index.load. destruct (Index.disk env !! Index.index_path idx) as [b|]; [|eauto].
  destruct (Index.load_try idx b); eauto.
Qed.

Lemma load_saved (idx idx' : Index.BM25Index) (env : Index.Env)
    (scorer : Index.BM25Okapi) :
  (forall d, Index.pickle_load (Index.pickle_dump d) = Some (Index.PDict d)) ->
  Index.bm25 idx = Some scorer ->
  Index.index_name idx' = Index.index_name idx ->
  Index.load idx' (Index.save idx env)
  = Py.Ok ({| Index.index_name := Index.index_name idx;
              Index.bm25 := Some scorer;
              Index.doc_ids := Index.doc_ids idx;
              Index.corpus := Some (Py.get (Index.corpus idx) []) |},
           Index.save idx env).
Proof.
  intros Hround Hb Hname. unfold Index.load, Index.save. rewrite Hb.
  cbn [Index.disk]. unfold Index.index_path. rewrite Hname, lookup_insert_eq.
  unfold Index.load_try. rewrite Hround. cbn. rewrite Hname. reflexivity.
Qed.

Lemma search_of_loaded (idx idx' : Index.BM25Index) (env env' : Index.Env)
    (scorer : Index.BM25Okapi) (query : string) (limit : nat) :
  Index.bm25 idx = Some scorer -> Index.bm25 idx' = Some scorer ->
  Index.doc_ids idx = Index.doc_ids idx' ->
  Index.index_name idx = Index.index_name idx' ->
  Index.products env = Index.products env' ->
  Index.specs env = Index.specs env' ->
  Index.answer (Index.search idx env query limit)
  = Index.answer (Index.search idx' env' query limit).
Proof.
  intros Hb Hb' Hids Hname Hp Hs. unfold Index.search. rewrite Hb, Hb'.
  unfold Index.search_loaded, Index.assemble, Index.results_map.
  rewrite Hids, Hname, Hp, Hs.
  destruct (BM25._tokenize query); [reflexivity|].
  destruct (Index.top_indices _ limit); [reflexivity|].
  destruct (Index.ids_at _ _); reflexivity.
Qed.

(** C7: [load] returns for every index state and every disk content;
    when the artifact exists and its deserialization fails (at
    [pickle.load] or at one of the key look-ups), [load] removes the file
    and leaves the index with no scorer, no document ids and an empty
    corpus; and, the pickle library reading back what it wrote, ingesting a
    non-empty batch into the reset index, saving and loading gives an index
    that answers every search as an index freshly built from that batch. *)
Theorem load_self_heals (idx : Index.BM25Index) (env : Index.Env) :
  (exists idx' env', Index.load idx env = Py.Ok (idx', env'))
  /\ (forall b e,
        Index.disk env !! Index.index_path idx = Some b ->
        Index.load_try idx b = Py.Raise e ->
        Index.load idx env
        = Py.Ok (Index.reset idx, Index.unlink (Index.index_path idx) env)
        /\ Index.bm25 (Index.reset idx) = None
        /\ Index.doc_ids (Index.reset idx) = []
        /\ Index.corpus (Index.reset idx) = Some []
        /\ Index.disk (Index.unlink (Index.index_path idx) env)
             !! Index.index_path idx = None)
  /\ ((forall d, Index.pickle_load (Index.pickle_dump d) = Some (Index.PDict d)) ->
      forall env0 documents user,
        documents <> [] ->
        Index.index_name user = Index.index_name idx ->
        let ingested := Index.add_documents (Index.reset idx) env0 documents in
        let saved := Index.save (fst ingested) (snd ingested) in
        let built := Index.add_documents (Index.init (Index.index_name idx)) env0 documents in
        exists loaded,
          Index.load user saved = Py.Ok (loaded, saved)
          /\ Index.bm25 loaded
             = Some {| Index.fitted_corpus :=
                         map (fun doc => BM25._tokenize (Model.content doc)) documents |}
          /\ Index.doc_ids loaded = map Model.id documents
          /\ forall query limit,
               Index.answer (Index.search loaded saved query limit)
               = Index.answer (Index.search (fst built) (snd built) query limit)).
Proof.
  split; [apply load_total|]. split.
  - intros b e Hfile Hfail. unfold Index.load. rewrite Hfile, Hfail.
    repeat split; try reflexivity. cbn. apply lookup_delete_eq.
  - intros Hround env0 documents user Hne Hname ingested saved built.
    destruct documents as [|doc rest]; [contradiction|].
    set (docs := doc :: rest) in *.
    set (scorer := {| Index.fitted_corpus :=
                        map (fun d => BM25._tokenize (Model.content d)) docs |}).
    assert (Hb : Index.bm25 (fst ingested) = Some scorer) by reflexivity.
    eexists. split; [exact (load_saved (fst ingested) user (snd ingested) scorer
                              Hround Hb Hname)|].
    split; [reflexivity|]. split; [reflexivity|].
    intros query limit. apply (search_of_loaded _ _ _ _ scorer); reflexivity.
Qed.

End Persistence.

(** ** Queries without tokens *)

Lemma lower_char_idem (a : ascii) :
  PyStr.lower_char (PyStr.lower_char a) = PyStr.lower_char a.
Proof.
  destruct a as [b0 b1 b2 b3 b4 b5 b6 b7].
  destruct b0, b1, b2, b3, b4, b5, b6, b7; reflexivity.
Qed.

Lemma lower_idem (s : string) : PyStr.lower (PyStr.lower s) = PyStr.lower s.
Proof.
  induction s as [|a r IH]; cbn; [reflexivity|]. now rewrite lower_char_idem, IH.
Qed.

Lemma append_nil_l (s : string) : ("" ++ s = s)%string.
Proof. reflexivity. Qed.

Lemma append_cons (c : ascii) (x s : string) :
  (String c x ++ s = String c (x ++ s))%string.
Proof. reflexivity. Qed.

Lemma append_assoc (a b c : string) : ((a ++ b) ++ c = a ++ (b ++ c))%string.
Proof.
  induction a as [|x a IH]; [reflexivity|].
  change (String x ((a ++ b) ++ c) = String x (a ++ (b ++ c)))%string. now f_equal.
Qed.

Lemma append_empty_r (a : string) : (a ++ "" = a)%string.
Proof.
  induction a as [|x a IH]; [reflexivity|].
  change (String x (a ++ "") = String x a)%string. now f_equal.
Qed.

Lemma all_chars_append (p : ascii -> bool) (a b : string) :
  PyStr.all_chars p (a ++ b) = PyStr.all_chars p a && PyStr.all_chars p b.
Proof.
  induction a as [|x a IH]; [reflexivity|].
  change (p x && PyStr.all_chars p (a ++ b)
          = p x && PyStr.all_chars p a && PyStr.all_chars p b).
  now rewrite IH, andb_assoc.
Qed.

Lemma prefix_length (k w : string) :
  String.prefix k w = true -> (String.length k <= String.length w)%nat.
Proof.
  revert k. induction w as [|b w IH]; intros [|a k]; cbn; try lia; try discriminate.
  destruct (ascii_dec a b); [|discriminate]. intros Hp. apply IH in Hp. lia.
Qed.

Lemma contains_length (k w : string) :
  PyStr.contains k w = true -> (String.length k <= String.length w)%nat.
Proof.
  induction w as [|b w IH]; cbn [PyStr.contains]; intros Hc.
  - rewrite orb_false_r in Hc. now apply prefix_length.
  - apply orb_true_iff in Hc. destruct Hc as [Hp|Hc]; [now apply prefix_length|].
    apply IH in Hc. cbn. lia.
Qed.

Lemma contains_tail (k : string) (b : ascii) (w : string) :
  PyStr.contains k w = true -> PyStr.contains k (String b w) = true.
Proof. intros Hc. cbn [PyStr.contains]. rewrite Hc. apply orb_true_r. Qed.

Lemma prefix_contains (k w : string) :
  String.prefix k w = true -> PyStr.contains k w = true.
Proof. intros Hp. destruct w; cbn [PyStr.contains]; rewrite Hp; reflexivity. Qed.

Section Runs.
Variable p : ascii -> bool.

Lemma prefix_before_stop (a : ascii) (y : string) :
  p a = false ->
  forall x key,
    PyStr.all_chars p key = true ->
    String.prefix key (x ++ String a y) = true -> String.prefix key x = true.
Proof.
  intros Ha. induction x as [|c x IH]; intros [|k key] Hall;
    rewrite ?append_nil_l, ?append_cons; cbn; try reflexivity.
  - cbn in Hall. apply andb_true_iff in Hall. destruct Hall as [Hk _].
    destruct (ascii_dec k a) as [->|]; [congruence|discriminate].
  - cbn in Hall. apply andb_true_iff in Hall. destruct Hall as [_ Hall].
    destruct (ascii_dec k c); [|discriminate]. now apply IH.
Qed.

Lemma contains_around_stop (a : ascii) (y key : string) :
  p a = false -> PyStr.all_chars p key = true -> key <> EmptyString ->
  forall x,
    PyStr.contains key (x ++ String a y) = true ->
    PyStr.contains key x = true \/ PyStr.contains key y = true.
Proof.
  intros Ha Hall Hne. induction x as [|c x IH];
    rewrite ?append_nil_l, ?append_cons; cbn [PyStr.contains].
  - intros Hc. apply orb_true_iff in Hc. destruct Hc as [Hp|Hc]; [|now right].
    apply (prefix_before_stop a y Ha EmptyString key Hall) in Hp.
    destruct key; [contradiction|discriminate].
  - intros Hc. apply orb_true_iff in Hc. destruct Hc as [Hp|Hc].
    + left. rewrite <- append_cons in Hp.
      apply (prefix_before_stop a y Ha (String c x) key Hall) in Hp.
      rewrite Hp. reflexivity.
    + destruct (IH Hc) as [Hx|Hy]; [left|now right].
      rewrite Hx. apply orb_true_r.
Qed.

Lemma runs_contains (key : string) :
  PyStr.all_chars p key = true -> key <> EmptyString ->
  forall s cur,
    PyStr.contains key (cur ++ s) = true ->
    exists w, List.In w (PyStr.runs p cur s) /\ PyStr.contains key w = true.
Proof.
  intros Hall Hne. induction s as [|a r IH]; intros cur Hc; cbn [PyStr.runs].
  - rewrite append_empty_r in Hc. exists cur. split; [|exact Hc].
    destruct cur; [|now left]. destruct key; [contradiction|discriminate].
  - destruct (p a) eqn:Ha.
    + apply IH. now rewrite append_assoc.
    + apply (contains_around_stop a r key Ha Hall Hne) in Hc. destruct Hc as [Hc|Hc].
      * exists cur. split; [|exact Hc]. apply in_or_app. left.
        destruct cur; [|now left]. destruct key; [contradiction|discriminate].
      * destruct (IH EmptyString Hc) as (w & Hw & Hkw). exists w. split; [|exact Hkw].
        apply in_or_app. now right.
Qed.

End Runs.

(** No synonym key lies inside a stop word; every key is made of word
    characters and has three characters or more. *)
Lemma synonym_keys_checked :
  forallb
    (fun kv =>
       PyStr.all_chars PyStr.is_word_char (fst kv)
       && (3 <=? String.length (fst kv))%nat
       && forallb (fun w => negb (PyStr.contains (fst kv) w)) BM25.STOP_WORDS)
    Hybrid.QUERY_SYNONYMS = true.
Proof. vm_compute. reflexivity. Qed.

Lemma no_tokens_no_keep (query : string) :
  BM25._tokenize query = [] ->
  forall w, List.In w (PyStr.findall_words (PyStr.lower query)) -> BM25.keep_token w = false.
Proof.
  unfold BM25._tokenize. intros Hnil w Hw. apply app_eq_nil in Hnil.
  destruct Hnil as [Hfil _].
  destruct (BM25.keep_token w) eqn:Hk; [|reflexivity].
  assert (Hin : List.In w (List.filter BM25.keep_token
                             (PyStr.findall_words (PyStr.lower query))))
    by (apply filter_In; auto).
  rewrite Hfil in Hin. destruct Hin.
Qed.

Lemma no_tokens_no_synonym (query : string) :
  BM25._tokenize query = [] ->
  forall kv, List.In kv Hybrid.QUERY_SYNONYMS ->
             PyStr.contains (fst kv) (PyStr.lower query) = false.
Proof.
  intros Hnil kv Hkv. apply not_true_is_false. intros Hc.
  pose proof synonym_keys_checked as Hchk.
  rewrite forallb_forall in Hchk. specialize (Hchk kv Hkv).
  apply andb_true_iff in Hchk. destruct Hchk as [Hchk Hstop].
  apply andb_true_iff in Hchk. destruct Hchk as [Hall Hlen].
  apply Nat.leb_le in Hlen.
  destruct (runs_contains PyStr.is_word_char (fst kv) Hall) with
    (s := PyStr.lower query) (cur := EmptyString) as (w & Hw & Hkw).
  { destruct (fst kv); [cbn in Hlen; lia|discriminate]. }
  { exact Hc. }
  pose proof (no_tokens_no_keep query Hnil w Hw) as Hkeep.
  unfold BM25.keep_token in Hkeep. apply orb_false_iff in Hkeep.
  destruct Hkeep as [Hkeep _]. apply andb_false_iff in Hkeep.
  pose proof (contains_length _ _ Hkw) as Hlw.
  destruct Hkeep as [Hshort|Hstopw].
  - apply Nat.ltb_ge in Hshort. lia.
  - apply negb_false_iff in Hstopw. unfold BM25.is_stop, PyStr.mem in Hstopw.
    apply existsb_exists in Hstopw. destruct Hstopw as (sw & Hsw & Heq).
    apply String.eqb_eq in Heq. subst sw.
    rewrite forallb_forall in Hstop. specialize (Hstop w Hsw).
    rewrite Hkw in Hstop. discriminate.
Qed.

Lemma no_tokens_expand (query : string) :
  BM25._tokenize query = [] ->
  Hybrid._expand_query (PyStr.lower query) = PyStr.lower query.
Proof.
  intros Hnil. unfold Hybrid._expand_query. rewrite lower_idem.
  assert (Hflat : forall l,
            (forall kv, List.In kv l -> List.In kv Hybrid.QUERY_SYNONYMS) ->
            flat_map (fun ws : string * list string =>
                        let '(word, synonyms) := ws in
                        if PyStr.contains word (PyStr.lower query)
                        then firstn 2 synonyms else []) l = []).
  { induction l as [|[word syns] r IH]; intros Hsub; [reflexivity|].
    cbn [flat_map].
    assert (E : PyStr.contains word (PyStr.lower query) = false)
      by (apply (no_tokens_no_synonym query Hnil (word, syns)), Hsub; now left).
    rewrite E. cbn [app]. apply IH. intros kv Hin. apply Hsub. now right. }
  rewrite Hflat by auto. reflexivity.
Qed.

Lemma tokenize_lower (query : string) :
  BM25._tokenize (PyStr.lower query) = BM25._tokenize query.
Proof. unfold BM25._tokenize. now rewrite lower_idem. Qed.

Section NoTokens.
Context `{Py.Runtime} `{Index.Scorer} `{Index.Pickle} `{Vector.Backend}.

Lemma index_search_no_tokens (idx : Index.BM25Index) (env : Index.Env)
    (query : string) (limit : nat) :
  BM25._tokenize query = [] ->
  exists idx' env', Index.search idx env query limit = Py.Ok (idx', env', []).
Proof.
  intros Hnil. unfold Index.search.
  assert (Hloaded : forall i e sc, Index.search_loaded i e sc query limit = Py.Ok [])
    by (intros i e sc; unfold Index.search_loaded; now rewrite Hnil).
  destruct (Index.bm25 idx) as [scorer|].
  - rewrite Hloaded. cbn. eauto.
  - destruct (load_total idx env) as (idx' & env' & ->). cbn.
    destruct (Index.bm25 idx') as [scorer|]; [rewrite Hloaded; cbn|]; eauto.
Qed.

Lemma vector_fold_all_far (alpha : Q) (query : string) (qt : list string)
    (items : list (nat * Model.Result)) :
  (forall item, List.In item items -> Hybrid.within_threshold (snd item) = false) ->
  forall acc, fold_left (Hybrid.vector_step alpha query qt) items acc = acc.
Proof.
  induction items as [|[rank res] rest IH]; intros Hfar acc; cbn [fold_left]; [reflexivity|].
  rewrite IH by (intros it Hit; apply Hfar; now right).
  unfold Hybrid.vector_step, Py.Qlt_bool.
  pose proof (Hfar (rank, res) (or_introl eq_refl)) as Hr.
  unfold Hybrid.within_threshold in Hr. cbn [snd] in Hr. now rewrite Hr.
Qed.

Lemma rank_nothing_retrieved (alpha : Q) (query : string) (limit : nat)
    (vector_results : list Model.Result) :
  (forall r, List.In r vector_results -> Hybrid.within_threshold r = false) ->
  Hybrid.rank alpha query limit [] vector_results = [].
Proof.
  intros Hfar. unfold Hybrid.rank, Hybrid.result_pool, Hybrid.combine_scores.
  change (fold_left _ (Hybrid.enumerate1 []) []) with (@nil (string * Hybrid.Entry)).
  rewrite vector_fold_all_far.
  - unfold Hybrid.partition_candidates.
    destruct (Hybrid._extract_primary_category (PyStr.lower query)) as [primary kws].
    cbn. now rewrite firstn_nil.
  - intros [rank res] Hin. apply Hfar. unfold Hybrid.enumerate1 in Hin.
    apply in_combine_r in Hin. exact Hin.
Qed.

(** C3 (amended): for a query without tokens the lexical index returns the
    empty list and does not raise; hybrid search does not raise either and
    returns the ranking of the semantic branch's candidates alone, which is
    the empty list when no semantic candidate is within distance 0.85. *)
Theorem search_without_tokens (h : Hybrid.HybridSearch) (env : Index.Env)
    (query : string) (limit : nat) :
  BM25._tokenize query = [] ->
  let vector_results :=
    Vector.search (Hybrid.vector_index h) (PyStr.lower query)
      (Nat.min (limit * 10) 100) in
  (forall idx e l, exists idx' e', Index.search idx e query l = Py.Ok (idx', e', []))
  /\ (exists h' env',
        Hybrid.search h env query limit
        = Py.Ok (h', env', Hybrid.rank (Hybrid.alpha h) query limit [] vector_results))
  /\ ((forall r, List.In r vector_results -> Hybrid.within_threshold r = false) ->
      exists h' env', Hybrid.search h env query limit = Py.Ok (h', env', [])).
Proof.
  intros Hnil vector_results.
  assert (Hs : exists h' env',
             Hybrid.search h env query limit
             = Py.Ok (h', env',
                      Hybrid.rank (Hybrid.alpha h) query limit [] vector_results)).
  { unfold Hybrid.search. rewrite (no_tokens_expand query Hnil).
    destruct (index_search_no_tokens (Hybrid.bm25_index h) env (PyStr.lower query)
                (Nat.min (limit * 10) 100)) as (idx' & env' & ->).
    { now rewrite tokenize_lower. }
    cbn. eauto. }
  split; [intros idx e l; now apply index_search_no_tokens|].
  split; [exact Hs|].
  intros Hfar. destruct Hs as (h' & env' & Hs). exists h', env'.
  now rewrite Hs, rank_nothing_retrieved.
Qed.

End NoTokens.

Section NoTokenRuns.
Import Sample.

(** C3 (as worded): the query "the" has no token, and hybrid search on a
    catalogue holding one product answers it with that product. *)
Lemma hybrid_search_answers_without_tokens :
  BM25._tokenize "the" = []
  /\ match Catalog.searchProducts one_chair "the" 5 with
     | Py.Ok (_, results) => map Hybrid.f_id results = ["C1"]
     | Py.Raise _ => False
     end
  /\ ~ (exists c', Catalog.searchProducts one_chair "the" 5 = Py.Ok (c', [])).
Proof.
  split; [reflexivity|].
  assert (Hrun : match Catalog.searchProducts one_chair "the" 5 with
                 | Py.Ok (_, results) => map Hybrid.f_id results = ["C1"]
                 | Py.Raise _ => False
                 end) by (vm_compute; reflexivity).
  split; [exact Hrun|].
  intros (c' & Hc). rewrite Hc in Hrun. discriminate Hrun.
Qed.

Lemma search_without_tokens_witness :
  let h := {| Hybrid.bm25_index := Catalog.products_bm25 one_chair;
              Hybrid.vector_index := Catalog.products_vector one_chair;
              Hybrid.alpha := Catalog.hybrid_alpha |} in
  let vector_results := Vector.search (Hybrid.vector_index h) "the" 50 in
  BM25._tokenize "the" = []
  /\ exists h' env',
       Hybrid.search h (Catalog.env one_chair) "the" 5
       = Py.Ok (h', env', Hybrid.rank (Hybrid.alpha h) "the" 5 [] vector_results).
Proof.
  intros h vector_results. split; [reflexivity|].
  exact (proj1 (proj2 (search_without_tokens h (Catalog.env one_chair) "the" 5 eq_refl))).
Defined.

End NoTokenRuns.

(** ** Ingesting a batch twice *)

Section Upserts.
Context {V : Type}.

Lemma fold_insert_union {D : Type} (key : D -> string) (val : D -> V) (docs : list D) :
  forall m : gmap string V,
    fold_left (fun acc doc => <[key doc := val doc]> acc) docs m
    = fold_left (fun acc doc => <[key doc := val doc]> acc) docs ∅ ∪ m.
Proof.
  induction docs as [|d r IH]; intros m; cbn [fold_left].
  - now rewrite (left_id_L ∅ (∪)).
  - rewrite IH, (IH (<[key d := val d]> ∅)).
    rewrite <- (assoc_L (∪)). f_equal.
    rewrite insert_union_singleton_l, (insert_union_singleton_l ∅).
    now rewrite (right_id_L ∅ (∪)).
Qed.

(** Writing the same batch of keyed rows a second time changes nothing. *)
Lemma fold_insert_twice {D : Type} (key : D -> string) (val : D -> V) (docs : list D)
    (m : gmap string V) :
  let put := fold_left (fun acc doc => <[key doc := val doc]> acc) docs in
  put (put m) = put m.
Proof.
  cbn zeta. rewrite fold_insert_union, (fold_insert_union key val docs m).
  now rewrite (assoc_L (∪)), (idemp_L (∪)).
Qed.

End Upserts.

Section Reingest.
Context `{Py.Runtime} `{Index.Scorer} `{Index.Pickle} `{Vector.Backend}.

Lemma merge_products (docs : list Model.IndexDocument) :
  forall env,
    Index.products (fold_left (Index.merge_doc "products_index") docs env)
    = fold_left (fun acc doc => <[Model.id doc := Index.product_row doc]> acc)
        docs (Index.products env).
Proof.
  induction docs as [|d r IH]; intros env; cbn [fold_left]; [reflexivity|].
  now rewrite IH.
Qed.

Lemma vector_add (docs : list Model.IndexDocument) :
  forall v,
    Vector.collection (Vector.add_documents v docs)
    = fold_left
        (fun acc doc =>
           <[Model.id doc := {| Vector.e_text := Model.content doc;
                                Vector.e_meta := Vector._sanitize_metadata
                                                   (Model.metadata doc) |}]> acc)
        docs (Vector.collection v).
Proof.
  unfold Vector.add_documents.
  induction docs as [|d r IH]; intros v; cbn [fold_left]; [reflexivity|].
  now rewrite IH.
Qed.

(** C2 (what the code does): ingesting a batch with at least one usable
    product into a new catalogue twice leaves the store and the semantic
    index as after one ingestion (they merge by key), but the lexical index
    holds every document id and every token list twice, and its scorer is
    fitted on the doubled corpus. *)
Theorem reingest_doubles_lexical_index
    (e : Index.Env) (pv sv : Vector.VectorIndex) (products : list Model.Metadata) :
  Catalog.unique_documents products <> [] ->
  let once := Catalog.addProducts (Catalog.fresh e pv sv) products in
  let twice := Catalog.addProducts once products in
  let ids := map Model.id (Catalog.unique_documents products) in
  let tokens :=
    map (fun doc => BM25._tokenize (Model.content doc))
        (Catalog.unique_documents products) in
  Index.products (Catalog.env twice) = Index.products (Catalog.env once)
  /\ Vector.collection (Catalog.products_vector twice)
     = Vector.collection (Catalog.products_vector once)
  /\ Index.doc_ids (Catalog.products_bm25 once) = ids
  /\ Index.corpus (Catalog.products_bm25 once) = Some tokens
  /\ Index.doc_ids (Catalog.products_bm25 twice) = ids ++ ids
  /\ Index.corpus (Catalog.products_bm25 twice) = Some (tokens ++ tokens)
  /\ Index.bm25 (Catalog.products_bm25 twice)
     = Some {| Index.fitted_corpus := tokens ++ tokens |}
  /\ ~ List.NoDup (Index.doc_ids (Catalog.products_bm25 twice)).
Proof.
  intros Hne once twice ids tokens.
  unfold twice, once, Catalog.addProducts, Catalog.fresh.
  destruct (Catalog.unique_documents products) as [|doc rest] eqn:Hdocs; [contradiction|].
  cbn [Index.add_documents Index.init Index.bm25 Index.corpus Index.doc_ids
       Index.index_name Catalog.products_bm25 Catalog.env Catalog.products_vector
       Index.save Index.products].
  split.
  { rewrite !merge_products. cbn [Index.products].
    apply (fold_insert_twice Model.id Index.product_row (doc :: rest)). }
  split.
  { rewrite !vector_add.
    apply (fold_insert_twice Model.id
             (fun d => {| Vector.e_text := Model.content d;
                          Vector.e_meta := Vector._sanitize_metadata (Model.metadata d) |})
             (doc :: rest)). }
  repeat (split; [reflexivity|]).
  intros Hnd. subst ids. cbn in Hnd. inversion Hnd as [|? ? Hnotin _]; subst.
  apply Hnotin, in_or_app. right. now left.
Qed.

End Reingest.

Section ReingestRuns.
Import Sample.

Lemma reingest_doubles_lexical_index_witness :
  let batch := [product "C1" "Club Chair" 120 "leather armchair"] in
  let once := Catalog.addProducts (Catalog.fresh empty_env empty_vector empty_vector) batch in
  let twice := Catalog.addProducts once batch in
  Catalog.unique_documents batch <> []
  /\ Index.doc_ids (Catalog.products_bm25 once) = ["C1"]
  /\ Index.doc_ids (Catalog.products_bm25 twice) = ["C1"; "C1"]
  /\ Index.corpus (Catalog.products_bm25 twice)
     = Some [["club"; "chair"; "leather"; "armchair"; "club_chair"; "chair_leather";
              "leather_armchair"];
             ["club"; "chair"; "leather"; "armchair"; "club_chair"; "chair_leather";
              "leather_armchair"]]
  /\ Index.products (Catalog.env twice) = Index.products (Catalog.env once).
Proof.
  intros batch once twice.
  assert (Hne : Catalog.unique_documents batch <> []) by (vm_compute; discriminate).
  destruct (reingest_doubles_lexical_index empty_env empty_vector empty_vector batch Hne)
    as (Hstore & _ & Hids1 & _ & Hids2 & Hcorpus & _).
  split; [exact Hne|]. split; [exact Hids1|]. split; [exact Hids2|].
  split; [exact Hcorpus|exact Hstore].
Defined.

End ReingestRuns.

Section PersistenceRuns.
Import Sample.

(** An artifact that cannot be deserialized is removed by [load], the index
    is reset, and one ingest, save and load later the index is the one built
    from the batch. *)
Lemma load_self_heals_witness :
  let idx := Index.init "products_index" in
  let env := {| Index.products := ∅; Index.specs := ∅;
                Index.disk := {[ "products_index.pkl" := None ]} |} in
  let batch := Catalog.unique_documents [product "C1" "Club Chair" 120 "leather armchair"] in
  let ingested := Index.add_documents (Index.reset idx) empty_env batch in
  let saved := Index.save (fst ingested) (snd ingested) in
  Index.disk env !! Index.index_path idx = Some None
  /\ Index.load_try idx None = Py.Raise Py.UnpicklingError
  /\ Index.load idx env
     = Py.Ok (Index.reset idx, Index.unlink (Index.index_path idx) env)
  /\ (forall d, Index.pickle_load (Index.pickle_dump d) = Some (Index.PDict d))
  /\ batch <> []
  /\ exists loaded,
       Index.load idx saved = Py.Ok (loaded, saved)
       /\ Index.doc_ids loaded = ["C1"].
Proof.
  intros idx env batch ingested saved.
  assert (Hfile : Index.disk env !! Index.index_path idx = Some None)
    by (vm_compute; reflexivity).
  assert (Hfail : Index.load_try idx None = Py.Raise Py.UnpicklingError) by reflexivity.
  assert (Hround : forall d, Index.pickle_load (Index.pickle_dump d) = Some (Index.PDict d))
    by reflexivity.
  assert (Hne : batch <> []) by (vm_compute; discriminate).
  destruct (load_self_heals idx env) as (_ & Hcorrupt & Hrecover).
  destruct (Hcorrupt None Py.UnpicklingError Hfile Hfail) as (Hload & _).
  destruct (Hrecover Hround empty_env batch idx Hne eq_refl)
    as (loaded & Hloaded & _ & Hids & _).
  split; [exact Hfile|]. split; [exact Hfail|]. split; [exact Hload|].
  split; [exact Hround|]. split; [exact Hne|].
  exists loaded. split; [exact Hloaded|exact Hids].
Defined.

End PersistenceRuns.

(** ** The specification's worked examples *)

Section SpecExamples.
Import Sample.

(** Phrase boost: "Blue Office Chair" holds the query as a phrase, the other
    title only its words. *)
Example phrase_boost_example :
  Hybrid._calculate_phrase_score "blue office chair" "blue office chair" "" = 10%Q
  /\ Hybrid._calculate_phrase_score "blue office chair"
       "office furniture - chair, blue accent" "" = 5%Q.
Proof. split; reflexivity. Qed.

(** Negative keywords: for "gaming chair" the kids' chair is penalised by
    0.1, the gaming chair is not. *)
Example negative_keyword_example :
  Hybrid._calculate_negative_keyword_penalty "gaming chair"
    "ergonomic gaming chair" "rgb lighting, racing style" = 1%Q
  /\ (Hybrid._calculate_negative_keyword_penalty "gaming chair"
        "kids study chair" "colorful, for children" == 1 # 10)%Q.
Proof. split; reflexivity. Qed.

(** With both chairs in the lexical answer, in either order, and in the
    semantic answer, the gaming chair comes first. *)
Example gaming_chair_ranks_first :
  let a := {| Model.r_id := "A"; Model.r_score := 1 # 2;
              Model.r_content :=
                Model.product_to_dict
                  (Index.product_row
                     {| Model.id := "A"; Model.content := "";
                        Model.metadata := product "A" "Ergonomic Gaming Chair" 300
                                            "RGB lighting, racing style" |}) |} in
  let b := {| Model.r_id := "B"; Model.r_score := 1 # 2;
              Model.r_content :=
                Model.product_to_dict
                  (Index.product_row
                     {| Model.id := "B"; Model.content := "";
                        Model.metadata := product "B" "Kids Study Chair" 80
                                            "colorful, for children" |}) |} in
  map Hybrid.f_id (Hybrid.rank (6 # 10) "gaming chair" 5 [a; b] [a; b]) = ["A"; "B"]
  /\ map Hybrid.f_id (Hybrid.rank (6 # 10) "gaming chair" 5 [b; a] [b; a]) = ["A"; "B"].
Proof. vm_compute. split; reflexivity. Qed.

(** Price filter: the desk at 250 passes [price_max = 300] and not
    [price_max = 100]. *)
Example price_filter_example :
  let desk := {| Searcher.p_id := "C"; Searcher.p_name := Some "Modern Office Desk";
                 Searcher.p_price := Some 250%Q; Searcher.p_description := Some "";
                 Searcher.p_vendor := Some ""; Searcher.p_tags := Some (Py.TagList []);
                 Searcher.p_category := Some ""; Searcher.p_type := None;
                 Searcher.p_in_stock := None |} in
  Searcher._apply_filters [desk] (Searcher.price_only None (Some 300%Q)) = [desk]
  /\ Searcher._apply_filters [desk] (Searcher.price_only None (Some 100%Q)) = [].
Proof. split; reflexivity. Qed.

End SpecExamples.

(* ===================================================================== *)
(** * Further properties of the modelled code *)
(* ===================================================================== *)

(** ** Tokenizer *)

Lemma lower_append (a b : string) :
  PyStr.lower (a ++ b) = (PyStr.lower a ++ PyStr.lower b)%string.
Proof.
  induction a as [|x a IH]; [reflexivity|].
  rewrite append_cons. cbn [PyStr.lower]. rewrite append_cons. now f_equal.
Qed.

Lemma all_lower_fixed (w : string) :
  PyStr.all_chars PyStr.is_lower_char w = true -> PyStr.lower w = w.
Proof.
  induction w as [|a r IH]; cbn; [reflexivity|].
  intros Hw. apply andb_true_iff in Hw. destruct Hw as [Ha Hr].
  apply Ascii.eqb_eq in Ha. now rewrite Ha, IH.
Qed.

Lemma lower_all_lower (s : string) : PyStr.all_chars PyStr.is_lower_char (PyStr.lower s) = true.
Proof.
  induction s as [|a r IH]; cbn; [reflexivity|].
  rewrite IH, andb_true_r. unfold PyStr.is_lower_char. rewrite lower_char_idem.
  apply Ascii.eqb_refl.
Qed.

Lemma runs_all_chars (p q : ascii -> bool) (s : string) :
  forall cur,
    PyStr.all_chars q cur = true -> PyStr.all_chars q s = true ->
    forall w, List.In w (PyStr.runs p cur s) -> PyStr.all_chars q w = true.
Proof.
  induction s as [|a r IH]; intros cur Hcur Hs w Hw; cbn [PyStr.runs] in Hw.
  - destruct cur; [destruct Hw|]. destruct Hw as [<-|[]]. exact Hcur.
  - cbn in Hs. apply andb_true_iff in Hs. destruct Hs as [Ha Hr].
    destruct (p a).
    + apply (IH (cur ++ String a EmptyString)%string); auto.
      rewrite all_chars_append, Hcur. cbn. now rewrite Ha.
    + apply in_app_or in Hw. destruct Hw as [Hw|Hw].
      * destruct cur; [destruct Hw|]. destruct Hw as [<-|[]]. exact Hcur.
      * apply (IH EmptyString); auto.
Qed.

Lemma adjacent_bigrams_In (words : list string) (b : string) :
  List.In b (BM25.adjacent_bigrams words) ->
  exists x y, List.In x words /\ List.In y words
              /\ b = (x ++ "_" ++ y)%string
              /\ BM25.is_keyword x || BM25.is_keyword y = true.
Proof.
  induction words as [|a [|c rest] IH]; cbn [BM25.adjacent_bigrams]; try (intros []).
  intros Hb. apply in_app_or in Hb. destruct Hb as [Hb|Hb].
  - destruct (BM25.is_keyword a || BM25.is_keyword c) eqn:Hk; [|destruct Hb].
    destruct Hb as [<-|[]]. exists a, c. cbn. auto.
  - destruct (IH Hb) as (x & y & Hx & Hy & Hxy & Hk).
    exists x, y. repeat split; auto; now right.
Qed.

(** X1: tokenization does not depend on the case of the text, and every
    token it returns is in lower case. *)
Theorem tokenize_case_insensitive (text : string) :
  BM25._tokenize (PyStr.lower text) = BM25._tokenize text
  /\ (forall other, PyStr.lower other = PyStr.lower text ->
                    BM25._tokenize other = BM25._tokenize text)
  /\ (forall t, List.In t (BM25._tokenize text) -> PyStr.lower t = t).
Proof.
  split; [unfold BM25._tokenize; now rewrite lower_idem|]. split.
  - intros other Ho. unfold BM25._tokenize. now rewrite Ho.
  - intros t Ht. unfold BM25._tokenize in Ht. rewrite bigrams_of_adjacent in Ht.
    assert (Hwords : forall w, List.In w (PyStr.findall_words (PyStr.lower text)) ->
                               PyStr.lower w = w).
    { intros w Hw. apply all_lower_fixed.
      apply (runs_all_chars PyStr.is_word_char PyStr.is_lower_char (PyStr.lower text)
               EmptyString); auto using lower_all_lower. }
    apply in_app_or in Ht. destruct Ht as [Ht|Ht].
    + apply filter_In in Ht. apply Hwords. tauto.
    + apply adjacent_bigrams_In in Ht. destruct Ht as (x & y & Hx & Hy & -> & _).
      rewrite !lower_append, (Hwords x Hx), (Hwords y Hy). reflexivity.
Qed.

(** Every domain keyword has three characters or more and none is a stop
    word. *)
Lemma keywords_checked :
  forallb (fun k => (3 <=? String.length k)%nat && negb (BM25.is_stop k))
          BM25.PRODUCT_KEYWORDS = true.
Proof. vm_compute. reflexivity. Qed.

(** X2: every token is a word of at least three characters that is not a
    stop word, or the bigram of two adjacent words of the text of which at
    least one is a domain keyword. *)
Theorem tokenize_token_kinds (text : string) (t : string) :
  List.In t (BM25._tokenize text) ->
  (List.In t (PyStr.findall_words (PyStr.lower text))
   /\ (3 <= String.length t)%nat /\ BM25.is_stop t = false)
  \/ (exists x y,
        List.In x (PyStr.findall_words (PyStr.lower text))
        /\ List.In y (PyStr.findall_words (PyStr.lower text))
        /\ t = (x ++ "_" ++ y)%string
        /\ (BM25.is_keyword x = true \/ BM25.is_keyword y = true)).
Proof.
  unfold BM25._tokenize. rewrite bigrams_of_adjacent. intros Ht.
  apply in_app_or in Ht. destruct Ht as [Ht|Ht].
  - left. apply filter_In in Ht. destruct Ht as [Hin Hkeep]. split; [exact Hin|].
    unfold BM25.keep_token in Hkeep. apply orb_true_iff in Hkeep.
    destruct Hkeep as [Hlong|Hkw].
    + apply andb_true_iff in Hlong. destruct Hlong as [Hlen Hstop].
      apply Nat.ltb_lt in Hlen. apply negb_true_iff in Hstop. split; [lia|exact Hstop].
    + unfold BM25.is_keyword, PyStr.mem in Hkw. apply existsb_exists in Hkw.
      destruct Hkw as (k & Hk & Heq). apply String.eqb_eq in Heq. subst k.
      pose proof keywords_checked as Hchk. rewrite forallb_forall in Hchk.
      specialize (Hchk t Hk). apply andb_true_iff in Hchk. destruct Hchk as [Hlen Hstop].
      apply Nat.leb_le in Hlen. apply negb_true_iff in Hstop. auto.
  - right. apply adjacent_bigrams_In in Ht. destruct Ht as (x & y & Hx & Hy & -> & Hk).
    exists x, y. apply orb_true_iff in Hk. auto.
Qed.

(** ** Lexical index: ingestion, persistence, search *)

Section IndexExtras.
Context `{Index.Scorer} `{Index.Pickle}.

Lemma add_documents_step (idx : Index.BM25Index) (env : Index.Env)
    (batch : list Model.IndexDocument) (ids : list string) (toks : list (list string)) :
  Scenario.tracks idx ids toks ->
  Scenario.tracks (fst (Index.add_documents idx env batch))
    (ids ++ map Model.id batch) (toks ++ Scenario.tokens_of batch).
Proof.
  unfold Scenario.tracks. intros [Hids Hst]. destruct batch as [|doc rest].
  - cbn. rewrite !app_nil_r. auto.
  - unfold Scenario.tokens_of.
    destruct Hst as [(Hb & Hc & -> & ->) | (Hb & Hc & Hne)];
      cbn [Index.add_documents fst]; rewrite Hb, Hc; cbn; rewrite ?Hids;
      (split; [reflexivity|right; repeat split; try reflexivity]).
    + discriminate.
    + intros Hnil. apply app_eq_nil in Hnil. destruct Hnil as [_ Hnil]. discriminate.
Qed.

Lemma ingest_fold (batches : list (list Model.IndexDocument)) :
  forall idx env ids toks,
    Scenario.tracks idx ids toks ->
    Scenario.tracks
      (fst (fold_left (fun st batch => Index.add_documents (fst st) (snd st) batch)
                      batches (idx, env)))
      (ids ++ concat (map (map Model.id) batches))
      (toks ++ concat (map Scenario.tokens_of batches)).
Proof.
  induction batches as [|b bs IH]; intros idx env ids toks Htr;
    cbn [fold_left map concat fst snd].
  - now rewrite !app_nil_r.
  - pose proof (add_documents_step idx env b ids toks Htr) as Hstep.
    destruct (Index.add_documents idx env b) as [idx1 env1]. cbn [fst snd] in *.
    specialize (IH idx1 env1 _ _ Hstep). rewrite <- !app_assoc in IH. exact IH.
Qed.

Lemma batches_ids_tokens_length (batches : list (list Model.IndexDocument)) :
  List.length (concat (map (map Model.id) batches))
  = List.length (concat (map Scenario.tokens_of batches)).
Proof.
  induction batches as [|b bs IH]; [reflexivity|].
  cbn [map concat]. rewrite !length_app, IH. unfold Scenario.tokens_of.
  now rewrite !length_map.
Qed.

(** X3: whatever batches are ingested one after the other into a new index,
    the document ids are the ids of the batches in order, the scorer is
    fitted on the token lists of the batches in order, the stored corpus is
    that same list, and there is one id per token list. *)
Theorem ingest_keeps_ids_and_corpus_aligned (name : string) (env : Index.Env)
    (batches : list (list Model.IndexDocument)) :
  let idx := fst (Scenario.ingest_all name env batches) in
  let ids := concat (map (map Model.id) batches) in
  let toks := concat (map Scenario.tokens_of batches) in
  Index.doc_ids idx = ids
  /\ List.length ids = List.length toks
  /\ (ids = [] -> Index.bm25 idx = None)
  /\ (ids <> [] ->
      Index.bm25 idx = Some {| Index.fitted_corpus := toks |}
      /\ Index.corpus idx = Some toks).
Proof.
  intros idx ids toks.
  destruct (ingest_fold batches (Index.init name) env [] []) as [Hids Hst].
  { split; [reflexivity|left; auto]. }
  cbn [app] in Hids, Hst. fold (Scenario.ingest_all name env batches) in Hids, Hst.
  fold idx ids toks in Hids, Hst.
  split; [exact Hids|]. split; [apply batches_ids_tokens_length|]. split.
  - intros Hnil. destruct Hst as [(Hb & _)|(_ & _ & Hne)]; [exact Hb|contradiction].
  - intros Hne. destruct Hst as [(_ & _ & Hnil & _)|(Hb & Hc & _)]; [contradiction|auto].
Qed.

(** X4: an index that holds a scorer is written by [save] and read back by
    [load] with the same scorer and document ids, whatever state the loading
    object was in, provided the pickle library reads back what it wrote; the
    loaded index answers every search as the saved one. *)
Theorem save_then_load_restores (idx user : Index.BM25Index) (env : Index.Env)
    (scorer : Index.BM25Okapi) :
  (forall d, Index.pickle_load (Index.pickle_dump d) = Some (Index.PDict d)) ->
  Index.bm25 idx = Some scorer ->
  Index.index_name user = Index.index_name idx ->
  exists loaded,
    Index.load user (Index.save idx env) = Py.Ok (loaded, Index.save idx env)
    /\ Index.bm25 loaded = Some scorer
    /\ Index.doc_ids loaded = Index.doc_ids idx
    /\ Index.corpus loaded = Some (Py.get (Index.corpus idx) [])
    /\ forall query limit,
         Index.answer (Index.search loaded (Index.save idx env) query limit)
         = Index.answer (Index.search idx env query limit).
Proof.
  intros Hround Hb Hname. eexists. split; [exact (load_saved idx user env scorer Hround Hb Hname)|].
  repeat (split; [reflexivity|]).
  intros query limit. apply (search_of_loaded _ _ _ _ scorer); try reflexivity; auto.
  - unfold Index.save. rewrite Hb. reflexivity.
  - unfold Index.save. rewrite Hb. reflexivity.
Qed.

Lemma ids_at_in_range (ids : list string) (indices : list nat) (ds : list string) :
  Index.ids_at ids indices = Py.Ok ds ->
  forall i, List.In i indices -> (i < List.length ids)%nat.
Proof.
  revert ds. induction indices as [|j r IH]; intros ds Hok i Hi; [destruct Hi|].
  cbn [Index.ids_at] in Hok. destruct (nth_error ids j) as [d|] eqn:Hd; [|discriminate].
  destruct (Index.ids_at ids r) as [ds'|] eqn:Hr; [|discriminate].
  destruct Hi as [<-|Hi].
  - apply nth_error_Some. congruence.
  - eapply IH; eauto.
Qed.

Lemma assemble_descending (name : string) (env : Index.Env) (ids : list string)
    (scores : list Q) (indices : list nat) :
  Py.descending (fun i => nth i scores 0%Q) indices ->
  Py.descending Model.r_score (Index.assemble name env ids scores indices).
Proof.
  unfold Py.descending, Index.assemble.
  induction 1 as [|i r Hr IH Hi]; cbn [flat_map]; [constructor|].
  destruct (Index.results_map name env (nth i ids EmptyString)) as [c|]; cbn [app]; [|exact IH].
  constructor; [exact IH|]. apply List.Forall_forall. intros x Hx.
  apply in_flat_map in Hx. destruct Hx as (j & Hj & Hx).
  destruct (Index.results_map name env (nth j ids EmptyString)); [|destruct Hx].
  destruct Hx as [<-|[]]. cbn. exact (proj1 (List.Forall_forall _ _) Hi j Hj).
Qed.

Lemma flat_map_length_le {A B : Type} (f : A -> list B) (l : list A) :
  (forall a, (List.length (f a) <= 1)%nat) ->
  (List.length (flat_map f l) <= List.length l)%nat.
Proof.
  intros Hf. induction l as [|a r IH]; cbn; [lia|].
  rewrite length_app. specialize (Hf a). lia.
Qed.

(** What [search] promises about a returned list. *)
Lemma search_loaded_sound (idx : Index.BM25Index) (env : Index.Env)
    (scorer : Index.BM25Okapi) (query : string) (limit : nat)
    (results : list Model.Result) :
  Index.search_loaded idx env scorer query limit = Py.Ok results ->
  (List.length results <= limit)%nat
  /\ Py.descending Model.r_score results
  /\ forall r, List.In r results ->
       (Index.MIN_SCORE < Model.r_score r)%Q
       /\ List.In (Model.r_id r) (Index.doc_ids idx)
       /\ Index.results_map (Index.index_name idx) env (Model.r_id r)
          = Some (Model.r_content r).
Proof.
  unfold Index.search_loaded.
  destruct (BM25._tokenize query) as [|t ts].
  { intros [= <-]. split; [cbn; lia|]. split; [constructor|]. intros r []. }
  set (scores := Index.get_scores scorer (t :: ts)).
  destruct (Index.top_indices scores limit) as [|i0 r0] eqn:Htop.
  { intros [= <-]. split; [cbn; lia|]. split; [constructor|]. intros r []. }
  rewrite <- Htop.
  destruct (Index.ids_at (Index.doc_ids idx) (Index.top_indices scores limit)) as [ds|] eqn:Hids;
    cbn; [|discriminate].
  intros [= <-]. split; [|split].
  - apply Nat.le_trans with (List.length (Index.top_indices scores limit)).
    + unfold Index.assemble. apply flat_map_length_le.
      intros a. destruct (Index.results_map _ _ _); cbn; lia.
    + unfold Index.top_indices. apply firstn_le_length.
  - apply assemble_descending. unfold Index.top_indices.
    apply descending_firstn, sorted_desc_descending.
  - intros r Hr. unfold Index.assemble in Hr. apply in_flat_map in Hr.
    destruct Hr as (i & Hi & Hr).
    destruct (Index.results_map (Index.index_name idx) env
                (nth i (Index.doc_ids idx) EmptyString)) as [c|] eqn:Hc; [|destruct Hr].
    destruct Hr as [<-|[]]. cbn.
    pose proof (ids_at_in_range _ _ _ Hids i Hi) as Hrange.
    split; [|split; [now apply nth_In|exact Hc]].
    unfold Index.top_indices in Hi. apply In_firstn, sorted_desc_In, filter_In in Hi.
    destruct Hi as [_ Hi]. now apply Qlt_bool_true in Hi.
Qed.

(** X5: a list the lexical [search] returns has at most [limit] elements,
    in non-increasing order of score; every score is above 0.01, every id
    is one of the index's document ids, and every content is the row the
    store holds under that id (an id without a row is left out). *)
Theorem index_search_sound (idx idx' : Index.BM25Index) (env env' : Index.Env)
    (query : string) (limit : nat) (results : list Model.Result) :
  Index.search idx env query limit = Py.Ok (idx', env', results) ->
  (List.length results <= limit)%nat
  /\ Py.descending Model.r_score results
  /\ forall r, List.In r results ->
       (Index.MIN_SCORE < Model.r_score r)%Q
       /\ List.In (Model.r_id r) (Index.doc_ids idx')
       /\ Index.results_map (Index.index_name idx') env' (Model.r_id r)
          = Some (Model.r_content r).
Proof.
  unfold Index.search. destruct (Index.bm25 idx) as [scorer|] eqn:Hb.
  - destruct (Index.search_loaded idx env scorer query limit) as [rs|] eqn:Hs;
      cbn; [|discriminate].
    intros [= <- <- <-]. eapply search_loaded_sound; eauto.
  - destruct (load_total idx env) as (i1 & e1 & ->). cbn.
    destruct (Index.bm25 i1) as [scorer|].
    + destruct (Index.search_loaded i1 e1 scorer query limit) as [rs|] eqn:Hs;
        cbn; [|discriminate].
      intros [= <- <- <-]. eapply search_loaded_sound; eauto.
    + intros [= <- <- <-]. split; [cbn; lia|]. split; [constructor|]. intros r [].
Qed.

(** X6: after [clear] the index has no scorer, no document ids and no
    artifact on disk, a following [save] writes nothing, and every search
    returns the empty list. *)
Theorem search_after_clear_is_empty (idx : Index.BM25Index) (env : Index.Env)
    (query : string) (limit : nat) :
  let cleared := Index.clear idx env in
  Index.bm25 (fst cleared) = None
  /\ Index.doc_ids (fst cleared) = []
  /\ Index.disk (snd cleared) !! Index.index_path idx = None
  /\ Index.save (fst cleared) (snd cleared) = snd cleared
  /\ Index.search (fst cleared) (snd cleared) query limit
     = Py.Ok (fst cleared, snd cleared, []).
Proof.
  cbn. repeat split.
  - apply lookup_delete_eq.
  - unfold Index.search, Index.load. cbn.
    change (Index.index_path {| Index.index_name := Index.index_name idx;
                                Index.bm25 := None; Index.doc_ids := [];
                                Index.corpus := Index.corpus idx |})
      with (Index.index_path idx).
    now rewrite lookup_delete_eq.
Qed.

(** X7: [clear] keeps the stored token corpus. When an index holding a
    scorer and a corpus is cleared and then fed a first non-empty batch and
    a second one, the first ingestion leaves the old corpus in place and the
    second fits the scorer on the old corpus followed by the second batch's
    tokens, while the document ids are those of the two new batches. *)
Theorem clear_keeps_corpus (idx : Index.BM25Index) (env : Index.Env)
    (old : list (list string)) (first second : list Model.IndexDocument) :
  Index.corpus idx = Some old ->
  first <> [] -> second <> [] ->
  let cleared := Index.clear idx env in
  let one := Index.add_documents (fst cleared) (snd cleared) first in
  let two := Index.add_documents (fst one) (snd one) second in
  Index.corpus (fst cleared) = Some old
  /\ Index.bm25 (fst one) = Some {| Index.fitted_corpus := Scenario.tokens_of first |}
  /\ Index.corpus (fst one) = Some old
  /\ Index.doc_ids (fst two) = map Model.id first ++ map Model.id second
  /\ Index.bm25 (fst two)
     = Some {| Index.fitted_corpus := old ++ Scenario.tokens_of second |}.
Proof.
  intros Hc Hf Hs. destruct first as [|f fs]; [contradiction|].
  destruct second as [|g gs]; [contradiction|].
  cbn. rewrite Hc. cbn. repeat split; reflexivity.
Qed.

End IndexExtras.

(** ** Hybrid search: the boosts and the category *)

Lemma qmin_le_r (a b : Q) : (Py.qmin a b <= b)%Q.
Proof.
  unfold Py.qmin. destruct (Py.Qlt_bool b a) eqn:Hb; [apply Qle_refl|].
  now apply Qlt_bool_false in Hb.
Qed.

Lemma category_fold (text_lower : string) (primary : option string) (kws : list string) :
  forall acc,
    let r := fold_left (Hybrid.category_step text_lower primary) kws acc in
    (fst acc <= fst r)%nat
    /\ (Scenario.mentions kws text_lower = true -> (fst acc < fst r)%nat)
    /\ (Scenario.mentions kws text_lower = false -> r = acc).
Proof.
  unfold Scenario.mentions.
  induction kws as [|kw rest IH]; intros [m pm]; cbn [fold_left existsb].
  - cbn. split; [lia|]. split; [discriminate|reflexivity].
  - unfold Hybrid.category_step at 2 4 6.
    destruct (PyStr.contains kw text_lower) eqn:Hc; cbn [orb].
    + assert (Hstep : forall acc', (m < fst acc')%nat ->
                (fst (m, pm) <= fst (fold_left (Hybrid.category_step text_lower primary)
                                        rest acc'))%nat
                /\ (true = true ->
                    (fst (m, pm) < fst (fold_left (Hybrid.category_step text_lower primary)
                                          rest acc'))%nat)
                /\ (true = false ->
                    fold_left (Hybrid.category_step text_lower primary) rest acc' = (m, pm))).
      { intros acc' Hlt. destruct (IH acc') as (Hle & _ & _). cbn [fst] in *.
        split; [lia|]. split; [intros _; lia|discriminate]. }
      destruct (PyStr.word_search kw text_lower);
        [destruct (Hybrid.truthy primary && String.eqb kw (Py.get primary ""))|];
        apply Hstep; cbn; lia.
    + destruct (IH (m, pm)) as (Hle & Hlt & Heq). auto.
Qed.

(** X8: [_check_category_match] reports a match exactly when some keyword is
    a substring of the lower-cased text; the strength it returns lies
    between 0 and 1, is 0 without a match and positive with one. *)
Theorem category_match_strength (text : string) (kws : list string)
    (primary : option string) :
  let r := Hybrid._check_category_match text kws primary in
  fst r = Scenario.mentions kws (PyStr.lower text)
  /\ (0 <= snd r)%Q /\ (snd r <= 1)%Q
  /\ (fst r = false -> snd r = 0%Q)
  /\ (fst r = true -> (0 < snd r)%Q).
Proof.
  cbn zeta. pose proof (check_category_match_nonneg text kws primary) as Hnn.
  unfold Hybrid._check_category_match in *.
  destruct (category_fold (PyStr.lower text) primary kws (0%nat, false)) as (_ & Hlt & Heq).
  destruct (fold_left _ kws (0%nat, false)) as [matches pm]. cbn [fst] in *.
  destruct (Scenario.mentions kws (PyStr.lower text)).
  - specialize (Hlt eq_refl). destruct (Nat.ltb_spec 0 matches) as [Hm|]; [|lia].
    cbn [fst snd] in *. split; [reflexivity|]. split; [exact Hnn|].
    assert (Hbase : (0 < Py.qmin (Hybrid.nat_Q matches / 4) 1)%Q).
    { destruct (qmin_cases (Hybrid.nat_Q matches / 4) 1) as [E|E]; rewrite E; [|lra].
      apply Qlt_shift_div_l; [lra|]. pose proof (nat_Q_pos matches Hm). lra. }
    destruct pm.
    + split; [apply qmin_le_r|]. split; [discriminate|]. intros _.
      match goal with |- (0 < Py.qmin ?a 1)%Q =>
        destruct (qmin_cases a 1) as [E|E]; rewrite E end; lra.
    + split; [apply qmin_le_r|]. split; [discriminate|]. intros _. exact Hbase.
  - specialize (Heq eq_refl). injection Heq as -> ->. cbn.
    repeat split; try lra; discriminate.
Qed.

Lemma penalty_fold (query_lower text_lower : string) (table : list (string * list string)) :
  forall p,
    (fold_left
       (fun penalty kv =>
          let '(query_keyword, negative_keywords) := kv in
          if PyStr.contains query_keyword query_lower
             && existsb (fun nk => PyStr.contains nk text_lower) negative_keywords
          then (penalty * (1 # 10))%Q else penalty)
       table p
     == p * (1 # 10) ^ Z.of_nat
              (List.length
                 (List.filter
                    (fun kv => PyStr.contains (fst kv) query_lower
                               && existsb (fun nk => PyStr.contains nk text_lower) (snd kv))
                    table)))%Q.
Proof.
  induction table as [|[k negs] rest IH]; intros p; cbn [fold_left List.filter fst snd].
  - cbn [List.length Z.of_nat Qpower]. now rewrite Qmult_1_r.
  - rewrite IH.
    destruct (PyStr.contains k query_lower
              && existsb (fun nk => PyStr.contains nk text_lower) negs); [|reflexivity].
    cbn [List.length]. rewrite Nat2Z.inj_succ, <- Z.add_1_l.
    rewrite Qpower_plus by discriminate. change ((1 # 10) ^ 1)%Q with (1 # 10)%Q. ring.
Qed.

(** X9: the negative-keyword penalty is 0.1 to the power of the number of
    incompatibility keys the candidate triggers (one factor per key, however
    many of the key's terms occur): 1 when none is triggered, 0.1 for one,
    0.01 for two; it is positive and never above 1. *)
Theorem negative_penalty_is_power (query title description : string) :
  let k := List.length (Scenario.triggered query title description) in
  (Hybrid._calculate_negative_keyword_penalty query title description
   == (1 # 10) ^ Z.of_nat k)%Q
  /\ (k <= List.length Hybrid.NEGATIVE_KEYWORDS)%nat
  /\ (0 < Hybrid._calculate_negative_keyword_penalty query title description)%Q
  /\ (Hybrid._calculate_negative_keyword_penalty query title description <= 1)%Q.
Proof.
  cbn zeta. unfold Scenario.triggered. rewrite length_map.
  assert (Heq : (Hybrid._calculate_negative_keyword_penalty query title description
                 == (1 # 10) ^ Z.of_nat
                      (List.length
                         (List.filter
                            (fun kv =>
                               PyStr.contains (fst kv) (PyStr.lower query)
                               && existsb
                                    (fun nk => PyStr.contains nk
                                                 (PyStr.lower (title ++ " " ++ description)))
                                    (snd kv))
                            Hybrid.NEGATIVE_KEYWORDS)))%Q).
  { unfold Hybrid._calculate_negative_keyword_penalty. rewrite penalty_fold. ring. }
  split; [exact Heq|]. split; [apply filter_length_le|].
  split; [apply negative_penalty_pos|].
  rewrite Heq.
  match goal with |- ((1 # 10) ^ Z.of_nat ?n <= 1)%Q => generalize n end.
  intros m. induction m as [|m IHm].
  - cbn [Z.of_nat Qpower]. apply Qle_refl.
  - rewrite Nat2Z.inj_succ, <- Z.add_1_l, Qpower_plus by discriminate.
    change ((1 # 10) ^ 1)%Q with (1 # 10)%Q.
    assert (0 < (1 # 10) ^ Z.of_nat m)%Q by (apply Qpower_0_lt; lra). nra.
Qed.

(** X10: the intent boost lies between 1 and 2, and is 1 when the query
    names no intent keyword. *)
Theorem intent_boost_range (query title description : string) :
  (1 <= Hybrid._calculate_intent_boost query title description)%Q
  /\ (Hybrid._calculate_intent_boost query title description <= 2)%Q
  /\ (Hybrid._extract_intent_keywords query = [] ->
      Hybrid._calculate_intent_boost query title description = 1%Q).
Proof.
  split; [apply intent_boost_ge_one|]. split.
  - unfold Hybrid._calculate_intent_boost.
    destruct (Hybrid._extract_intent_keywords query); [lra|apply qmin_le_r].
  - intros Hnil. unfold Hybrid._calculate_intent_boost. now rewrite Hnil.
Qed.

Lemma inter_size_le (a b : list string) :
  (Hybrid.inter_size a b <= List.length a)%nat.
Proof. apply filter_length_le. Qed.

(** X11: the phrase score is 10 when the stripped lower-cased query is a
    substring of the title; otherwise it is 5, 3 or 2, or a partial-match
    value between 1 and 1.5. *)
Theorem phrase_score_values (query title description : string) :
  let s := Hybrid._calculate_phrase_score query title description in
  (PyStr.contains (PyStr.strip (PyStr.lower query)) (PyStr.lower title) = true ->
   s = 10%Q)
  /\ (s = 10%Q \/ s = 5%Q \/ s = 3%Q \/ s = 2%Q \/ (1 <= s /\ s <= 3 # 2)%Q).
Proof.
  cbn zeta. unfold Hybrid._calculate_phrase_score. split.
  - intros ->. reflexivity.
  - repeat match goal with
           | |- context [if ?c then _ else _] => destruct c eqn:?
           end; auto 6.
    + right. right. right. right.
      match goal with
      | Hc : (_ && Qle_bool _ ?r)%bool = true |- _ =>
          apply andb_true_iff in Hc; destruct Hc as [Hpos Hc]; apply Qle_bool_iff in Hc
      end.
      apply Nat.ltb_lt in Hpos.
      pose proof (inter_size_le
                    (PyStr.dedup (PyStr.findall_words (PyStr.strip (PyStr.lower query))))
                    (PyStr.dedup (PyStr.findall_words (PyStr.lower title)))) as Hle.
      split; [lra|].
      match goal with |- (1 + ?a / ?b * _ <= _)%Q =>
        assert (Hr : (a / b <= 1)%Q) end; [|lra].
      apply Qle_shift_div_r; [apply nat_Q_pos; lia|].
      rewrite Qmult_1_l. unfold Hybrid.nat_Q. rewrite <- Zle_Qle. lia.
    + right. right. right. right. lra.
Qed.

Lemma dedup_In (l : list string) (y : string) :
  List.In y (PyStr.dedup l) <-> List.In y l.
Proof.
  induction l as [|x r IH]; cbn [PyStr.dedup]; [tauto|].
  cbn [List.In]. rewrite filter_In, IH, negb_true_iff.
  destruct (String.eqb_spec x y) as [->|Hne]; split; auto.
  - intros [?|[? ?]]; auto.
  - intros [?|?]; [contradiction|auto].
Qed.

Lemma dedup_NoDup (l : list string) : List.NoDup (PyStr.dedup l).
Proof.
  induction l as [|x r IH]; cbn [PyStr.dedup]; constructor.
  - rewrite filter_In, negb_true_iff, String.eqb_refl. intros [_ Hc]. discriminate.
  - now apply List.NoDup_filter.
Qed.

Lemma extract_from_sound (query_lower : string) (order : list string) :
  match Hybrid.extract_from query_lower order with
  | (Some c, kws) =>
      exists before after own,
        order = before ++ c :: after
        /\ Hybrid.table_get c Hybrid.CATEGORY_KEYWORDS = Some own
        /\ Scenario.mentions own query_lower = true
        /\ kws = PyStr.dedup (own ++ Hybrid.alias_keywords c)
        /\ forall c' own', List.In c' before ->
             Hybrid.table_get c' Hybrid.CATEGORY_KEYWORDS = Some own' ->
             Scenario.mentions own' query_lower = false
  | (None, kws) =>
      kws = []
      /\ forall c' own', List.In c' order ->
           Hybrid.table_get c' Hybrid.CATEGORY_KEYWORDS = Some own' ->
           Scenario.mentions own' query_lower = false
  end.
Proof.
  induction order as [|c rest IH]; cbn [Hybrid.extract_from].
  - split; [reflexivity|]. intros ? ? [].
  - destruct (Hybrid.table_get c Hybrid.CATEGORY_KEYWORDS) as [own|] eqn:Hown.
    + destruct (existsb (fun keyword => PyStr.contains keyword query_lower) own) eqn:Hm.
      * exists [], rest, own. repeat split; auto. intros ? ? [].
      * destruct (Hybrid.extract_from query_lower rest) as [[c1|] kws].
        -- destruct IH as (before & after & own1 & -> & Ht & Hmen & Hk & Hbefore).
           exists (c :: before), after, own1. repeat split; auto.
           intros c' own' [<-|Hin] Hget; [|eauto].
           rewrite Hown in Hget. injection Hget as <-. exact Hm.
        -- destruct IH as [Hk Hall]. split; [exact Hk|].
           intros c' own' [<-|Hin] Hget; [|eauto].
           rewrite Hown in Hget. injection Hget as <-. exact Hm.
    + destruct (Hybrid.extract_from query_lower rest) as [[c1|] kws].
      * destruct IH as (before & after & own1 & -> & Ht & Hmen & Hk & Hbefore).
        exists (c :: before), after, own1. repeat split; auto.
        intros c' own' [<-|Hin] Hget; [congruence|eauto].
      * destruct IH as [Hk Hall]. split; [exact Hk|].
        intros c' own' [<-|Hin] Hget; [congruence|eauto].
Qed.

(** X12: the primary category is the first category of the priority order
    one of whose keywords is a substring of the lower-cased query; its
    keyword set has no duplicates and holds exactly the category's own
    keywords and those of its aliases that are categories; when no category
    of the priority order has a keyword in the query, no category and no
    keyword come back. *)
Theorem primary_category_is_first_match (query : string) :
  match Hybrid._extract_primary_category query with
  | (Some c, kws) =>
      exists before after own,
        Hybrid.priority_order = before ++ c :: after
        /\ Hybrid.table_get c Hybrid.CATEGORY_KEYWORDS = Some own
        /\ Scenario.mentions own (PyStr.lower query) = true
        /\ (forall c' own', List.In c' before ->
              Hybrid.table_get c' Hybrid.CATEGORY_KEYWORDS = Some own' ->
              Scenario.mentions own' (PyStr.lower query) = false)
        /\ List.NoDup kws
        /\ (forall kw, List.In kw kws <->
                       List.In kw own \/ List.In kw (Hybrid.alias_keywords c))
  | (None, kws) =>
      kws = []
      /\ forall c' own', List.In c' Hybrid.priority_order ->
           Hybrid.table_get c' Hybrid.CATEGORY_KEYWORDS = Some own' ->
           Scenario.mentions own' (PyStr.lower query) = false
  end.
Proof.
  unfold Hybrid._extract_primary_category.
  pose proof (extract_from_sound (PyStr.lower query) Hybrid.priority_order) as Hs.
  destruct (Hybrid.extract_from (PyStr.lower query) Hybrid.priority_order) as [[c|] kws];
    [|exact Hs].
  destruct Hs as (before & after & own & Hord & Hget & Hmen & -> & Hbefore).
  exists before, after, own. repeat split; auto using dedup_NoDup.
  - intros Hin. apply dedup_In, in_app_or in Hin. exact Hin.
  - intros Hin. apply dedup_In, in_or_app. exact Hin.
Qed.

Example primary_category_priority :
  fst (Hybrid._extract_primary_category "Sofa Bed with lamp") = Some "lighting"
  /\ fst (Hybrid._extract_primary_category "sofa bed") = Some "sofa"
  /\ Hybrid._extract_primary_category "wallet" = (None, []).
Proof. repeat split; reflexivity. Qed.

(** ** Query expansion and its memo table *)

Lemma prefix_refl (s : string) : String.prefix s s = true.
Proof.
  induction s as [|a r IH]; cbn; [reflexivity|].
  destruct (ascii_dec a a); [exact IH|contradiction].
Qed.

Lemma prefix_append (s t : string) : String.prefix s (s ++ t) = true.
Proof.
  induction s as [|a r IH]; [destruct t; reflexivity|].
  rewrite append_cons. cbn. destruct (ascii_dec a a); [exact IH|contradiction].
Qed.

Lemma join_prefix (sep x : string) (rest : list string) :
  String.prefix x (PyStr.join sep (x :: rest)) = true.
Proof.
  destruct rest as [|y r]; cbn [PyStr.join]; [apply prefix_refl|apply prefix_append].
Qed.

(** X13: the expanded query starts with the lower-cased query; it is the
    lower-cased query itself when no synonym key is a substring of it, and
    in particular when the query has no token. *)
Theorem expand_query_keeps_query (query : string) :
  String.prefix (PyStr.lower query) (Hybrid._expand_query query) = true
  /\ ((forall kv, List.In kv Hybrid.QUERY_SYNONYMS ->
                  PyStr.contains (fst kv) (PyStr.lower query) = false) ->
      Hybrid._expand_query query = PyStr.lower query)
  /\ (BM25._tokenize query = [] -> Hybrid._expand_query query = PyStr.lower query).
Proof.
  assert (Hnone : (forall kv, List.In kv Hybrid.QUERY_SYNONYMS ->
                              PyStr.contains (fst kv) (PyStr.lower query) = false) ->
                  Hybrid._expand_query query = PyStr.lower query).
  { intros Hno. unfold Hybrid._expand_query.
    assert (Hflat : forall l,
              (forall kv, List.In kv l -> List.In kv Hybrid.QUERY_SYNONYMS) ->
              flat_map (fun ws : string * list string =>
                          let '(word, synonyms) := ws in
                          if PyStr.contains word (PyStr.lower query)
                          then firstn 2 synonyms else []) l = []).
    { induction l as [|[word syns] r IH]; intros Hsub; [reflexivity|].
      cbn [flat_map].
      assert (E : PyStr.contains word (PyStr.lower query) = false)
        by (apply (Hno (word, syns)), Hsub; now left).
      rewrite E. cbn [app]. apply IH. intros kv Hin. apply Hsub. now right. }
    rewrite Hflat by auto. reflexivity. }
  split; [unfold Hybrid._expand_query; apply join_prefix|].
  split; [exact Hnone|].
  intros Hnil. apply Hnone. now apply no_tokens_no_synonym.
Qed.

Example expand_query_examples :
  Hybrid._expand_query "Cheap Couch" = "cheap couch budget affordable sofa settee"
  /\ Hybrid._expand_query "drugstore shelf" = "drugstore shelf carpet floor mat".
Proof. split; reflexivity. Qed.

Lemma cache_get_In (c : Expansion.cache) (k v : string) :
  Expansion.cache_get c k = Some v -> List.In (k, v) c.
Proof.
  induction c as [|[k' v'] r IH]; cbn; [discriminate|].
  destruct (String.eqb_spec k k') as [->|Hne].
  - intros [= ->]. now left.
  - intros Hr. right. now apply IH.
Qed.

Lemma cache_set_miss (c : Expansion.cache) (k v : string) :
  Expansion.cache_get c k = None -> Expansion.cache_set c k v = c ++ [(k, v)].
Proof.
  induction c as [|[k' v'] r IH]; cbn; [reflexivity|].
  destruct (String.eqb k k'); [discriminate|]. intros Hr. now rewrite IH.
Qed.

Lemma cache_get_tl (c : Expansion.cache) (k : string) :
  List.NoDup (map fst c) -> Expansion.cache_get c k = None ->
  Expansion.cache_get (tl c) k = None.
Proof.
  destruct c as [|[k' v'] r]; cbn; [reflexivity|].
  destruct (String.eqb k k'); [discriminate|auto].
Qed.

(** X14: on a memo table that is coherent (every entry holds the expansion of
    its key), has distinct keys and at most 200 entries, the memoised
    [_expand_query] returns what the plain expansion computes, and the
    table it leaves is again coherent, with distinct keys and at most 200
    entries, and holds the query. *)
Theorem expand_query_cache_sound (c : Expansion.cache) (query : string) :
  Expansion.coherent c ->
  List.NoDup (map fst c) ->
  (List.length c <= Expansion._cache_max_size)%nat ->
  let r := Expansion._expand_query c query in
  fst r = Hybrid._expand_query query
  /\ Expansion.coherent (snd r)
  /\ List.NoDup (map fst (snd r))
  /\ (List.length (snd r) <= Expansion._cache_max_size)%nat
  /\ Expansion.cache_get (snd r) query = Some (Hybrid._expand_query query).
Proof.
  intros Hco Hnd Hlen. unfold Expansion._expand_query.
  destruct (Expansion.cache_get c query) as [v|] eqn:Hget; cbn [fst snd].
  - pose proof (Hco _ _ (cache_get_In _ _ _ Hget)) as ->. auto.
  - split; [reflexivity|].
    set (c1 := if (Expansion._cache_max_size <=? List.length c)%nat then tl c else c).
    assert (Hget1 : Expansion.cache_get c1 query = None).
    { unfold c1. destruct (_ <=? _)%nat; [now apply cache_get_tl|exact Hget]. }
    assert (Hsub : forall kv, List.In kv c1 -> List.In kv c).
    { unfold c1. destruct (_ <=? _)%nat; [|auto]. destruct c; cbn; auto. }
    assert (Hnd1 : List.NoDup (map fst c1)).
    { unfold c1. destruct (_ <=? _)%nat; [|exact Hnd].
      destruct c; cbn in *; [constructor|]. now inversion Hnd. }
    assert (Hlen1 : (List.length c1 < Expansion._cache_max_size)%nat).
    { unfold c1. destruct (Nat.leb_spec Expansion._cache_max_size (List.length c)); [|lia].
      destruct c; cbn in *; [unfold Expansion._cache_max_size in *; lia|lia]. }
    rewrite (cache_set_miss _ _ _ Hget1). split; [|split; [|split]].
    + intros k v Hin. apply in_app_or in Hin. destruct Hin as [Hin|[[= <- <-]|[]]].
      * apply Hco, Hsub, Hin.
      * reflexivity.
    + rewrite map_app. cbn.
      apply List.NoDup_rev in Hnd1.
      rewrite <- (rev_involutive (map fst c1 ++ [query])).
      apply List.NoDup_rev. rewrite rev_app_distr. cbn. constructor; [|exact Hnd1].
      rewrite <- in_rev. intros Hin. apply in_map_iff in Hin.
      destruct Hin as ([k v] & Hk & Hin). cbn in Hk. subst k.
      clear -Hget1 Hin. induction c1 as [|[k' v'] r IH]; [destruct Hin|].
      cbn in Hget1. destruct (String.eqb_spec query k') as [->|Hne]; [discriminate|].
      destruct Hin as [[= -> ->]|Hin]; [contradiction|auto].
    + rewrite length_app. cbn. lia.
    + clear -Hget1. induction c1 as [|[k' v'] r IH]; cbn.
      * now rewrite String.eqb_refl.
      * cbn in Hget1. destruct (String.eqb query k'); [discriminate|auto].
Qed.

(** ** Hybrid search: which candidates come back *)

Lemma dict_set_keys (d : Hybrid.dict) (k : string) (e : Hybrid.Entry) :
  Scenario.keys (Hybrid.dict_set d k e)
  = if PyStr.mem k (Scenario.keys d) then Scenario.keys d else Scenario.keys d ++ [k].
Proof.
  unfold Scenario.keys, PyStr.mem.
  induction d as [|[k' e'] r IH]; cbn; [reflexivity|].
  destruct (String.eqb_spec k k') as [->|Hne]; cbn; [reflexivity|].
  rewrite IH. destruct (existsb (String.eqb k) (map fst r)); reflexivity.
Qed.

Lemma mem_In (k : string) (l : list string) : PyStr.mem k l = true <-> List.In k l.
Proof.
  unfold PyStr.mem. rewrite existsb_exists. split.
  - intros (x & Hx & Heq). apply String.eqb_eq in Heq. now subst.
  - intros Hk. exists k. split; [exact Hk|apply String.eqb_refl].
Qed.

Lemma NoDup_snoc (l : list string) (k : string) :
  List.NoDup l -> ~ List.In k l -> List.NoDup (l ++ [k]).
Proof.
  intros Hnd Hk. apply List.NoDup_rev in Hnd.
  rewrite <- (rev_involutive (l ++ [k])). apply List.NoDup_rev.
  rewrite rev_app_distr. cbn. constructor; [|exact Hnd]. now rewrite <- in_rev.
Qed.

Lemma dict_set_keys_NoDup (d : Hybrid.dict) (k : string) (e : Hybrid.Entry) :
  List.NoDup (Scenario.keys d) -> List.NoDup (Scenario.keys (Hybrid.dict_set d k e)).
Proof.
  intros Hnd. rewrite dict_set_keys. destruct (PyStr.mem k (Scenario.keys d)) eqn:Hm.
  - exact Hnd.
  - apply NoDup_snoc; [exact Hnd|]. intros Hin. apply mem_In in Hin. congruence.
Qed.

Lemma combine_scores_keys_NoDup (alpha : Q) (query : string)
    (bm25_results vector_results : list Model.Result) :
  List.NoDup (Scenario.keys
                (Hybrid.combine_scores alpha query bm25_results vector_results)).
Proof.
  unfold Hybrid.combine_scores.
  apply (fold_left_inv (fun d => List.NoDup (Scenario.keys d))).
  - apply (fold_left_inv (fun d => List.NoDup (Scenario.keys d))); [constructor|].
    intros d [rank res] Hd. unfold Hybrid.bm25_step. now apply dict_set_keys_NoDup.
  - intros d [rank res] Hd. unfold Hybrid.vector_step.
    destruct (Py.Qlt_bool _ _); [exact Hd|].
    destruct (Hybrid.dict_get d (Model.r_id res)); now apply dict_set_keys_NoDup.
Qed.

Lemma dict_get_present (d : Hybrid.dict) (k : string) :
  List.In k (Scenario.keys d) -> Hybrid.present (Hybrid.dict_get d k) = true.
Proof.
  unfold Scenario.keys. induction d as [|[k' e'] r IH]; cbn; [intros []|].
  destruct (String.eqb_spec k k') as [->|Hne]; [reflexivity|].
  intros [Heq|Hin]; [congruence|auto].
Qed.

Lemma bm25_fold_present (alpha : Q) (query : string) (qt : list string)
    (items : list (nat * Model.Result)) (d : string) :
  forall acc,
    Hybrid.present (Hybrid.dict_get (fold_left (Hybrid.bm25_step alpha query qt) items acc) d)
    = Hybrid.present (Hybrid.dict_get acc d)
      || existsb (Hybrid.appears (fun _ => true) d) items.
Proof.
  induction items as [|[rank res] rest IH]; intros acc; cbn [fold_left existsb].
  - now rewrite orb_false_r.
  - rewrite IH. unfold Hybrid.bm25_step. rewrite dict_get_set, appears_always. cbn [snd].
    rewrite (String.eqb_sym d). destruct (String.eqb (Model.r_id res) d); cbn.
    + now rewrite orb_true_r.
    + reflexivity.
Qed.

Section Returned.
Context `{Py.Runtime}.

Lemma partition_fold_keys (primary : option string) (kws : list string)
    (d : Hybrid.dict) :
  forall acc,
    let r := fold_left (Hybrid.partition_step primary kws) d acc in
    Permutation (Scenario.keys (fst r) ++ Scenario.keys (snd r))
                (Scenario.keys (fst acc) ++ Scenario.keys (snd acc) ++ Scenario.keys d).
Proof.
  unfold Scenario.keys.
  induction d as [|item rest IH]; intros acc; cbn [fold_left map].
  - cbn. now rewrite app_nil_r.
  - destruct (partition_step_shape primary kws acc item)
      as (e & _ & [[-> _] | (-> & _)]); cbn zeta in IH; rewrite IH; cbn [fst snd];
      rewrite map_app; cbn [map fst].
    + rewrite <- !app_assoc. apply Permutation_app_head. cbn.
      apply Permutation_middle.
    + rewrite <- !app_assoc. reflexivity.
Qed.

Lemma keys_sorted (d : Hybrid.dict) :
  Permutation (Scenario.keys (Py.sorted_desc Hybrid.entry_score d)) (Scenario.keys d).
Proof. unfold Scenario.keys. apply Permutation_map, sorted_desc_perm. Qed.

Lemma NoDup_app_disjoint {A : Type} (l1 l2 : list A) (a : A) :
  List.NoDup (l1 ++ l2) -> List.In a l1 -> ~ List.In a l2.
Proof.
  induction l1 as [|x r IH]; cbn; [intros _ []|].
  intros Hnd [->|Hin] Ha.
  - apply List.NoDup_cons_iff in Hnd. apply (proj1 Hnd), in_or_app. now right.
  - apply List.NoDup_cons_iff in Hnd. now apply IH.
Qed.

Lemma NoDup_firstn {A : Type} (n : nat) (l : list A) :
  List.NoDup l -> List.NoDup (firstn n l).
Proof.
  intros Hnd. rewrite <- (firstn_skipn n l) in Hnd.
  now apply List.NoDup_app_remove_r in Hnd.
Qed.

Lemma result_pool_keys (alpha : Q) (query : string)
    (bm25_results vector_results : list Model.Result) :
  let combined := Hybrid.combine_scores alpha query bm25_results vector_results in
  let pool := Hybrid.result_pool alpha query bm25_results vector_results in
  List.NoDup (Scenario.keys pool)
  /\ forall k, List.In k (Scenario.keys pool) -> List.In k (Scenario.keys combined).
Proof.
  intros combined pool. unfold pool, Hybrid.result_pool. fold combined.
  unfold Hybrid.partition_candidates.
  destruct (Hybrid._extract_primary_category (PyStr.lower query)) as [primary kws].
  pose proof (partition_fold_keys primary kws
                (Py.sorted_desc Hybrid.entry_score combined) ([], [])) as Hperm.
  cbn zeta in Hperm. cbn [fst snd Scenario.keys map app] in Hperm.
  fold (Scenario.keys (Py.sorted_desc Hybrid.entry_score combined)) in Hperm.
  rewrite keys_sorted in Hperm.
  destruct (fold_left (Hybrid.partition_step primary kws)
                      (Py.sorted_desc Hybrid.entry_score combined) ([], [])) as [m u].
  cbn [fst snd] in Hperm.
  fold (Scenario.keys m) (Scenario.keys u) in Hperm.
  assert (Hnd : List.NoDup (Scenario.keys m ++ Scenario.keys u)).
  { eapply Permutation_NoDup; [symmetry; exact Hperm|].
    apply combine_scores_keys_NoDup. }
  assert (Hkeys : Scenario.keys (Hybrid.with_fallback m u)
                  = Scenario.keys (Py.sorted_desc Hybrid.entry_score m)
                    ++ (if (List.length (Py.sorted_desc Hybrid.entry_score m) <? 3)%nat
                        then Scenario.keys
                               (firstn (3 - List.length (Py.sorted_desc Hybrid.entry_score m))
                                       (Py.sorted_desc Hybrid.entry_score u))
                        else [])).
  { rewrite with_fallback_eq. cbn zeta. destruct (_ <? 3)%nat.
    - unfold Scenario.keys. rewrite map_app, map_map. reflexivity.
    - now rewrite app_nil_r. }
  assert (Hsubu : forall n k,
            List.In k (Scenario.keys (firstn n (Py.sorted_desc Hybrid.entry_score u))) ->
            List.In k (Scenario.keys u)).
  { intros n k Hk. unfold Scenario.keys in *. apply in_map_iff in Hk.
    destruct Hk as (it & <- & Hit). apply In_firstn, sorted_desc_In in Hit.
    now apply in_map. }
  assert (Hinm : forall k, List.In k (Scenario.keys (Py.sorted_desc Hybrid.entry_score m))
                           <-> List.In k (Scenario.keys m)).
  { intros k. split; apply Permutation_in; [|symmetry]; apply keys_sorted. }
  rewrite Hkeys. split.
  - apply List.NoDup_app.
    + eapply Permutation_NoDup; [symmetry; apply keys_sorted|].
      now apply List.NoDup_app_remove_r in Hnd.
    + destruct (_ <? 3)%nat; [|constructor].
      unfold Scenario.keys. rewrite <- firstn_map. apply NoDup_firstn.
      eapply Permutation_NoDup; [symmetry; apply keys_sorted|].
      now apply List.NoDup_app_remove_l in Hnd.
    + intros k Hk1 Hk2. apply Hinm in Hk1.
      destruct (_ <? 3)%nat; [|destruct Hk2]. apply Hsubu in Hk2.
      now apply (NoDup_app_disjoint _ _ k Hnd).
  - intros k Hk. apply (Permutation_in k Hperm). apply in_app_or in Hk.
    apply in_or_app. destruct Hk as [Hk|Hk]; [left; now apply Hinm|].
    destruct (_ <? 3)%nat; [|destruct Hk]. right. now apply Hsubu in Hk.
Qed.

Lemma rank_ids (alpha : Q) (query : string) (limit : nat)
    (bm25_results vector_results : list Model.Result) :
  exists picked,
    Permutation (map Hybrid.f_id picked)
                (Scenario.keys
                   (firstn (limit + 5)
                           (Hybrid.result_pool alpha query bm25_results vector_results)))
    /\ Hybrid.rank alpha query limit bm25_results vector_results = firstn limit picked.
Proof.
  unfold Hybrid.rank. rewrite final_loop_map.
  eexists. split; [|reflexivity].
  rewrite (Permutation_map Hybrid.f_id (sorted_desc_perm Hybrid.f_score _)).
  rewrite map_map. unfold Scenario.keys.
  erewrite map_ext; [reflexivity|]. intros [k e]. reflexivity.
Qed.

(** X15: hybrid search never returns an id twice, whatever the two branches
    answer (also when an id occurs in both, or several times in one). *)
Theorem rank_ids_distinct (alpha : Q) (query : string) (limit : nat)
    (bm25_results vector_results : list Model.Result) :
  List.NoDup (map Hybrid.f_id
                (Hybrid.rank alpha query limit bm25_results vector_results)).
Proof.
  destruct (rank_ids alpha query limit bm25_results vector_results) as (picked & Hperm & ->).
  rewrite <- firstn_map. apply NoDup_firstn.
  eapply Permutation_NoDup; [symmetry; exact Hperm|].
  unfold Scenario.keys. rewrite <- firstn_map. apply NoDup_firstn.
  apply (result_pool_keys alpha query bm25_results vector_results).
Qed.

(** X16: every id hybrid search returns survived retrieval: it is in the
    lexical answer, or in the semantic answer at distance at most 0.85; a
    document that only the semantic branch found beyond that distance is
    never returned. *)
Theorem rank_returns_retrieved (alpha : Q) (query : string) (limit : nat)
    (bm25_results vector_results : list Model.Result) (f : Hybrid.Final) :
  List.In f (Hybrid.rank alpha query limit bm25_results vector_results) ->
  Hybrid.retrieved bm25_results vector_results (Hybrid.f_id f) = true.
Proof.
  intros Hf. apply rank_from_pool in Hf. destruct Hf as ([k e] & Hpool & ->). cbn.
  assert (Hk : List.In k (Scenario.keys
                            (Hybrid.combine_scores alpha query bm25_results vector_results))).
  { apply (result_pool_keys alpha query bm25_results vector_results).
    unfold Scenario.keys. apply in_map_iff. exists (k, e). auto. }
  apply dict_get_present in Hk. unfold Hybrid.combine_scores in Hk.
  destruct (vector_fold_score alpha query (Hybrid.enumerate1 vector_results) k
              (fold_left (Hybrid.bm25_step alpha query
                            (Hybrid.query_terms_of (PyStr.lower query)))
                         (Hybrid.enumerate1 bm25_results) [])) as [Hp _].
  rewrite Hp, bm25_fold_present in Hk. exact Hk.
Qed.

End Returned.

(** ** The catalogue facade: ingestion, lookup and clearing *)

Section Lookup.
Context {V : Type}.

Lemma fold_insert_miss {D : Type} (key : D -> string) (val : D -> V) (docs : list D)
    (k : string) :
  forall m : gmap string V,
    ~ List.In k (map key docs) ->
    fold_left (fun acc doc => <[key doc := val doc]> acc) docs m !! k = m !! k.
Proof.
  induction docs as [|d r IH]; intros m Hk; cbn [fold_left]; [reflexivity|].
  cbn in Hk. rewrite IH by tauto. apply lookup_insert_ne. intros Heq. apply Hk. now left.
Qed.

Lemma fold_insert_hit {D : Type} (key : D -> string) (val : D -> V) (docs : list D)
    (d : D) :
  forall m : gmap string V,
    List.NoDup (map key docs) -> List.In d docs ->
    fold_left (fun acc doc => <[key doc := val doc]> acc) docs m !! key d = Some (val d).
Proof.
  induction docs as [|x r IH]; intros m Hnd Hd; cbn [fold_left]; [destruct Hd|].
  cbn in Hnd. apply List.NoDup_cons_iff in Hnd. destruct Hnd as [Hx Hnd].
  destruct Hd as [->|Hd].
  - rewrite fold_insert_miss by exact Hx. apply lookup_insert_eq.
  - now apply IH.
Qed.

End Lookup.

Section FacadeProps.
Context `{Py.Runtime} `{Index.Scorer} `{Index.Pickle} `{Vector.Backend}.



Lemma save_keeps_rows (idx : Index.BM25Index) (env : Index.Env) :
  Index.products (Index.save idx env) = Index.products env
  /\ Index.specs (Index.save idx env) = Index.specs env.
Proof. unfold Index.save. destruct (Index.bm25 idx); split; reflexivity. Qed.



(** X18: [clearAll] leaves a catalogue in which no sku is found, both
    lexical indexes have neither scorer nor ids nor an artifact on disk,
    both semantic collections are empty, and the lexical search of the
    products index answers every query with the empty list. *)
Theorem clearAll_empties_catalogue (c : Catalog.CatalogIndexer)
    (sku query : string) (limit : nat) :
  let c' := Facade.clearAll c in
  Facade.getProductById c' sku = None
  /\ Index.specs (Catalog.env c') = ∅
  /\ Index.bm25 (Catalog.products_bm25 c') = None
  /\ Index.doc_ids (Catalog.products_bm25 c') = []
  /\ Index.bm25 (Catalog.specs_bm25 c') = None
  /\ Index.doc_ids (Catalog.specs_bm25 c') = []
  /\ Index.disk (Catalog.env c') !! Index.index_path (Catalog.products_bm25 c) = None
  /\ Index.disk (Catalog.env c') !! Index.index_path (Catalog.specs_bm25 c) = None
  /\ Vector.collection (Catalog.products_vector c') = ∅
  /\ Vector.collection (Catalog.specs_vector c') = ∅
  /\ Index.answer (Index.search (Catalog.products_bm25 c') (Catalog.env c') query limit)
     = Py.Ok [].
Proof.
  cbn. unfold Facade.getProductById. cbn.
  assert (Hp : delete (Index.index_path (Catalog.specs_bm25 c))
                 (delete (Index.index_path (Catalog.products_bm25 c))
                    (Index.disk (Catalog.env c)))
               !! Index.index_path (Catalog.products_bm25 c) = None).
  { apply lookup_delete_None. right. apply lookup_delete_eq. }
  repeat (split; [first [reflexivity | exact Hp | apply lookup_delete_eq]|]).
  unfold Index.search, Index.load. cbn.
  unfold Index.index_path in *. cbn. rewrite Hp. reflexivity.
Qed.

End FacadeProps.

(** ** Result filters: further properties *)

Section FilterProps.
Context `{Py.Runtime}.

Lemma tags_filter_lower (prod_tags_lower ts : list string) :
  existsb (fun t => PyStr.mem (PyStr.lower t) prod_tags_lower) (map PyStr.lower ts)
  = existsb (fun t => PyStr.mem (PyStr.lower t) prod_tags_lower) ts.
Proof. induction ts as [|x r IH]; cbn; [reflexivity|]. now rewrite IH, lower_idem. Qed.

Lemma passes_lower_filters (f : Searcher.Filters) (p : Searcher.Product) :
  Searcher.passes (Scenario.lower_filters f) p = Searcher.passes f p.
Proof.
  unfold Searcher.passes, Scenario.lower_filters.
  destruct f as [lo hi v cat col mat st room ts stock]; cbn [Searcher.price_min
    Searcher.price_max Searcher.vendor Searcher.category Searcher.color
    Searcher.material Searcher.style Searcher.room_type Searcher.tags
    Searcher.in_stock].
  destruct v, cat, col, mat, st, room, ts;
    cbn [fmap option_fmap option_map Searcher.check];
    rewrite ?lower_idem, ?tags_filter_lower; reflexivity.
Qed.

(** X19: [_apply_filters] keeps the order of the results and only removes
    elements; with a filter map without keys it returns the list unchanged;
    applying the same filters to its own output changes nothing; and the
    text values of the filter map are compared without regard to case. *)
Theorem apply_filters_stable (results : list Searcher.Product) (f : Searcher.Filters) :
  sublist (Searcher._apply_filters results f) results
  /\ Searcher._apply_filters results Scenario.no_filters = results
  /\ Searcher._apply_filters (Searcher._apply_filters results f) f
     = Searcher._apply_filters results f
  /\ Searcher._apply_filters results (Scenario.lower_filters f)
     = Searcher._apply_filters results f.
Proof.
  rewrite !apply_filters_filter. split; [|split; [|split]].
  - induction results as [|x r IH]; cbn; [constructor|].
    destruct (Searcher.passes f x); [now apply sublist_skip|now apply sublist_cons].
  - induction results as [|x r IH]; cbn; [reflexivity|]. now rewrite IH.
  - induction results as [|x r IH]; cbn; [reflexivity|].
    destruct (Searcher.passes f x) eqn:Hx; cbn; [rewrite Hx, IH|]; auto.
  - apply filter_ext. intros p. apply passes_lower_filters.
Qed.

(** X20: a product whose tags arrive as the JSON text of a list (as the
    semantic index stores them) is filtered exactly as the same product with
    the list itself, provided the JSON text reads back as that list. *)
Theorem json_tags_filtered_as_list (f : Searcher.Filters) (p : Searcher.Product)
    (l : list string) :
  Py.json_loads (Py.json_dumps l) = Some l ->
  Searcher.passes f (Scenario.with_tags p (Some (Py.TagText (Py.json_dumps l))))
  = Searcher.passes f (Scenario.with_tags p (Some (Py.TagList l))).
Proof.
  intros Hrt. unfold Searcher.passes, Scenario.with_tags.
  cbn [Searcher.p_tags Searcher.p_description Searcher.p_price Searcher.p_vendor
       Searcher.p_category Searcher.p_type Searcher.p_name Searcher.p_in_stock
       Searcher._parse_tags].
  rewrite Hrt. reflexivity.
Qed.

End FilterProps.

(** ** The product searcher *)

(** [find] answers with the first element that passes the test. *)
Lemma find_first_split {A : Type} (test : A -> bool) (l : list A) :
  match find test l with
  | Some x =>
      exists before after,
        l = before ++ x :: after /\ test x = true
        /\ forall y, List.In y before -> test y = false
  | None => forall y, List.In y l -> test y = false
  end.
Proof.
  induction l as [|a r IH]; cbn; [intros y []|].
  destruct (test a) eqn:Ha.
  - exists [], r. split; [reflexivity|]. split; [exact Ha|intros y []].
  - destruct (find test r) as [x|].
    + destruct IH as (before & after & -> & Hx & Hb).
      exists (a :: before), after. split; [reflexivity|]. split; [exact Hx|].
      intros y [<-|Hy]; auto.
    + intros y [<-|Hy]; auto.
Qed.

Section SearcherProps.
Context `{Py.Runtime} `{Index.Scorer} `{Index.Pickle} `{Vector.Backend}
        `{ProductSearch.Repr}.

Lemma searcher_cache_get_set (c : ProductSearch.cache) (k : string)
    (v : list Searcher.Product) :
  ProductSearch.cache_get (ProductSearch.cache_set c k v) k = Some v.
Proof.
  induction c as [|[k' v'] r IH]; cbn.
  - now rewrite String.eqb_refl.
  - destruct (String.eqb k k') eqn:Hk; cbn; rewrite Hk; [reflexivity|exact IH].
Qed.

Lemma searcher_cache_set_length (c : ProductSearch.cache) (k : string)
    (v : list Searcher.Product) :
  (List.length (ProductSearch.cache_set c k v) <= S (List.length c))%nat.
Proof.
  induction c as [|[k' v'] r IH]; cbn; [lia|].
  destruct (String.eqb k k'); cbn; lia.
Qed.

Lemma passes_empty_filters (f : Searcher.Filters) (p : Searcher.Product) :
  ProductSearch.is_empty f = true -> Searcher.passes f p = true.
Proof.
  destruct f as [lo hi v cat col mat st room ts stock].
  unfold ProductSearch.is_empty. cbn.
  destruct lo; [discriminate|]. destruct hi; [discriminate|].
  destruct v; [discriminate|]. destruct cat; [discriminate|].
  destruct col; [discriminate|]. destruct mat; [discriminate|].
  destruct st; [discriminate|]. destruct room; [discriminate|].
  destruct ts; [discriminate|]. destruct stock; [discriminate|].
  reflexivity.
Qed.

Lemma filter_sublist {A : Type} (test : A -> bool) (l : list A) :
  sublist (List.filter test l) l.
Proof.
  induction l as [|x r IH]; cbn; [constructor|].
  destruct (test x); [now apply sublist_skip|now apply sublist_cons].
Qed.

Lemma firstn_sublist {A : Type} (n : nat) (l : list A) : sublist (firstn n l) l.
Proof.
  revert n. induction l as [|x r IH]; intros [|n]; cbn; try constructor.
  - apply sublist_nil_l.
  - apply IH.
Qed.

Lemma sorted_text_nil (l : list string) : PyText.sorted l = [] -> l = [].
Proof.
  destruct l as [|x r]; [reflexivity|]. cbn [PyText.sorted fold_right].
  fold (PyText.sorted r). destruct (PyText.sorted r) as [|y t]; cbn; [discriminate|].
  destruct (String.ltb x y); discriminate.
Qed.

(** The list [search] cuts to [limit]: the formatted results that pass the
    filters in force. *)
Lemma filtered_results (f : Searcher.Filters) (formatted : list Searcher.Product) :
  (if ProductSearch.is_empty f then formatted
   else Searcher._apply_filters formatted f)
  = List.filter (Searcher.passes f) formatted.
Proof.
  rewrite apply_filters_filter. destruct (ProductSearch.is_empty f) eqn:He; [|reflexivity].
  induction formatted as [|x r IH]; cbn; [reflexivity|].
  now rewrite (passes_empty_filters f x He), <- IH.
Qed.

(** The outcome of [search] when the key is not in the cache. *)
Lemma search_miss (s : ProductSearch.ProductSearcher) (query : string) (limit : nat)
    (filters : option Searcher.Filters) (s1 : ProductSearch.ProductSearcher)
    (r1 : ProductSearch.Response) :
  ProductSearch.cache_get (ProductSearch._cache s)
    (ProductSearch.cache_key query limit filters) = None ->
  ProductSearch.search s query limit filters = Py.Ok (s1, r1) ->
  exists results,
    Catalog.searchProducts (ProductSearch.catalog s) query (Nat.min (limit * 8) 100)
    = Py.Ok (ProductSearch.catalog s1, results)
    /\ let effective := ProductSearch.auto_detect query (Py.get filters Scenario.no_filters) in
       let final :=
         firstn limit (List.filter (Searcher.passes effective)
                         (map ProductSearch.format_result results)) in
       ProductSearch._cache s1
       = ProductSearch.cache_set
           (if (ProductSearch._cache_max_size <=? List.length (ProductSearch._cache s))%nat
            then tl (ProductSearch._cache s) else ProductSearch._cache s)
           (ProductSearch.cache_key query limit filters) final
       /\ (r1 = ProductSearch.Products final
           \/ exists color available,
                r1 = ProductSearch.NoColorMatch color (PyText.sorted available)
                /\ final = [] /\ available <> []
                /\ Searcher.color effective = Some color /\ color <> ""
                /\ available
                   = ProductSearch.available_colors_of
                       (map ProductSearch.format_result results)).
Proof.
  intros Hmiss Hs. unfold ProductSearch.search in Hs. rewrite Hmiss in Hs.
  destruct (Catalog.searchProducts (ProductSearch.catalog s) query (Nat.min (limit * 8) 100))
    as [[catalog' results]|e]; [|discriminate Hs].
  cbn [Py.bind] in Hs. rewrite filtered_results in Hs. exists results. cbv zeta.
  remember (ProductSearch.auto_detect query (Py.get filters Scenario.no_filters))
    as effective eqn:Heff.
  remember (firstn limit (List.filter (Searcher.passes effective)
                            (map ProductSearch.format_result results)))
    as final eqn:Hfin.
  remember (if (ProductSearch._cache_max_size <=? List.length (ProductSearch._cache s))%nat
            then tl (ProductSearch._cache s) else ProductSearch._cache s)
    as cache1 eqn:Hcache1.
  destruct (ProductSearch.truthy_text
              (if ProductSearch.is_empty effective then None
               else Searcher.color effective)) as [color|] eqn:Hcolor.
  - assert (Hc : Searcher.color effective = Some color /\ color <> "").
    { destruct (ProductSearch.is_empty effective); [discriminate|].
      destruct (Searcher.color effective) as [[|a r]|]; cbn in Hcolor; try discriminate.
      injection Hcolor as <-. split; [reflexivity|discriminate]. }
    cbn [ProductSearch.present] in Hs.
    destruct final as [|x r].
    + destruct (ProductSearch.available_colors_of (map ProductSearch.format_result results))
        as [|a av] eqn:Hav.
      * injection Hs as <- <-. cbn [ProductSearch.catalog ProductSearch._cache].
        split; [reflexivity|]. split; [subst cache1; reflexivity|]. now left.
      * injection Hs as <- <-. cbn [ProductSearch.catalog ProductSearch._cache].
        split; [reflexivity|]. split; [subst cache1; reflexivity|].
        right. exists color, (a :: av). destruct Hc. repeat split; auto; discriminate.
    + injection Hs as <- <-. cbn [ProductSearch.catalog ProductSearch._cache].
      split; [reflexivity|]. split; [subst cache1; reflexivity|]. now left.
  - assert (Hr : r1 = ProductSearch.Products final
                 /\ s1 = {| ProductSearch.catalog := catalog';
                            ProductSearch._cache :=
                              ProductSearch.cache_set cache1
                                (ProductSearch.cache_key query limit filters) final |}).
    { destruct final; injection Hs as <- <-; auto. }
    destruct Hr as [-> ->]. cbn [ProductSearch.catalog ProductSearch._cache].
    split; [reflexivity|]. split; [subst cache1; reflexivity|]. now left.
Qed.

(** X21: a call of [search] that finds nothing in the cache returns at most
    [limit] products; they are formatted hybrid results for the query with
    limit min(8 * limit, 100), in the order hybrid search gave them, and each
    passes the filters in force, which are the given ones completed by what
    is detected in the query. A no-colour-match notice is returned only when
    no product is left. *)
Theorem search_results_bounded_and_filtered
    (s : ProductSearch.ProductSearcher) (query : string) (limit : nat)
    (filters : option Searcher.Filters) (s1 : ProductSearch.ProductSearcher)
    (r1 : ProductSearch.Response) :
  ProductSearch.cache_get (ProductSearch._cache s)
    (ProductSearch.cache_key query limit filters) = None ->
  ProductSearch.search s query limit filters = Py.Ok (s1, r1) ->
  exists results,
    Catalog.searchProducts (ProductSearch.catalog s) query (Nat.min (limit * 8) 100)
    = Py.Ok (ProductSearch.catalog s1, results)
    /\ (List.length (ProductSearch.products_of r1) <= limit)%nat
    /\ sublist (ProductSearch.products_of r1) (map ProductSearch.format_result results)
    /\ (forall p, List.In p (ProductSearch.products_of r1) ->
          Searcher.passes
            (ProductSearch.auto_detect query (Py.get filters Scenario.no_filters)) p = true)
    /\ (forall color available,
          r1 = ProductSearch.NoColorMatch color available ->
          available <> []
          /\ firstn limit
               (List.filter
                  (Searcher.passes
                     (ProductSearch.auto_detect query (Py.get filters Scenario.no_filters)))
                  (map ProductSearch.format_result results)) = []).
Proof.
  intros Hmiss Hs. destruct (search_miss s query limit filters s1 r1 Hmiss Hs)
    as (results & Hcat & _ & Hr).
  exists results. split; [exact Hcat|].
  destruct Hr as [->|(color & available & -> & Hnil & Hne & _ & _ & Hav)];
    cbn [ProductSearch.products_of].
  - split; [apply firstn_le_length|]. split.
    + etransitivity; [apply firstn_sublist|apply filter_sublist].
    + split.
      * intros p Hp. apply In_firstn in Hp. now apply filter_In in Hp.
      * intros color available [=].
  - split; [cbn; lia|]. split; [apply sublist_nil_l|]. split; [intros p []|].
    intros c a [= <- <-]. split; [|exact Hnil].
    intros Hs'. apply Hne. now apply sorted_text_nil.
Qed.

(** X22: whatever a call of [search] answers, a later call whose arguments
    give the same cache key is answered from the cache, without a catalogue
    search and without a change of state, by the product list of the first
    answer; after a no-colour-match notice the repeated call answers with
    the empty product list instead of the notice. *)
Theorem search_replays_cached_list
    (s : ProductSearch.ProductSearcher) (query : string) (limit : nat)
    (filters : option Searcher.Filters) (s1 : ProductSearch.ProductSearcher)
    (r1 : ProductSearch.Response)
    (query' : string) (limit' : nat) (filters' : option Searcher.Filters) :
  ProductSearch.search s query limit filters = Py.Ok (s1, r1) ->
  ProductSearch.cache_key query' limit' filters'
  = ProductSearch.cache_key query limit filters ->
  ProductSearch.search s1 query' limit' filters'
  = Py.Ok (s1, ProductSearch.Products (ProductSearch.products_of r1))
  /\ (forall color available,
        r1 = ProductSearch.NoColorMatch color available ->
        ProductSearch.search s1 query' limit' filters'
        = Py.Ok (s1, ProductSearch.Products [])).
Proof.
  intros Hs Hkey.
  assert (Hreplay : ProductSearch.search s1 query' limit' filters'
                    = Py.Ok (s1, ProductSearch.Products (ProductSearch.products_of r1))).
  { destruct (ProductSearch.cache_get (ProductSearch._cache s)
                (ProductSearch.cache_key query limit filters)) as [cached|] eqn:Hget.
    - unfold ProductSearch.search in Hs. rewrite Hget in Hs. injection Hs as <- <-.
      unfold ProductSearch.search. rewrite Hkey, Hget. reflexivity.
    - destruct (search_miss s query limit filters s1 r1 Hget Hs)
        as (results & _ & Hcache & Hr). cbn zeta in Hcache, Hr.
      unfold ProductSearch.search. rewrite Hkey, Hcache, searcher_cache_get_set.
      destruct Hr as [->|(color & available & -> & -> & _)]; reflexivity. }
  split; [exact Hreplay|]. intros color available ->. exact Hreplay.
Qed.

Lemma passes_tags (f : Searcher.Filters) (p : Searcher.Product) :
  Searcher.passes f p = true ->
  Searcher.check (Searcher.tags f)
    (fun ts => existsb (fun t => PyStr.mem (PyStr.lower t)
                                   (map PyStr.lower (Searcher._parse_tags (Searcher.p_tags p))))
                       ts) = true.
Proof.
  unfold Searcher.passes. intros Hp.
  apply andb_true_iff in Hp. destruct Hp as [Hp _].
  apply andb_true_iff in Hp. destruct Hp as [_ Hp]. exact Hp.
Qed.

(** X23: a call of [search_by_category] that finds nothing in the cache
    returns only products that carry the category among their tags, case
    ignored. *)
Theorem search_by_category_results_tagged
    (s : ProductSearch.ProductSearcher) (category : string) (limit : nat)
    (s1 : ProductSearch.ProductSearcher) (r1 : ProductSearch.Response)
    (p : Searcher.Product) :
  ProductSearch.cache_get (ProductSearch._cache s)
    (ProductSearch.cache_key category limit
       (Some (ProductSearch.category_filters category))) = None ->
  ProductSearch.search_by_category s category limit = Py.Ok (s1, r1) ->
  List.In p (ProductSearch.products_of r1) ->
  PyStr.mem (PyStr.lower category)
    (map PyStr.lower (Searcher._parse_tags (Searcher.p_tags p))) = true.
Proof.
  intros Hmiss Hs Hp. unfold ProductSearch.search_by_category in Hs.
  destruct (search_miss s category limit _ s1 r1 Hmiss Hs) as (results & _ & _ & Hr).
  cbn zeta in Hr.
  destruct Hr as [->|(color & available & -> & _)]; cbn [ProductSearch.products_of] in Hp;
    [|destruct Hp].
  apply In_firstn, filter_In in Hp. destruct Hp as [_ Hp].
  apply passes_tags in Hp. cbn in Hp. now rewrite orb_false_r in Hp.
Qed.

(** X25: the result cache never holds more than 500 entries: a call of
    [search] on a cache within the bound leaves it within the bound. *)
Theorem search_cache_bounded (s : ProductSearch.ProductSearcher) (query : string)
    (limit : nat) (filters : option Searcher.Filters)
    (s1 : ProductSearch.ProductSearcher) (r1 : ProductSearch.Response) :
  (List.length (ProductSearch._cache s) <= ProductSearch._cache_max_size)%nat ->
  ProductSearch.search s query limit filters = Py.Ok (s1, r1) ->
  (List.length (ProductSearch._cache s1) <= ProductSearch._cache_max_size)%nat.
Proof.
  intros Hlen Hs.
  destruct (ProductSearch.cache_get (ProductSearch._cache s)
              (ProductSearch.cache_key query limit filters)) as [cached|] eqn:Hget.
  - unfold ProductSearch.search in Hs. rewrite Hget in Hs. now injection Hs as <- <-.
  - destruct (search_miss s query limit filters s1 r1 Hget Hs) as (results & _ & Hcache & _).
    cbn zeta in Hcache. rewrite Hcache.
    eapply Nat.le_trans; [apply searcher_cache_set_length|].
    destruct (ProductSearch._cache_max_size <=? List.length (ProductSearch._cache s))%nat
      eqn:Hfull.
    + apply Nat.leb_le in Hfull. unfold ProductSearch._cache_max_size in *.
      destruct (ProductSearch._cache s); cbn in *; lia.
    + apply Nat.leb_gt in Hfull. lia.
Qed.

End SearcherProps.

(** ** Filters detected in the query *)

Lemma number_from_nonneg (digits : string) :
  forall acc, (0 <= acc)%Z -> (0 <= PyText.number_from acc digits)%Z.
Proof.
  induction digits as [|a r IH]; intros acc Hacc; cbn; [exact Hacc|].
  apply IH. unfold PyText.digit_value. lia.
Qed.

Lemma detect_price_nonneg (query_lower : string) (v : Q) :
  ProductSearch.detect_price query_lower = Some v -> (0 <= v)%Q.
Proof.
  unfold ProductSearch.detect_price.
  destruct (ProductSearch.first_some _ ProductSearch.PRICE_PATTERNS) as [digits|].
  - intros [= <-]. unfold PyText.float_of_digits, Qle. cbn [Qnum Qden inject_Z].
    pose proof (number_from_nonneg digits 0 (Z.le_refl 0)). lia.
  - destruct (find _ ProductSearch.SUBJECTIVE_PRICE_MAP) as [[term price]|] eqn:Hfind;
      [|discriminate].
    intros [= <-]. apply find_some in Hfind. destruct Hfind as [Hin _].
    cbn in Hin.
    repeat (destruct Hin as [Hin|Hin]; [injection Hin as _ <-; discriminate|]).
    destruct Hin.
Qed.

Lemma fill_fill {A : Type} (given detected : option A) :
  ProductSearch.fill (ProductSearch.fill given detected) detected
  = ProductSearch.fill given detected.
Proof. now destruct given, detected. Qed.

(** X24: the detection of filters in the query never replaces a filter that
    was given; it can only add a colour, a material, a room type and a
    highest price; a detected colour or room type is the first keyword of
    its list that occurs in the lower-cased query, a detected material the
    first that occurs there between blanks or text ends, and without any
    such keyword nothing is detected; a detected price is not negative;
    detecting a second time, or on the lower-cased query, changes nothing. *)
Theorem auto_detect_respects_given (query : string) (f : Searcher.Filters) :
  let g := ProductSearch.auto_detect query f in
  let q := PyStr.lower query in
  (Searcher.price_min g = Searcher.price_min f /\ Searcher.vendor g = Searcher.vendor f
   /\ Searcher.category g = Searcher.category f /\ Searcher.style g = Searcher.style f
   /\ Searcher.tags g = Searcher.tags f /\ Searcher.in_stock g = Searcher.in_stock f)
  /\ ((forall v, Searcher.color f = Some v -> Searcher.color g = Some v)
      /\ (forall v, Searcher.material f = Some v -> Searcher.material g = Some v)
      /\ (forall v, Searcher.room_type f = Some v -> Searcher.room_type g = Some v)
      /\ (forall v, Searcher.price_max f = Some v -> Searcher.price_max g = Some v))
  /\ (Searcher.color f = None ->
      match Searcher.color g with
      | Some c =>
          exists before after,
            ProductSearch.COLOR_KEYWORDS = before ++ c :: after
            /\ PyStr.contains c q = true
            /\ forall c', List.In c' before -> PyStr.contains c' q = false
      | None => forall c', List.In c' ProductSearch.COLOR_KEYWORDS ->
                           PyStr.contains c' q = false
      end)
  /\ (Searcher.material f = None ->
      match Searcher.material g with
      | Some m =>
          exists before after,
            ProductSearch.MATERIAL_KEYWORDS = before ++ m :: after
            /\ PyStr.contains (" " ++ m ++ " ") (" " ++ q ++ " ") = true
            /\ forall m', List.In m' before ->
                 PyStr.contains (" " ++ m' ++ " ") (" " ++ q ++ " ") = false
      | None => forall m', List.In m' ProductSearch.MATERIAL_KEYWORDS ->
                           PyStr.contains (" " ++ m' ++ " ") (" " ++ q ++ " ") = false
      end)
  /\ (Searcher.room_type f = None ->
      match Searcher.room_type g with
      | Some r =>
          exists before after,
            ProductSearch.ROOM_KEYWORDS = before ++ r :: after
            /\ PyStr.contains r q = true
            /\ forall r', List.In r' before -> PyStr.contains r' q = false
      | None => forall r', List.In r' ProductSearch.ROOM_KEYWORDS ->
                           PyStr.contains r' q = false
      end)
  /\ (Searcher.price_max f = None ->
      forall v, Searcher.price_max g = Some v -> (0 <= v)%Q)
  /\ ProductSearch.auto_detect query g = g
  /\ ProductSearch.auto_detect (PyStr.lower query) f = g.
Proof.
  cbn zeta. unfold ProductSearch.auto_detect.
  cbn [Searcher.price_min Searcher.price_max Searcher.vendor Searcher.category
       Searcher.color Searcher.material Searcher.style Searcher.room_type
       Searcher.tags Searcher.in_stock].
  split; [repeat split|]. split.
  { repeat split; intros v ->; reflexivity. }
  split.
  { intros ->. cbn [ProductSearch.fill]. unfold ProductSearch.detect_color.
    apply find_first_split. }
  split.
  { intros ->. cbn [ProductSearch.fill]. unfold ProductSearch.detect_material.
    apply (find_first_split
             (fun mat => PyStr.contains (" " ++ mat ++ " ") (" " ++ PyStr.lower query ++ " "))). }
  split.
  { intros ->. cbn [ProductSearch.fill]. unfold ProductSearch.detect_room.
    apply find_first_split. }
  split.
  { intros -> v. cbn [ProductSearch.fill]. apply detect_price_nonneg. }
  split.
  - now rewrite !fill_fill.
  - now rewrite lower_idem.
Qed.


(** ** Worked runs of the statements above *)

Section ExtraRuns.
Import Sample.

(** The bigram of "Gaming chair" is a token of the second kind. *)
Lemma tokenize_token_kinds_witness :
  List.In "gaming_chair" (BM25._tokenize "Gaming chair")
  /\ ((List.In "gaming_chair" (PyStr.findall_words (PyStr.lower "Gaming chair"))
       /\ (3 <= String.length "gaming_chair")%nat /\ BM25.is_stop "gaming_chair" = false)
      \/ (exists x y,
            List.In x (PyStr.findall_words (PyStr.lower "Gaming chair"))
            /\ List.In y (PyStr.findall_words (PyStr.lower "Gaming chair"))
            /\ "gaming_chair" = (x ++ "_" ++ y)%string
            /\ (BM25.is_keyword x = true \/ BM25.is_keyword y = true))).
Proof.
  assert (Hin : List.In "gaming_chair" (BM25._tokenize "Gaming chair"))
    by (vm_compute; right; right; left; reflexivity).
  split; [exact Hin|]. exact (tokenize_token_kinds "Gaming chair" "gaming_chair" Hin).
Defined.

(** The index of the one-chair catalogue, saved and loaded into a new index
    object of the same name. *)
Lemma save_then_load_restores_witness :
  let idx := Catalog.products_bm25 one_chair in
  let env := Catalog.env one_chair in
  (forall d, Index.pickle_load (Index.pickle_dump d) = Some (Index.PDict d))
  /\ Index.bm25 idx
     = Some {| Index.fitted_corpus := [BM25._tokenize "Club Chair  leather armchair"] |}
  /\ exists loaded,
       Index.load (Index.init "products_index") (Index.save idx env)
       = Py.Ok (loaded, Index.save idx env)
       /\ Index.doc_ids loaded = ["C1"].
Proof.
  intros idx env.
  assert (Hround : forall d, Index.pickle_load (Index.pickle_dump d) = Some (Index.PDict d))
    by reflexivity.
  assert (Hscorer : Index.bm25 idx
                    = Some {| Index.fitted_corpus :=
                                [BM25._tokenize "Club Chair  leather armchair"] |})
    by (vm_compute; reflexivity).
  split; [exact Hround|]. split; [exact Hscorer|].
  destruct (save_then_load_restores idx (Index.init "products_index") env _
              Hround Hscorer eq_refl) as (loaded & Hload & _ & Hids & _).
  exists loaded. split; [exact Hload|]. rewrite Hids. reflexivity.
Defined.

(** A lexical search of the one-chair catalogue. *)
Lemma index_search_sound_witness :
  let idx := Catalog.products_bm25 one_chair in
  let env := Catalog.env one_chair in
  exists results,
    Index.search idx env "leather chair" 5 = Py.Ok (idx, env, results)
    /\ map Model.r_id results = ["C1"]
    /\ (List.length results <= 5)%nat
    /\ Py.descending Model.r_score results.
Proof.
  intros idx env.
  set (results := match Index.search idx env "leather chair" 5 with
                  | Py.Ok (_, _, rs) => rs
                  | Py.Raise _ => []
                  end).
  assert (Hs : Index.search idx env "leather chair" 5 = Py.Ok (idx, env, results))
    by (vm_compute; reflexivity).
  exists results. split; [exact Hs|]. split; [vm_compute; reflexivity|].
  destruct (index_search_sound idx idx env env "leather chair" 5 results Hs) as (A & B & _).
  split; [exact A|exact B].
Defined.

(** The one-chair index cleared and fed two new batches: the scorer ends up
    fitted on the chair's tokens and the second batch's. *)
Lemma clear_keeps_corpus_witness :
  let idx := Catalog.products_bm25 one_chair in
  let env := Catalog.env one_chair in
  let old := [BM25._tokenize "Club Chair  leather armchair"] in
  let first := Catalog.unique_documents [product "D1" "Oak Desk" 300 "solid oak"] in
  let second := Catalog.unique_documents [product "S1" "Bar Stool" 90 "steel frame"] in
  let cleared := Index.clear idx env in
  let one := Index.add_documents (fst cleared) (snd cleared) first in
  let two := Index.add_documents (fst one) (snd one) second in
  Index.corpus idx = Some old /\ first <> [] /\ second <> []
  /\ Index.doc_ids (fst two) = ["D1"; "S1"]
  /\ Index.bm25 (fst two)
     = Some {| Index.fitted_corpus := old ++ Scenario.tokens_of second |}.
Proof.
  intros idx env old first second cleared one two.
  assert (Hc : Index.corpus idx = Some old) by (vm_compute; reflexivity).
  assert (Hf : first <> []) by (vm_compute; discriminate).
  assert (Hs : second <> []) by (vm_compute; discriminate).
  split; [exact Hc|]. split; [exact Hf|]. split; [exact Hs|].
  destruct (clear_keeps_corpus idx env old first second Hc Hf Hs) as (_ & _ & _ & Hids & Hb).
  split; [exact Hids|exact Hb].
Defined.

(** The first expansion on an empty memo table. *)
Lemma expand_query_cache_sound_witness :
  Expansion.coherent [] /\ List.NoDup (map fst ([] : Expansion.cache))
  /\ (List.length ([] : Expansion.cache) <= Expansion._cache_max_size)%nat
  /\ fst (Expansion._expand_query [] "Couch") = Hybrid._expand_query "Couch"
  /\ Expansion.cache_get (snd (Expansion._expand_query [] "Couch")) "Couch"
     = Some (Hybrid._expand_query "Couch").
Proof.
  assert (Hco : Expansion.coherent []) by (intros k v []).
  assert (Hnd : List.NoDup (map fst ([] : Expansion.cache))) by constructor.
  assert (Hlen : (List.length ([] : Expansion.cache) <= Expansion._cache_max_size)%nat)
    by (unfold Expansion._cache_max_size; cbn; lia).
  split; [exact Hco|]. split; [exact Hnd|]. split; [exact Hlen|].
  destruct (expand_query_cache_sound [] "Couch" Hco Hnd Hlen) as (A & _ & _ & _ & B).
  split; [exact A|exact B].
Defined.

(** The best result of a fused ranking was retrieved by a branch. *)
Lemma rank_returns_retrieved_witness :
  let bm25_results := [hit "A" 3 "Blue Office Chair"; hit "B" 2 "Office Desk"] in
  let vector_results := [hit "B" (1 # 2) "Office Desk"; hit "C" (9 # 10) "Garden Bench"] in
  exists f,
    List.In f (Hybrid.rank (6 # 10) "office desk" 5 bm25_results vector_results)
    /\ Hybrid.f_id f = "B"
    /\ Hybrid.retrieved bm25_results vector_results (Hybrid.f_id f) = true.
Proof.
  intros bm25_results vector_results.
  destruct (Hybrid.rank (6 # 10) "office desk" 5 bm25_results vector_results)
    as [|f rest] eqn:Hrank; [vm_compute in Hrank; discriminate Hrank|].
  exists f.
  assert (Hin : List.In f (Hybrid.rank (6 # 10) "office desk" 5 bm25_results vector_results))
    by (rewrite Hrank; left; reflexivity).
  split; [left; reflexivity|]. split.
  - vm_compute in Hrank. injection Hrank as <- _. reflexivity.
  - exact (rank_returns_retrieved (6 # 10) "office desk" 5 bm25_results vector_results f Hin).
Defined.


(** A product with two tags, once as JSON text and once as a list, under a
    colour filter. *)
Lemma json_tags_filtered_as_list_witness :
  let l := ["Color_Red"; "office"] in
  let p := {| Searcher.p_id := "C"; Searcher.p_name := Some "Desk Chair";
              Searcher.p_price := Some 250%Q; Searcher.p_description := Some "";
              Searcher.p_vendor := Some ""; Searcher.p_tags := None;
              Searcher.p_category := Some ""; Searcher.p_type := None;
              Searcher.p_in_stock := None |} in
  let f := {| Searcher.price_min := None; Searcher.price_max := None;
              Searcher.vendor := None; Searcher.category := None;
              Searcher.color := Some "red"; Searcher.material := None;
              Searcher.style := None; Searcher.room_type := None;
              Searcher.tags := None; Searcher.in_stock := None |} in
  Py.json_loads (Py.json_dumps l) = Some l
  /\ Searcher.passes f (Scenario.with_tags p (Some (Py.TagList l))) = true
  /\ Searcher.passes f (Scenario.with_tags p (Some (Py.TagText (Py.json_dumps l))))
     = Searcher.passes f (Scenario.with_tags p (Some (Py.TagList l))).
Proof.
  intros l p f.
  assert (Hrt : Py.json_loads (Py.json_dumps l) = Some l) by (vm_compute; reflexivity).
  split; [exact Hrt|]. split; [vm_compute; reflexivity|].
  exact (json_tags_filtered_as_list f p l Hrt).
Defined.

End ExtraRuns.

(** ** Worked runs of the product searcher *)

Section SearcherRuns.
Import Sample.
Import SearcherSample.

Example detect_price_examples :
  ProductSearch.detect_price "desk under $300" = Some 300%Q
  /\ ProductSearch.detect_price "sofa less   than 80 dollars" = Some 80%Q
  /\ ProductSearch.detect_price "climax 50" = Some 50%Q
  /\ ProductSearch.detect_price "under $ 300" = None
  /\ ProductSearch.detect_price "a cheap high-end sofa" = Some 200%Q
  /\ ProductSearch.detect_price "cheaper sofa" = None.
Proof. vm_compute. repeat split; reflexivity. Qed.

Example detect_keyword_examples :
  ProductSearch.detect_color "bored of my grey sofa" = Some "red"
  /\ ProductSearch.detect_material "a wood, steel desk" = Some "steel"
  /\ ProductSearch.detect_room "living room or office" = Some "office".
Proof. vm_compute. repeat split; reflexivity. Qed.

Example title_replace_examples :
  PyText.title (PyText.replace "color_" "" "color_dark_blue") = "Dark_Blue"
  /\ PyText.title "2nd hand-made" = "2Nd Hand-Made"
  /\ PyText.sorted ["White"; "Black"; "Blue"] = ["Black"; "Blue"; "White"].
Proof. vm_compute. repeat split; reflexivity. Qed.

(** A search for a red chair in the catalogue of one black chair: the chair
    is found, the colour red is detected and filters it out, and the answer
    is the notice with the colour on offer. *)
Lemma search_results_bounded_and_filtered_witness :
  exists s1,
    ProductSearch.cache_get (ProductSearch._cache searcher)
      (ProductSearch.cache_key "red chair" 5 None) = None
    /\ ProductSearch.search searcher "red chair" 5 None
       = Py.Ok (s1, ProductSearch.NoColorMatch "red" ["Black"])
    /\ exists results,
         Catalog.searchProducts (ProductSearch.catalog searcher) "red chair" 40
         = Py.Ok (ProductSearch.catalog s1, results)
         /\ map Hybrid.f_id results = ["C1"].
Proof.
  set (s1 := match ProductSearch.search searcher "red chair" 5 None with
             | Py.Ok (s1, _) => s1
             | Py.Raise _ => searcher
             end).
  assert (Hmiss : ProductSearch.cache_get (ProductSearch._cache searcher)
                    (ProductSearch.cache_key "red chair" 5 None) = None)
    by reflexivity.
  assert (Hs : ProductSearch.search searcher "red chair" 5 None
               = Py.Ok (s1, ProductSearch.NoColorMatch "red" ["Black"]))
    by (vm_compute; reflexivity).
  exists s1. split; [exact Hmiss|]. split; [exact Hs|].
  destruct (search_results_bounded_and_filtered searcher "red chair" 5 None s1 _ Hmiss Hs)
    as (results & Hcat & _).
  exists results. split; [exact Hcat|].
  assert (Hids : match Catalog.searchProducts (ProductSearch.catalog searcher)
                         "red chair" (Nat.min (5 * 8) 100) with
                 | Py.Ok (_, rs) => map Hybrid.f_id rs = ["C1"]
                 | Py.Raise _ => False
                 end) by (vm_compute; reflexivity).
  rewrite Hcat in Hids. exact Hids.
Defined.

(** The same search a second time: the cache answers with the empty list. *)
Lemma search_replays_cached_list_witness :
  exists s1,
    ProductSearch.search searcher "red chair" 5 None
    = Py.Ok (s1, ProductSearch.NoColorMatch "red" ["Black"])
    /\ ProductSearch.search s1 "red chair" 5 None = Py.Ok (s1, ProductSearch.Products []).
Proof.
  set (s1 := match ProductSearch.search searcher "red chair" 5 None with
             | Py.Ok (s1, _) => s1
             | Py.Raise _ => searcher
             end).
  assert (Hs : ProductSearch.search searcher "red chair" 5 None
               = Py.Ok (s1, ProductSearch.NoColorMatch "red" ["Black"]))
    by (vm_compute; reflexivity).
  exists s1. split; [exact Hs|].
  exact (proj1 (search_replays_cached_list searcher "red chair" 5 None s1 _
                  "red chair" 5 None Hs eq_refl)).
Defined.

(** The category lounge: the chair comes back and carries the tag. *)
Lemma search_by_category_results_tagged_witness :
  exists s1 p,
    ProductSearch.search_by_category searcher "Lounge" 10
    = Py.Ok (s1, ProductSearch.Products [p])
    /\ Searcher.p_id p = "C1"
    /\ PyStr.mem "lounge" (map PyStr.lower (Searcher._parse_tags (Searcher.p_tags p))) = true.
Proof.
  set (out := ProductSearch.search_by_category searcher "Lounge" 10).
  set (s1 := match out with Py.Ok (s1, _) => s1 | Py.Raise _ => searcher end).
  set (p := match out with
            | Py.Ok (_, ProductSearch.Products (p :: _)) => p
            | _ => {| Searcher.p_id := ""; Searcher.p_name := None;
                      Searcher.p_price := None; Searcher.p_description := None;
                      Searcher.p_vendor := None; Searcher.p_tags := None;
                      Searcher.p_category := None; Searcher.p_type := None;
                      Searcher.p_in_stock := None |}
            end).
  assert (Hs : ProductSearch.search_by_category searcher "Lounge" 10
               = Py.Ok (s1, ProductSearch.Products [p]))
    by (vm_compute; reflexivity).
  exists s1, p. split; [exact Hs|]. split; [vm_compute; reflexivity|].
  exact (search_by_category_results_tagged searcher "Lounge" 10 s1 _ p eq_refl Hs
           (or_introl eq_refl)).
Defined.

(** The cache after the first search holds one entry. *)
Lemma search_cache_bounded_witness :
  exists s1 r1,
    (List.length (ProductSearch._cache searcher) <= ProductSearch._cache_max_size)%nat
    /\ ProductSearch.search searcher "red chair" 5 None = Py.Ok (s1, r1)
    /\ (List.length (ProductSearch._cache s1) <= ProductSearch._cache_max_size)%nat
    /\ List.length (ProductSearch._cache s1) = 1%nat.
Proof.
  set (out := ProductSearch.search searcher "red chair" 5 None).
  set (s1 := match out with Py.Ok (s1, _) => s1 | Py.Raise _ => searcher end).
  set (r1 := match out with Py.Ok (_, r1) => r1 | Py.Raise _ => ProductSearch.Products [] end).
  assert (Hlen : (List.length (ProductSearch._cache searcher)
                  <= ProductSearch._cache_max_size)%nat)
    by (unfold ProductSearch._cache_max_size; cbn; lia).
  assert (Hs : ProductSearch.search searcher "red chair" 5 None = Py.Ok (s1, r1))
    by (vm_compute; reflexivity).
  exists s1, r1. split; [exact Hlen|]. split; [exact Hs|]. split.
  - exact (search_cache_bounded searcher "red chair" 5 None s1 r1 Hlen Hs).
  - vm_compute. reflexivity.
Defined.

End SearcherRuns.

(** ** Ingestion of specifications *)

Lemma str_of_nat_inj (n m : nat) : PyText.str_of_nat n = PyText.str_of_nat m -> n = m.
Proof.
  unfold PyText.str_of_nat. intros Heq.
  assert (Hnn : forall k, Nat.to_uint k <> Decimal.Nil).
  { intros k. rewrite <- (DecimalNat.Unsigned.of_to k) at 1.
    rewrite DecimalNat.Unsigned.to_of. apply DecimalFacts.unorm_nonnil. }
  apply DecimalNat.Unsigned.to_uint_inj.
  pose proof (DecimalString.NilZero.usu _ (Hnn n)) as Hn.
  pose proof (DecimalString.NilZero.usu _ (Hnn m)) as Hm.
  rewrite Heq in Hn. congruence.
Qed.

Lemma digits_no_underscore (d : Decimal.uint) :
  PyStr.all_chars PyText.not_underscore (DecimalString.NilEmpty.string_of_uint d) = true.
Proof. induction d; cbn; auto. Qed.

Lemma str_of_nat_no_underscore (n : nat) :
  PyStr.all_chars PyText.not_underscore (PyText.str_of_nat n) = true.
Proof.
  unfold PyText.str_of_nat, DecimalString.NilZero.string_of_uint.
  destruct (Nat.to_uint n); try apply digits_no_underscore. reflexivity.
Qed.

Lemma no_underscore_inside (a d : string) :
  PyStr.all_chars PyText.not_underscore (a ++ "_" ++ d) = false.
Proof.
  induction a as [|x r IH]; [reflexivity|].
  change (PyText.not_underscore x
          && PyStr.all_chars PyText.not_underscore (r ++ "_" ++ d) = false).
  rewrite IH. apply andb_false_r.
Qed.

(** The text after the last underscore determines the rest. *)
Lemma last_field_inj (a a' d d' : string) :
  PyStr.all_chars PyText.not_underscore d = true ->
  PyStr.all_chars PyText.not_underscore d' = true ->
  (a ++ "_" ++ d = a' ++ "_" ++ d')%string -> a = a' /\ d = d'.
Proof.
  revert a'. induction a as [|x r IH]; intros [|x' r'] Hd Hd' Heq.
  - change (String "_"%char d = String "_"%char d') in Heq. injection Heq as ->. auto.
  - change (String "_"%char d = String x' (r' ++ "_" ++ d')) in Heq.
    injection Heq as <- ->. now rewrite no_underscore_inside in Hd.
  - change (String x (r ++ "_" ++ d) = String "_"%char d') in Heq.
    injection Heq as -> <-. now rewrite no_underscore_inside in Hd'.
  - change (String x (r ++ "_" ++ d) = String x' (r' ++ "_" ++ d')) in Heq.
    injection Heq as -> Heq. destruct (IH r' Hd Hd' Heq) as [-> ->]. auto.
Qed.

Section SpecIngest.
Context `{Py.Runtime} `{Index.Scorer} `{Index.Pickle} `{Vector.Backend}.

Lemma spec_document_id (idx : nat) (spec : Specs.Spec) (doc : Model.IndexDocument) :
  Specs.spec_document idx spec = Py.Ok doc ->
  exists stem, Model.id doc = (stem ++ "_" ++ PyText.str_of_nat idx)%string
               /\ Specs.s_sku spec = Model.m_sku (Model.metadata doc)
               /\ Specs.s_section spec = Model.m_section (Model.metadata doc)
               /\ Specs.s_spec_text spec = Some (Model.content doc).
Proof.
  unfold Specs.spec_document.
  destruct (Specs.s_sku spec) as [sku|], (Specs.s_section spec) as [section|],
    (Specs.s_spec_text spec) as [text|]; try discriminate.
  intros [= <-]. exists (sku ++ "_" ++ section)%string. cbn.
  rewrite !append_assoc. auto.
Qed.

Lemma documents_from_spec (specs : list Specs.Spec) :
  forall idx documents,
    Specs.documents_from idx specs = Py.Ok documents ->
    List.length documents = List.length specs
    /\ forall i doc, nth_error documents i = Some doc ->
         exists spec, nth_error specs i = Some spec
                      /\ Specs.spec_document (idx + i) spec = Py.Ok doc.
Proof.
  induction specs as [|spec rest IH]; intros idx documents; cbn [Specs.documents_from].
  - intros [= <-]. split; [reflexivity|]. intros [|i] doc; discriminate.
  - destruct (Specs.spec_document idx spec) as [d|e] eqn:Hd; [|discriminate].
    cbn [Py.bind].
    destruct (Specs.documents_from (S idx) rest) as [ds|e] eqn:Hds; [|discriminate].
    cbn [Py.bind]. intros [= <-]. destruct (IH _ _ Hds) as [Hlen Hnth].
    split; [cbn; now rewrite Hlen|].
    intros [|i] doc; cbn [nth_error].
    + intros [= <-]. exists spec. rewrite Nat.add_0_r. auto.
    + intros Hi. destruct (Hnth i doc Hi) as (sp & Hsp & Hdoc). exists sp.
      split; [exact Hsp|]. now rewrite Nat.add_succ_r.
Qed.

Lemma documents_from_raises (specs : list Specs.Spec) :
  forall idx,
    (exists spec, List.In spec specs
                  /\ (Specs.s_sku spec = None \/ Specs.s_section spec = None
                      \/ Specs.s_spec_text spec = None)) ->
    Specs.documents_from idx specs = Py.Raise Py.KeyError.
Proof.
  induction specs as [|spec rest IH]; intros idx (bad & Hin & Hbad); [destruct Hin|].
  cbn [Specs.documents_from].
  destruct (Specs.spec_document idx spec) as [d|e] eqn:Hd.
  - cbn [Py.bind]. destruct Hin as [<-|Hin].
    + unfold Specs.spec_document in Hd.
      destruct Hbad as [Hb|[Hb|Hb]]; rewrite Hb in Hd;
        repeat (match type of Hd with
                | context [match ?o with _ => _ end] => destruct o
                end); discriminate.
    + rewrite (IH (S idx)); [reflexivity|]. exists bad. auto.
  - unfold Specs.spec_document in Hd.
    repeat (match type of Hd with
            | context [match ?o with _ => _ end] => destruct o
            end); try discriminate; injection Hd as <-; reflexivity.
Qed.

Lemma documents_from_ids_distinct (specs : list Specs.Spec) (idx : nat)
    (documents : list Model.IndexDocument) :
  Specs.documents_from idx specs = Py.Ok documents ->
  List.NoDup (map Model.id documents).
Proof.
  intros Hdocs. destruct (documents_from_spec specs idx documents Hdocs) as [_ Hnth].
  apply (proj2 (List.NoDup_nth_error (map Model.id documents))).
  intros i j Hi Heq. rewrite length_map in Hi.
  destruct (nth_error documents i) as [di|] eqn:Hdi;
    [|apply nth_error_None in Hdi; lia].
  rewrite (nth_error_map Model.id i documents), Hdi in Heq. cbn in Heq.
  rewrite (nth_error_map Model.id j documents) in Heq.
  destruct (nth_error documents j) as [dj|] eqn:Hdj; [|discriminate].
  cbn in Heq. injection Heq as Heq.
  destruct (Hnth i di Hdi) as (si & _ & Hsi). destruct (Hnth j dj Hdj) as (sj & _ & Hsj).
  apply spec_document_id in Hsi, Hsj.
  destruct Hsi as (stem_i & Hidi & _). destruct Hsj as (stem_j & Hidj & _).
  rewrite Hidi, Hidj in Heq.
  apply last_field_inj in Heq; try apply str_of_nat_no_underscore.
  destruct Heq as [_ Heq]. apply str_of_nat_inj in Heq. lia.
Qed.

Lemma merge_specs (docs : list Model.IndexDocument) :
  forall env,
    Index.specs (fold_left (Index.merge_doc "product_specs_index") docs env)
    = fold_left (fun acc doc => <[Model.id doc := Index.spec_row doc]> acc)
        docs (Index.specs env).
Proof.
  induction docs as [|d r IH]; intros env; cbn [fold_left]; [reflexivity|].
  now rewrite IH.
Qed.

(** X26: [addSpecs] gives every specification of a batch a document id of
    its own, also when sku and section repeat, so that after the call the
    table of the specs index holds for each position of the batch the row
    built from that specification; the lexical index holds one id per
    specification; and a specification without sku, section or text makes
    the call raise [KeyError]. *)
Theorem addSpecs_keeps_every_spec (c : Catalog.CatalogIndexer) (specs : list Specs.Spec) :
  Index.index_name (Catalog.specs_bm25 c) = "product_specs_index" ->
  Index.bm25 (Catalog.specs_bm25 c) = None ->
  match Specs.addSpecs c specs with
  | Py.Ok c' =>
      exists documents,
        Specs.documents_from 0 specs = Py.Ok documents
        /\ List.length documents = List.length specs
        /\ List.NoDup (map Model.id documents)
        /\ (specs <> [] -> Index.doc_ids (Catalog.specs_bm25 c') = map Model.id documents)
        /\ forall i spec, nth_error specs i = Some spec ->
             exists sku section text,
               Specs.s_sku spec = Some sku /\ Specs.s_section spec = Some section
               /\ Specs.s_spec_text spec = Some text
               /\ Index.specs (Catalog.env c')
                    !! (sku ++ "_" ++ section ++ "_" ++ PyText.str_of_nat i)%string
                  = Some {| Model.spec_id :=
                              (sku ++ "_" ++ section ++ "_" ++ PyText.str_of_nat i)%string;
                            Model.spec_sku := sku; Model.section := section;
                            Model.spec_text := text;
                            Model.attributes_json :=
                              Py.get (Specs.s_attributes spec) "{}" |}
  | Py.Raise e =>
      e = Py.KeyError
      /\ exists spec, List.In spec specs
                      /\ (Specs.s_sku spec = None \/ Specs.s_section spec = None
                          \/ Specs.s_spec_text spec = None)
  end.
Proof.
  intros Hname Hnew. unfold Specs.addSpecs.
  destruct (Specs.documents_from 0 specs) as [documents|e] eqn:Hdocs; cbn [Py.bind].
  - destruct (Index.add_documents (Catalog.specs_bm25 c) (Catalog.env c) documents)
      as [idx env1] eqn:Hadd.
    exists documents. split; [reflexivity|].
    destruct (documents_from_spec specs 0 documents Hdocs) as [Hlen Hnth].
    pose proof (documents_from_ids_distinct specs 0 documents Hdocs) as Hnd.
    split; [exact Hlen|]. split; [exact Hnd|].
    assert (Hrows : Index.specs env1
                    = fold_left (fun acc doc => <[Model.id doc := Index.spec_row doc]> acc)
                        documents (Index.specs (Catalog.env c))
                    /\ (documents <> [] -> Index.doc_ids idx = map Model.id documents)).
    { unfold Index.add_documents in Hadd. destruct documents as [|d ds].
      - injection Hadd as <- <-. split; [reflexivity|congruence].
      - rewrite Hnew in Hadd. injection Hadd as <- <-. rewrite Hname.
        split; [apply (merge_specs (d :: ds))|].
        intros _. now destruct (Index.corpus (Catalog.specs_bm25 c)). }
    destruct Hrows as [Hrows Hids]. split.
    { intros Hne. cbn [Catalog.specs_bm25]. apply Hids.
      intros ->. destruct specs; [congruence|discriminate Hlen]. }
    intros i spec Hi. cbn [Catalog.env].
    rewrite (proj2 (save_keeps_rows idx env1)), Hrows.
    destruct (nth_error documents i) as [doc|] eqn:Hdoc.
    2:{ apply nth_error_None in Hdoc.
        assert (i < List.length specs)%nat by (apply nth_error_Some; congruence). lia. }
    destruct (Hnth i doc Hdoc) as (spec' & Hspec' & Hbuild).
    rewrite Hi in Hspec'. injection Hspec' as <-. cbn [Nat.add] in Hbuild.
    unfold Specs.spec_document in Hbuild.
    destruct (Specs.s_sku spec) as [sku|], (Specs.s_section spec) as [section|],
      (Specs.s_spec_text spec) as [text|]; try discriminate.
    injection Hbuild as Hbuild. exists sku, section, text.
    split; [reflexivity|]. split; [reflexivity|]. split; [reflexivity|].
    apply nth_error_In in Hdoc.
    pose proof (fold_insert_hit Model.id Index.spec_row documents doc
                  (Index.specs (Catalog.env c)) Hnd Hdoc) as Hhit.
    rewrite <- Hbuild in Hhit. cbn [Model.id] in Hhit. rewrite Hhit.
    reflexivity.
  - assert (Hbad : e = Py.KeyError
                   /\ exists spec, List.In spec specs
                        /\ (Specs.s_sku spec = None \/ Specs.s_section spec = None
                            \/ Specs.s_spec_text spec = None)).
    { clear Hname Hnew. revert Hdocs. generalize 0%nat.
      induction specs as [|spec rest IH]; intros idx; cbn [Specs.documents_from];
        [discriminate|].
      destruct (Specs.spec_document idx spec) as [d|e'] eqn:Hd; cbn [Py.bind].
      - destruct (Specs.documents_from (S idx) rest) as [ds|e'] eqn:Hds; cbn [Py.bind];
          [discriminate|].
        intros [= <-]. destruct (IH _ Hds) as (He & bad & Hin & Hbad).
        split; [exact He|]. exists bad. split; [now right|exact Hbad].
      - intros [= <-]. unfold Specs.spec_document in Hd.
        destruct (Specs.s_sku spec) as [sku|] eqn:Hk1; [|split;
          [now injection Hd|exists spec; split; [now left|auto]]].
        destruct (Specs.s_section spec) as [section|] eqn:Hk2; [|split;
          [now injection Hd|exists spec; split; [now left|auto]]].
        destruct (Specs.s_spec_text spec) as [text|] eqn:Hk3; [discriminate|].
        split; [now injection Hd|exists spec; split; [now left|auto]]. }
    exact Hbad.
Qed.

End SpecIngest.

(** ** Preparation of products before ingestion *)

Section LoaderProps.
Context `{Loader.SpecsJson}.

Lemma process_products_loop (shopify_domain : string) (products : list Loader.Product) :
  forall acc,
    fold_left (fun processed p => processed ++ [Loader.process_product shopify_domain p])
              products acc
    = acc ++ map (Loader.process_product shopify_domain) products.
Proof.
  induction products as [|p r IH]; intros acc; cbn [fold_left map].
  - now rewrite app_nil_r.
  - rewrite IH, <- app_assoc. reflexivity.
Qed.

Lemma process_products_map (shopify_domain : string) (products : list Loader.Product) :
  Loader.process_products shopify_domain products
  = map (Loader.process_product shopify_domain) products.
Proof. unfold Loader.process_products. now rewrite process_products_loop. Qed.

Lemma truthy_text_of (v : Loader.value) :
  Loader.truthy v = true -> v = Loader.Text (Loader.text_of v) /\ Loader.text_of v <> "".
Proof.
  destruct v as [| |t]; cbn; try discriminate. intros Ht. split; [reflexivity|].
  apply negb_true_iff in Ht. now apply String.eqb_neq.
Qed.

Lemma prefix_nonempty (a b : string) : a <> "" -> (a ++ b)%string <> "".
Proof. destruct a; [congruence|]. intros _. discriminate. Qed.

(** X27: [process_products] returns as many products as it is given, in the
    same order, with sku, handle and title untouched; every returned product
    has a non-empty url: the given one when there is one, and otherwise a
    url that starts with the store's product address; and it carries an
    inventory quantity, 0 unless the specs are (or parse to) a dictionary
    that holds one. *)
Theorem process_products_ensures_url (shopify_domain : string)
    (products : list Loader.Product) :
  let processed := Loader.process_products shopify_domain products in
  List.length processed = List.length products
  /\ forall i p, nth_error products i = Some p ->
       exists p',
         nth_error processed i = Some p'
         /\ Loader.sku p' = Loader.sku p /\ Loader.handle p' = Loader.handle p
         /\ Loader.title p' = Loader.title p
         /\ (exists url, Loader.product_url p' = Loader.Text url /\ url <> ""
               /\ (Loader.truthy (Loader.product_url p) = true ->
                   Loader.product_url p' = Loader.product_url p)
               /\ (Loader.truthy (Loader.product_url p) = false ->
                   String.prefix (Loader.base_url shopify_domain) url = true))
         /\ (exists quantity, Loader.inventory_quantity p' = Some quantity
               /\ ((forall q, Loader.specs p' <> Loader.SpecsDict (Some q)) ->
                   quantity = 0%Z)).
Proof.
  cbn zeta. rewrite process_products_map. split; [apply length_map|].
  intros i p Hi. exists (Loader.process_product shopify_domain p).
  split; [now apply map_nth_error|].
  unfold Loader.process_product.
  cbn [Loader.sku Loader.handle Loader.title Loader.product_url Loader.specs
       Loader.inventory_quantity].
  split; [reflexivity|]. split; [reflexivity|]. split; [reflexivity|]. split.
  - assert (Hbase : Loader.base_url shopify_domain <> "") by (unfold Loader.base_url; discriminate).
    destruct (Loader.truthy (Loader.product_url p)) eqn:Hurl.
    + destruct (truthy_text_of _ Hurl) as [Heq Hne].
      exists (Loader.text_of (Loader.product_url p)).
      split; [exact Heq|]. split; [exact Hne|]. split; [reflexivity|discriminate].
    + destruct (Loader.truthy (Loader.handle p));
        [|destruct (Loader.truthy (Loader.title p))];
        eexists; (split; [reflexivity|]);
        (split; [now apply prefix_nonempty|]);
        (split; [discriminate|]); intros _; apply prefix_append.
  - eexists. split; [reflexivity|]. intros Hno.
    destruct (match Loader.specs p with
              | Loader.SpecsText t => Py.get (Loader.loads_specs t) (Loader.SpecsDict None)
              | other => other
              end) as [| |[q|]|]; try reflexivity.
    now destruct (Hno q).
Qed.

End LoaderProps.

(** ** Worked runs of the ingestion of specifications *)

Section SpecRuns.
Import Sample.

(** Two specifications with the same sku and section: both rows are kept. *)
Lemma addSpecs_keeps_every_spec_witness :
  let c := Catalog.fresh empty_env empty_vector empty_vector in
  let spec text := {| Specs.s_sku := Some "C1"; Specs.s_section := Some "Material";
                      Specs.s_spec_text := Some text; Specs.s_attributes := None |} in
  Index.index_name (Catalog.specs_bm25 c) = "product_specs_index"
  /\ Index.bm25 (Catalog.specs_bm25 c) = None
  /\ exists c',
       Specs.addSpecs c [spec "Material: leather"; spec "Material: oak"] = Py.Ok c'
       /\ Model.spec_text <$> (Index.specs (Catalog.env c') !! "C1_Material_0")
          = Some "Material: leather"
       /\ Model.spec_text <$> (Index.specs (Catalog.env c') !! "C1_Material_1")
          = Some "Material: oak".
Proof.
  intros c spec. split; [reflexivity|]. split; [reflexivity|].
  pose proof (addSpecs_keeps_every_spec c [spec "Material: leather"; spec "Material: oak"]
                eq_refl eq_refl) as Hw.
  destruct (Specs.addSpecs c [spec "Material: leather"; spec "Material: oak"])
    as [c'|e]; [|destruct Hw as (_ & bad & [<-|[<-|[]]] & [Hb|[Hb|Hb]]); discriminate Hb].
  exists c'. split; [reflexivity|].
  destruct Hw as (documents & _ & _ & _ & _ & Hrows).
  destruct (Hrows 0%nat (spec "Material: leather") eq_refl)
    as (sku0 & sec0 & text0 & [= <-] & [= <-] & [= <-] & Hrow0).
  destruct (Hrows 1%nat (spec "Material: oak") eq_refl)
    as (sku1 & sec1 & text1 & [= <-] & [= <-] & [= <-] & Hrow1).
  split.
  - change ("C1_Material_0") with ("C1" ++ "_" ++ "Material" ++ "_" ++ PyText.str_of_nat 0)%string.
    rewrite Hrow0. reflexivity.
  - change ("C1_Material_1") with ("C1" ++ "_" ++ "Material" ++ "_" ++ PyText.str_of_nat 1)%string.
    rewrite Hrow1. reflexivity.
Defined.

End SpecRuns.

(** ** When the lexical search raises *)

Section SearchErrors.
Context `{Index.Scorer} `{Index.Pickle}.

Lemma ids_at_raises (ids : list string) (indices : list nat) :
  (exists i, List.In i indices /\ (List.length ids <= i)%nat) ->
  Index.ids_at ids indices = Py.Raise Py.IndexError.
Proof.
  induction indices as [|j r IH]; intros (i & Hin & Hi); [destruct Hin|].
  cbn [Index.ids_at]. destruct (nth_error ids j) as [d|] eqn:Hj; [|reflexivity].
  destruct Hin as [->|Hin].
  - apply nth_error_None in Hi. congruence.
  - rewrite IH; [reflexivity|]. exists i. auto.
Qed.

Lemma search_raises (idx : Index.BM25Index) (env : Index.Env) (scorer : Index.BM25Okapi)
    (query : string) (limit i : nat) :
  Index.bm25 idx = Some scorer ->
  BM25._tokenize query <> [] ->
  List.In i (Index.top_indices (Index.get_scores scorer (BM25._tokenize query)) limit) ->
  (List.length (Index.doc_ids idx) <= i)%nat ->
  Index.search idx env query limit = Py.Raise Py.IndexError.
Proof.
  intros Hb Htok Hin Hi. unfold Index.search. rewrite Hb. unfold Index.search_loaded.
  destruct (BM25._tokenize query) as [|t ts]; [contradiction|].
  destruct (Index.top_indices _ limit) as [|j r] eqn:Htop; [destruct Hin|].
  rewrite ids_at_raises; [reflexivity|]. exists i. auto.
Qed.

(** X28: a search on an index that was built by ingesting batches into a new
    index, at least one document in all, never raises, provided the scorer
    gives one score per document it was fitted on. *)
Theorem search_after_ingestion_never_raises (name : string) (env : Index.Env)
    (batches : list (list Model.IndexDocument)) (query : string) (limit : nat) :
  (forall fitted tokens,
     List.length (Index.get_scores fitted tokens)
     = List.length (Index.fitted_corpus fitted)) ->
  concat (map (map Model.id) batches) <> [] ->
  let st := Scenario.ingest_all name env batches in
  exists results,
    Index.search (fst st) (snd st) query limit = Py.Ok (fst st, snd st, results).
Proof.
  intros Hscores Hne st.
  destruct (ingest_fold batches (Index.init name) env [] []) as [Hids Hst].
  { split; [reflexivity|left; auto]. }
  cbn [app] in Hids, Hst. fold (Scenario.ingest_all name env batches) in Hids, Hst.
  fold st in Hids, Hst.
  destruct Hst as [(_ & _ & Hnil & _)|(Hb & _ & _)]; [contradiction|].
  apply (index_search_returns _ _ _ _ _ Hb).
  intros tokens. rewrite Hscores, Hids. cbn [Index.fitted_corpus].
  now rewrite batches_ids_tokens_length.
Qed.

(** X29: an index that holds a corpus and is cleared and then fed two
    non-empty batches has its scorer fitted on the old corpus followed by
    the second batch, but only the ids of the two batches; a search in which
    one of the top-scoring corpus positions lies beyond those ids raises
    [IndexError]. *)
Theorem search_after_clear_and_reingest_raises
    (idx : Index.BM25Index) (env : Index.Env) (old : list (list string))
    (first second : list Model.IndexDocument) (query : string) (limit i : nat) :
  Index.corpus idx = Some old ->
  first <> [] -> second <> [] ->
  let cleared := Index.clear idx env in
  let one := Index.add_documents (fst cleared) (snd cleared) first in
  let two := Index.add_documents (fst one) (snd one) second in
  let scores :=
    Index.get_scores {| Index.fitted_corpus := old ++ Scenario.tokens_of second |}
                     (BM25._tokenize query) in
  BM25._tokenize query <> [] ->
  List.In i (Index.top_indices scores limit) ->
  (List.length first + List.length second <= i)%nat ->
  Index.search (fst two) (snd two) query limit = Py.Raise Py.IndexError.
Proof.
  intros Hc Hf Hs cleared one two scores Htok Hin Hi.
  assert (Hstate : Index.bm25 (fst two)
                   = Some {| Index.fitted_corpus := old ++ Scenario.tokens_of second |}
                   /\ Index.doc_ids (fst two) = map Model.id first ++ map Model.id second).
  { unfold two, one, cleared. destruct first as [|f fs]; [contradiction|].
    destruct second as [|g gs]; [contradiction|].
    cbn. rewrite Hc. cbn. split; reflexivity. }
  destruct Hstate as [Hb Hids].
  apply (search_raises _ _ _ _ _ i Hb Htok Hin).
  rewrite Hids, length_app, !length_map. exact Hi.
Qed.

End SearchErrors.

Section SearchErrorRuns.
Import Sample.

(** One batch of one chair, then a search. *)
Lemma search_after_ingestion_never_raises_witness :
  let batch := Catalog.unique_documents [product "C1" "Club Chair" 120 "leather armchair"] in
  (forall fitted tokens,
     List.length (Index.get_scores fitted tokens)
     = List.length (Index.fitted_corpus fitted))
  /\ concat (map (map Model.id) [batch]) <> []
  /\ exists results,
       Index.search (fst (Scenario.ingest_all "products_index" empty_env [batch]))
                    (snd (Scenario.ingest_all "products_index" empty_env [batch]))
                    "leather chair" 5
       = Py.Ok (fst (Scenario.ingest_all "products_index" empty_env [batch]),
                snd (Scenario.ingest_all "products_index" empty_env [batch]), results).
Proof.
  intros batch.
  assert (Hscores : forall fitted tokens,
             List.length (Index.get_scores fitted tokens)
             = List.length (Index.fitted_corpus fitted))
    by (intros fitted tokens; apply length_map).
  assert (Hne : concat (map (map Model.id) [batch]) <> []) by (vm_compute; discriminate).
  split; [exact Hscores|]. split; [exact Hne|].
  exact (search_after_ingestion_never_raises "products_index" empty_env [batch]
           "leather chair" 5 Hscores Hne).
Defined.

(** An index of a chair and a desk is cleared and fed a lamp, then a rug:
    the scorer knows three documents, the index two ids, and the search for
    the rug raises. *)
Lemma search_after_clear_and_reingest_raises_witness :
  let docs l := Catalog.unique_documents l in
  let built :=
    Index.add_documents (Index.init "products_index") empty_env
      (docs [product "C1" "Club Chair" 120 "leather armchair";
             product "D1" "Oak Desk" 300 "solid oak"]) in
  let old := [BM25._tokenize "Club Chair  leather armchair";
              BM25._tokenize "Oak Desk  solid oak"] in
  let first := docs [product "L1" "Floor Lamp" 60 "brass"] in
  let second := docs [product "R1" "Wool Rug" 90 "woven"] in
  let cleared := Index.clear (fst built) (snd built) in
  let one := Index.add_documents (fst cleared) (snd cleared) first in
  let two := Index.add_documents (fst one) (snd one) second in
  Index.corpus (fst built) = Some old /\ first <> [] /\ second <> []
  /\ BM25._tokenize "wool rug" <> []
  /\ Index.doc_ids (fst two) = ["L1"; "R1"]
  /\ Index.search (fst two) (snd two) "wool rug" 5 = Py.Raise Py.IndexError.
Proof.
  intros docs built old first second cleared one two.
  assert (Hc : Index.corpus (fst built) = Some old) by (vm_compute; reflexivity).
  assert (Hf : first <> []) by (vm_compute; discriminate).
  assert (Hs : second <> []) by (vm_compute; discriminate).
  assert (Htok : BM25._tokenize "wool rug" <> []) by (vm_compute; discriminate).
  split; [exact Hc|]. split; [exact Hf|]. split; [exact Hs|]. split; [exact Htok|].
  split; [vm_compute; reflexivity|].
  apply (search_after_clear_and_reingest_raises (fst built) (snd built) old first second
           "wool rug" 5 2 Hc Hf Hs Htok).
  - vm_compute. left. reflexivity.
  - vm_compute. lia.
Defined.

End SearchErrorRuns.
